(** * firebase_config.py: credential bootstrap and sample-data seeding

    A shallow embedding of [src/firebase_config.py].  The module is glue
    around the Firebase Admin SDK, so the embedding makes every interaction
    with the outside explicit:

    - the Python object [FirebaseConfig] is a record of its three fields;
    - the process-wide app registry, the document store, the console and
      the log of every call that leaves the module live in a [State]
      record threaded through an exception-and-state monad [M];
    - what the module cannot control (file system, environment variables,
      the JSON parser, SDK failures, the wall clock, the random number
      generator, float rounding) is an [Env] read by the primitives.

    A Python exception leaves the mutations performed before it in place,
    so [M] returns the state next to the outcome, also when it raises.

    The embedding comes twice.  The first runs the module on a host that
    lets it work: the console writes every line and no KeyboardInterrupt
    or SystemExit arrives.  The second, [OnHost], runs it on a host that
    may do both.  The two agree on a host of the first kind; which
    exceptions reach a caller is settled on the second. *)

From Stdlib Require Import String Ascii List ZArith NArith QArith Qround Lia Lqa Bool Arith.
Import ListNotations.
Local Open Scope string_scope.

(* ------------------------------------------------------------------ *)
(** ** Values handled by the module *)

(** An instance of Python's [Exception] class, with its message.  Every
    error the json module and the SDK raise derives from [Exception], and
    so does the UnicodeEncodeError of a console that cannot encode a line.
    What derives from [BaseException] only is an [interruption], below. *)
Inductive exn : Type :=
| JSONDecodeError (msg : string)
| TypeError (msg : string)
| ValueError (msg : string)
| AttributeError (msg : string)
| UnicodeEncodeError (msg : string)
| SDKError (msg : string).

Definition exn_message (e : exn) : string :=
  match e with
  | JSONDecodeError m | TypeError m | ValueError m | AttributeError m
  | UnicodeEncodeError m | SDKError m => m
  end.

(** A parsed JSON document, kept opaque: only the SDK looks inside. *)
Inductive Json : Type := Parsed (text : string).

(** [credentials.Certificate(path)], [credentials.Certificate(dict)] and
    [credentials.ApplicationDefault()]. *)
Inductive Credential : Type :=
| CertificateFile (path : string)
| CertificateInfo (info : Json)
| ApplicationDefault.

(** [firebase_admin.App]: the app remembers the credential it was made of. *)
Inductive App : Type := MkApp (cred : Credential).

(** [google.cloud.firestore.Client], the handle [firestore.client()]
    returns.  The SDK returns an object, never [None]; [None] only comes
    from the assignment in [__init__], hence [option Client] in the
    object's field. *)
Inductive Client : Type := MkClient.

(** Values stored in a Firestore document.  A [datetime] is its number of
    microseconds since 1970-01-01 (the resolution of Python's datetime);
    a float is the rational it denotes. *)
#[warnings="-register-all"]
Inductive Value : Type :=
| VTimestamp (t : Z)
| VFloat (q : Q)
| VInt (z : Z)
| VStr (s : string)
| VBool (b : bool)
| VList (l : list Value)
| VMap (m : list (string * Value)).

(** A Python dict literal, keys in the order they are written. *)
Definition Doc : Type := list (string * Value).

Fixpoint doc_get (k : string) (d : Doc) : option Value :=
  match d with
  | [] => None
  | (k', v) :: d' => if String.eqb k k' then Some v else doc_get k d'
  end.

Definition timestamp_of (d : Doc) : option Z :=
  match doc_get "timestamp" d with
  | Some (VTimestamp t) => Some t
  | _ => None
  end.

(** Consecutive timestamps of a list of documents differ by exactly [gap],
    the later document being the earlier in time. *)
Fixpoint spaced_by (gap : Z) (docs : list Doc) : bool :=
  match docs with
  | d1 :: ((d2 :: _) as rest) =>
      match timestamp_of d1, timestamp_of d2 with
      | Some t1, Some t2 => Z.eqb (t1 - t2) gap && spaced_by gap rest
      | _, _ => false
      end
  | _ => true
  end.

(* ------------------------------------------------------------------ *)
(** ** The object and the world around it *)

Record FirebaseConfig : Type := MkFirebaseConfig {
  app : option App;
  db : option Client;
  is_initialized : bool
}.

(** Every call that leaves the module, in the order it is made.  A call is
    logged when it is made, whether or not it then raises. *)
Inductive event : Type :=
| EAppsRead                              (* firebase_admin._apps *)
| EGetApp                                (* firebase_admin.get_app() *)
| EFirestoreClient                       (* firestore.client() *)
| EPathExists (path : string)            (* os.path.exists(path) *)
| EGetenv (name : string)                (* os.getenv(name) *)
| EJsonLoads (text : option string)      (* json.loads(text) *)
| ECertificateFile (path : string)       (* credentials.Certificate(path) *)
| ECertificateInfo (info : Json)         (* credentials.Certificate(dict) *)
| EApplicationDefault                    (* credentials.ApplicationDefault() *)
| EInitializeApp (cred : Credential)     (* firebase_admin.initialize_app(cred) *)
| ECollection (name : string)            (* db.collection(name) *)
| ELimitGet (name : string) (n : nat)    (* collection.limit(n).get() *)
| EAdd (name : string) (d : Doc)         (* collection.add(d) *)
| ENow                                   (* datetime.now() *)
| ERandom                                (* random.random() *)
| EPrint (line : string).                (* print(line) *)

(** Float arithmetic of the interpreter: [fl] rounds an exact result to the
    nearest representable float.  The two laws are the ones IEEE-754
    binary64 rounding to nearest has: it is monotone, and the integers up
    to 2^53 are representable. *)
Class FloatFormat : Type := {
  fl : Q -> Q;
  fl_monotone : forall x y : Q, (x <= y)%Q -> (fl x <= fl y)%Q;
  fl_integer :
    forall z : Z, (Z.abs z <= 2 ^ 53)%Z -> (fl (inject_Z z) == inject_Z z)%Q
}.

(** What the module reads but does not control. *)
Record Env : Type := MkEnv {
  module_dir : string;                   (* os.path.dirname(__file__) *)
  path_exists : string -> bool;          (* the file system *)
  environ : string -> option string;     (* os.environ *)
  json_parse : string -> option Json;    (* json.loads; None: not JSON *)
  fault : nat -> option exn;             (* the n-th SDK call raises *)
  clock : nat -> Z;                      (* n-th reading of datetime.now() *)
  rng : nat -> N                         (* n-th draw of the generator *)
}.

Record State : Type := MkState {
  self : FirebaseConfig;
  apps : list App;                       (* firebase_admin._apps *)
  store : string -> list Doc;            (* Firestore: collection -> documents *)
  sdk_calls : nat;                       (* SDK calls made so far *)
  clock_reads : nat;                     (* datetime.now() calls so far *)
  rng_reads : nat;                       (* random draws so far *)
  trace : list event                     (* oldest first *)
}.

Definition set_self (o : FirebaseConfig) (s : State) : State :=
  MkState o (apps s) (store s) (sdk_calls s) (clock_reads s) (rng_reads s) (trace s).
Definition set_apps (a : list App) (s : State) : State :=
  MkState (self s) a (store s) (sdk_calls s) (clock_reads s) (rng_reads s) (trace s).
Definition set_store (f : string -> list Doc) (s : State) : State :=
  MkState (self s) (apps s) f (sdk_calls s) (clock_reads s) (rng_reads s) (trace s).
Definition set_sdk_calls (n : nat) (s : State) : State :=
  MkState (self s) (apps s) (store s) n (clock_reads s) (rng_reads s) (trace s).
Definition set_clock_reads (n : nat) (s : State) : State :=
  MkState (self s) (apps s) (store s) (sdk_calls s) n (rng_reads s) (trace s).
Definition set_rng_reads (n : nat) (s : State) : State :=
  MkState (self s) (apps s) (store s) (sdk_calls s) (clock_reads s) n (trace s).
Definition log (ev : event) (s : State) : State :=
  MkState (self s) (apps s) (store s) (sdk_calls s) (clock_reads s) (rng_reads s)
          (trace s ++ [ev]).

(* ------------------------------------------------------------------ *)
(** ** The monad: state that survives an exception *)

Inductive outcome (A : Type) : Type :=
| Ret (a : A)
| Raise (e : exn).
Arguments Ret {A} a.
Arguments Raise {A} e.

Definition M (A : Type) : Type := Env -> State -> outcome A * State.

Definition ret {A} (a : A) : M A := fun _ s => (Ret a, s).

Definition raise {A} (e : exn) : M A := fun _ s => (Raise e, s).

Definition bind {A B} (m : M A) (k : A -> M B) : M B :=
  fun env s =>
    match m env s with
    | (Ret a, s') => k a env s'
    | (Raise e, s') => (Raise e, s')
    end.

(** [try: body except Exception as e: handler e]. *)
Definition try_except {A} (body : M A) (handler : exn -> M A) : M A :=
  fun env s =>
    match body env s with
    | (Ret a, s') => (Ret a, s')
    | (Raise e, s') => handler e env s'
    end.

Declare Scope py_scope.
Delimit Scope py_scope with py.
Notation "x <- m ;; k" := (bind m (fun x => k))
  (at level 61, m at next level, right associativity) : py_scope.
Notation "m ;; k" := (bind m (fun _ => k))
  (at level 61, right associativity) : py_scope.
Local Open Scope py_scope.

Definition modify (f : State -> State) : M unit := fun _ s => (Ret tt, f s).
Definition gets {A} (f : State -> A) : M A := fun _ s => (Ret (f s), s).
Definition asks {A} (f : Env -> A) : M A := fun env s => (Ret (f env), s).

(* ------------------------------------------------------------------ *)
(** ** What the module calls *)

(** The state after an SDK call: the call is logged and counted. *)
Definition called (ev : event) (s : State) : State :=
  set_sdk_calls (S (sdk_calls s)) (log ev s).

(** An SDK call raises when the environment says that this call fails. *)
Definition sdk_call (ev : event) : M unit :=
  fun env s =>
    match fault env (sdk_calls s) with
    | Some e => (Raise e, called ev s)
    | None => (Ret tt, called ev s)
    end.

(** [firebase_admin._apps], the registry of initialized apps. *)
Definition firebase_admin_apps : M (list App) :=
  modify (log EAppsRead) ;; gets apps.

(** [firebase_admin.get_app()]: the registered app, ValueError without one. *)
Definition get_app : M App :=
  sdk_call EGetApp ;;
  registry <- gets apps ;;
  match registry with
  | a :: _ => ret a
  | [] => raise (ValueError "The default Firebase app does not exist.")
  end.

Definition firestore_client : M Client :=
  sdk_call EFirestoreClient ;; ret MkClient.

Definition Certificate_path (path : string) : M Credential :=
  sdk_call (ECertificateFile path) ;; ret (CertificateFile path).

Definition Certificate_info (info : Json) : M Credential :=
  sdk_call (ECertificateInfo info) ;; ret (CertificateInfo info).

Definition credentials_ApplicationDefault : M Credential :=
  sdk_call EApplicationDefault ;; ret ApplicationDefault.

(** [firebase_admin.initialize_app(cred)] registers the new app. *)
Definition initialize_app (cred : Credential) : M App :=
  sdk_call (EInitializeApp cred) ;;
  modify (fun s => set_apps (apps s ++ [MkApp cred]) s) ;;
  ret (MkApp cred).

Definition ends_with_slash (p : string) : bool :=
  match rev (list_ascii_of_string p) with
  | c :: _ => Ascii.eqb c "/"%char
  | [] => false
  end.

(** [os.path.join(dir, name)] for a relative [name]. *)
Definition os_path_join (dir name : string) : string :=
  if (String.eqb dir "" || ends_with_slash dir)%bool then dir ++ name
  else dir ++ "/" ++ name.

Definition os_path_exists (path : string) : M bool :=
  modify (log (EPathExists path)) ;; asks (fun env => path_exists env path).

Definition os_getenv (name : string) : M (option string) :=
  modify (log (EGetenv name)) ;; asks (fun env => environ env name).

(** Truth value of what [os.getenv] returns: [None] and the empty string
    are false. *)
Definition truthy (v : option string) : bool :=
  match v with
  | Some s => negb (String.eqb s "")
  | None => false
  end.

(** [json.loads]: TypeError on [None], JSONDecodeError on text that is not
    JSON. *)
Definition json_loads (text : option string) : M Json :=
  modify (log (EJsonLoads text)) ;;
  match text with
  | None => raise (TypeError "the JSON object must be str, bytes or bytearray, not NoneType")
  | Some t =>
      parsed <- asks (fun env => json_parse env t) ;;
      match parsed with
      | Some j => ret j
      | None => raise (JSONDecodeError "Expecting value")
      end
  end.

(** [print(line)] on a console that writes every line.  [OnHost.print],
    below, is [print] on a console that can refuse one. *)
Definition print (line : string) : M unit := modify (log (EPrint line)).

(* ------------------------------------------------------------------ *)
(** ** class FirebaseConfig *)

Definition set_app (a : option App) : M unit :=
  modify (fun s => set_self (MkFirebaseConfig a (db (self s)) (is_initialized (self s))) s).
Definition set_db (c : option Client) : M unit :=
  modify (fun s => set_self (MkFirebaseConfig (app (self s)) c (is_initialized (self s))) s).
Definition set_is_initialized (b : bool) : M unit :=
  modify (fun s => set_self (MkFirebaseConfig (app (self s)) (db (self s)) b) s).

Definition service_account_file : string := "firebase-service-account.json".
Definition KEY_VAR : string := "FIREBASE_SERVICE_ACCOUNT_KEY".
Definition ADC_VAR : string := "GOOGLE_APPLICATION_CREDENTIALS".

Definition not_configured_banner : M unit :=
  print "⚠️ Firebase not configured. Please set up Firebase credentials." ;;
  print "   1. Download service account key as 'firebase-service-account.json'" ;;
  print "   2. Or set FIREBASE_SERVICE_ACCOUNT_KEY environment variable" ;;
  print "   3. Or run 'python setup_firebase.py' for guided setup".

(** The body of the [try] in [initialize_firebase] (lines 22-63). *)
Definition initialize_firebase_body : M bool :=
  registry <- firebase_admin_apps ;;
  match registry with
  | _ :: _ =>
      a <- get_app ;;
      set_app (Some a) ;;
      c <- firestore_client ;;
      set_db (Some c) ;;
      set_is_initialized true ;;
      print "✅ Firebase already initialized" ;;
      ret true
  | [] =>
      dir <- asks module_dir ;;
      let service_account_path := os_path_join dir service_account_file in
      found <- os_path_exists service_account_path ;;
      if found then
        cred <- Certificate_path service_account_path ;;
        a <- initialize_app cred ;;
        set_app (Some a) ;;
        c <- firestore_client ;;
        set_db (Some c) ;;
        set_is_initialized true ;;
        print "✅ Firebase initialized with service account key" ;;
        ret true
      else
        key <- os_getenv KEY_VAR ;;
        if truthy key then
          text <- os_getenv KEY_VAR ;;
          service_account_info <- json_loads text ;;
          cred <- Certificate_info service_account_info ;;
          a <- initialize_app cred ;;
          set_app (Some a) ;;
          c <- firestore_client ;;
          set_db (Some c) ;;
          set_is_initialized true ;;
          print "✅ Firebase initialized with environment variables" ;;
          ret true
        else
          adc <- os_getenv ADC_VAR ;;
          if truthy adc then
            cred <- credentials_ApplicationDefault ;;
            a <- initialize_app cred ;;
            set_app (Some a) ;;
            c <- firestore_client ;;
            set_db (Some c) ;;
            set_is_initialized true ;;
            print "✅ Firebase initialized with Application Default Credentials" ;;
            ret true
          else
            not_configured_banner ;;
            ret false
  end.

(** [initialize_firebase] (lines 19-67): the body under
    [except Exception as e], which prints and returns False. *)
Definition initialize_firebase : M bool :=
  try_except initialize_firebase_body
    (fun e =>
       print ("❌ Firebase initialization failed: " ++ exn_message e) ;;
       ret false).

(** [is_available] (lines 69-71). *)
Definition is_available_of (o : FirebaseConfig) : bool :=
  is_initialized o && match db o with Some _ => true | None => false end.

Definition is_available : M bool := gets (fun s => is_available_of (self s)).

(** [get_firestore_client] (lines 73-77). *)
Definition get_firestore_client : M (option Client) :=
  available <- is_available ;;
  if available then gets (fun s => db (self s)) else ret None.

(** [__init__] (lines 11-17): the three fields, then the attempt, whose
    result is dropped. *)
Definition __init__ : M unit :=
  set_app None ;;
  set_db None ;;
  set_is_initialized false ;;
  initialize_firebase ;;
  ret tt.

(* ------------------------------------------------------------------ *)
(** ** Firestore, the clock and the random number generator *)

(** A collection reference is the name of the collection. *)
Definition CollectionRef : Type := string.

(** [self.db.collection(name)]; on a [None] handle Python raises
    AttributeError before anything reaches the SDK. *)
Definition db_collection (name : string) : M CollectionRef :=
  handle <- gets (fun s => db (self s)) ;;
  match handle with
  | Some _ => sdk_call (ECollection name) ;; ret name
  | None => raise (AttributeError "'NoneType' object has no attribute 'collection'")
  end.

(** [collection.limit(n).get()]: at most [n] documents of the collection. *)
Definition limit_get (c : CollectionRef) (n : nat) : M (list Doc) :=
  sdk_call (ELimitGet c n) ;; gets (fun s => firstn n (store s c)).

Definition store_add (c : CollectionRef) (d : Doc) (f : string -> list Doc)
  : string -> list Doc :=
  fun name => if String.eqb name c then (f name ++ [d])%list else f name.

(** [collection.add(d)]: one new document, unless the call raises. *)
Definition collection_add (c : CollectionRef) (d : Doc) : M unit :=
  sdk_call (EAdd c d) ;; modify (fun s => set_store (store_add c d (store s)) s).

(** The state after a write that succeeded, and after one that raised. *)
Definition added (c : CollectionRef) (d : Doc) (s : State) : State :=
  set_store (store_add c d (store (called (EAdd c d) s))) (called (EAdd c d) s).

Definition add_failed (c : CollectionRef) (d : Doc) (s : State) : State :=
  called (EAdd c d) s.

(** The state after the first [n] turns of a loop whose turn [x] takes
    [s] to [ok x s]. *)
Definition completed {A} (ok : A -> State -> State) (xs : list A) (s : State) : State :=
  fold_left (fun s x => ok x s) xs s.

(** The state after a clock reading, and after a random draw. *)
Definition ticked (s : State) : State :=
  set_clock_reads (S (clock_reads s)) (log ENow s).

Definition drawn (s : State) : State :=
  set_rng_reads (S (rng_reads s)) (log ERandom s).

(** The state after one clock reading and three random draws. *)
Definition measured (s : State) : State := drawn (drawn (drawn (ticked s))).

(** [datetime.now()], in microseconds. *)
Definition datetime_now : M Z :=
  fun env s => (Ret (clock env (clock_reads s)), ticked s).

Definition MICROSECOND : Z := 1.
Definition SECOND : Z := 1000000 * MICROSECOND.
Definition MINUTE : Z := 60 * SECOND.
Definition HOUR : Z := 60 * MINUTE.
Definition DAY : Z := 24 * HOUR.

(** [datetime(2024, 1, 15)]: 19737 days after 1970-01-01. *)
Definition datetime_2024_01_15 : Z := 19737 * DAY.

(** The [n]-th value of [random.random()]: 53 random bits scaled into
    [0, 1). *)
Definition unit_draw (env : Env) (n : nat) : Q :=
  Z.of_N (rng env n mod 2 ^ 53) # 2 ^ 53.

Definition random_random : M Q :=
  fun env s => (Ret (unit_draw env (rng_reads s)), drawn s).

(** Round half to even, to an integer. *)
Definition round_half_even (x : Q) : Z :=
  let f := Qfloor x in
  match (x - inject_Z f ?= 1 # 2)%Q with
  | Lt => f
  | Gt => (f + 1)%Z
  | Eq => if Z.even f then f else (f + 1)%Z
  end.

(** [for x in xs: body x]. *)
Fixpoint for_each {A} (xs : list A) (body : A -> M unit) : M unit :=
  match xs with
  | [] => ret tt
  | x :: xs' => body x ;; for_each xs' body
  end.

(** [range(n)]. *)
Definition range (n : nat) : list Z := map Z.of_nat (seq 0 n).

(** A binary fixed-point format with 52 fractional bits, rounding to
    nearest, ties to even. *)
Definition fixed52 (x : Q) : Q :=
  inject_Z (round_half_even (x * inject_Z (2 ^ 52))) / inject_Z (2 ^ 52).

Section Seeding.

Context {F : FloatFormat}.

(** [a + (b - a) * u] on floats: a product and a sum, each rounded. *)
Definition uniform_value (a b : Z) (u : Q) : Q :=
  fl (inject_Z a + fl (inject_Z (b - a) * u)).

(** [random.uniform(a, b)] is [a + (b - a) * self.random()]. *)
Definition random_uniform (a b : Z) : M Q :=
  u <- random_random ;;
  ret (uniform_value a b u).

(** [round(x, ndigits)] on a float: the decimal with [ndigits] places
    nearest to [x], ties to even, converted back to a float. *)
Definition py_round (x : Q) (ndigits : nat) : Q :=
  let scale := inject_Z (10 ^ Z.of_nat ndigits) in
  fl (inject_Z (round_half_even (x * scale)) / scale).

Definition sample_data (timestamp : Z) (temperature oxygen ammonia : Q) : Doc :=
  [ ("timestamp", VTimestamp timestamp);
    ("temperature", VFloat temperature);
    ("dissolved_oxygen", VFloat oxygen);
    ("ammonia", VFloat ammonia);
    ("location", VStr "Tank A");
    ("sensor_id", VStr "SENSOR_001") ].

(** The document one turn of the loop writes, when it reads the clock for
    the [c]-th time and draws from the [r]-th random number on. *)
Definition reading (env : Env) (c r : nat) (hours_ago : Z) : Doc :=
  sample_data (clock env c - hours_ago * HOUR)
    (py_round (uniform_value 20 30 (unit_draw env r)) 1)
    (py_round (uniform_value 4 12 (unit_draw env (S r))) 2)
    (py_round (uniform_value 0 5 (unit_draw env (S (S r)))) 3).

(** One turn of the loop of lines 100-112. *)
Definition seed_reading (sensor_collection : CollectionRef) (hours_ago : Z) : M unit :=
  now <- datetime_now ;;
  let timestamp := (now - hours_ago * HOUR)%Z in
  t <- random_uniform 20 30 ;;
  o <- random_uniform 4 12 ;;
  a <- random_uniform 0 5 ;;
  collection_add sensor_collection
    (sample_data timestamp (py_round t 1) (py_round o 2) (py_round a 3)).

Definition sample_alerts (t1 t2 t3 : Z) : list Doc :=
  [ [ ("timestamp", VTimestamp (t1 - 10 * MINUTE));
      ("type", VStr "warning");
      ("message", VStr "Ammonia level approaching lower threshold");
      ("sensor_id", VStr "SENSOR_001");
      ("value", VFloat (5 # 2));
      ("threshold", VFloat 5);
      ("acknowledged", VBool false) ];
    [ ("timestamp", VTimestamp (t2 - 2 * HOUR));
      ("type", VStr "info");
      ("message", VStr "Temperature sensor calibration completed");
      ("sensor_id", VStr "SENSOR_002");
      ("acknowledged", VBool true) ];
    [ ("timestamp", VTimestamp (t3 - 4 * HOUR));
      ("type", VStr "success");
      ("message", VStr "Water quality parameters optimal");
      ("sensor_id", VStr "SENSOR_001");
      ("acknowledged", VBool true) ] ].

Definition system_settings (t_last t_next t_created : Z) : Doc :=
  [ ("tank_settings", VMap
      [ ("tank_a", VMap
          [ ("name", VStr "Tank A - Main Production");
            ("capacity_liters", VInt 10000);
            ("fish_species", VStr "Atlantic Salmon");
            ("fish_count", VInt 500);
            ("optimal_ammonia_range", VList [VInt 0; VFloat 1]);
            ("optimal_temp_range", VList [VInt 18; VInt 24]);
            ("optimal_do_range", VList [VInt 6; VInt 12]) ]) ]);
    ("alert_thresholds", VMap
      [ ("ammonia_min", VInt 0);
        ("ammonia_max", VFloat 1);
        ("temp_min", VInt 18);
        ("temp_max", VInt 30);
        ("do_min", VInt 4);
        ("do_max", VInt 12) ]);
    ("system_info", VMap
      [ ("installation_date", VTimestamp datetime_2024_01_15);
        ("last_maintenance", VTimestamp (t_last - 3 * DAY));
        ("next_maintenance", VTimestamp (t_next + 27 * DAY));
        ("firmware_version", VStr "v2.1.3") ]);
    ("created_at", VTimestamp t_created) ].

(** The readings the loop writes for the hours [hs], from the [c]-th clock
    reading and the [r]-th random number on. *)
Fixpoint readings_from (env : Env) (c r : nat) (hs : list Z) : list Doc :=
  match hs with
  | [] => []
  | h :: hs' => reading env c r h :: readings_from env (S c) (3 + r) hs'
  end.

(** The state after a turn of the loop that wrote its reading, and after
    one whose write raised. *)
Definition reading_added (env : Env) (c : CollectionRef) (h : Z) (s : State) : State :=
  added c (reading env (clock_reads s) (rng_reads s) h) (measured s).

Definition reading_failed (env : Env) (c : CollectionRef) (h : Z) (s : State) : State :=
  add_failed c (reading env (clock_reads s) (rng_reads s) h) (measured s).

(** The statements after the loop (lines 114-178). *)
Definition seed_alerts_and_settings : M bool :=
  alerts_collection <- db_collection "alerts" ;;
  t1 <- datetime_now ;;
  t2 <- datetime_now ;;
  t3 <- datetime_now ;;
  for_each (sample_alerts t1 t2 t3) (collection_add alerts_collection) ;;
  settings_collection <- db_collection "system_settings" ;;
  t_last <- datetime_now ;;
  t_next <- datetime_now ;;
  t_created <- datetime_now ;;
  collection_add settings_collection (system_settings t_last t_next t_created) ;;
  print "✅ Sample data created successfully" ;;
  ret true.

(** The alerts and the settings written by the statements after the loop
    when they start in [s]. *)
Definition alerts_at (env : Env) (s : State) : list Doc :=
  sample_alerts (clock env (clock_reads s)) (clock env (S (clock_reads s)))
                (clock env (S (S (clock_reads s)))).

Definition settings_at (env : Env) (s : State) : Doc :=
  system_settings (clock env (3 + clock_reads s)) (clock env (4 + clock_reads s))
                  (clock env (5 + clock_reads s)).

(** The state after the existence probe. *)
Definition probed (s : State) : State :=
  called (ELimitGet "sensor_data" 1) (called (ECollection "sensor_data") s).

(** The documents a run that starts in [s] sets out to write: the 24
    readings, the three alerts, the settings. *)
Definition sensor_docs (env : Env) (s : State) : list Doc :=
  readings_from env (clock_reads s) (rng_reads s) (range 24).

Definition alert_docs (env : Env) (s : State) : list Doc :=
  sample_alerts (clock env (24 + clock_reads s)) (clock env (25 + clock_reads s))
                (clock env (26 + clock_reads s)).

Definition settings_doc (env : Env) (s : State) : Doc :=
  system_settings (clock env (27 + clock_reads s)) (clock env (28 + clock_reads s))
                  (clock env (29 + clock_reads s)).

(** The body of the [try] in [create_sample_data] (lines 86-178). *)
Definition create_sample_data_body : M bool :=
  sensor_collection <- db_collection "sensor_data" ;;
  existing_data <- limit_get sensor_collection 1 ;;
  if (0 <? length existing_data)%nat then
    print "📊 Sample data already exists" ;;
    ret true
  else
    print "📊 Creating sample sensor data..." ;;
    for_each (range 24) (seed_reading sensor_collection) ;;
    alerts_collection <- db_collection "alerts" ;;
    t1 <- datetime_now ;;
    t2 <- datetime_now ;;
    t3 <- datetime_now ;;
    for_each (sample_alerts t1 t2 t3) (collection_add alerts_collection) ;;
    settings_collection <- db_collection "system_settings" ;;
    t_last <- datetime_now ;;
    t_next <- datetime_now ;;
    t_created <- datetime_now ;;
    collection_add settings_collection (system_settings t_last t_next t_created) ;;
    print "✅ Sample data created successfully" ;;
    ret true.

(** [create_sample_data] (lines 79-182). *)
Definition create_sample_data : M bool :=
  available <- is_available ;;
  if negb available then
    print "❌ Firebase not available, cannot create sample data" ;;
    ret false
  else
    try_except create_sample_data_body
      (fun e =>
         print ("❌ Error creating sample data: " ++ exn_message e) ;;
         ret false).

End Seeding.

(* ------------------------------------------------------------------ *)
(** ** The host: a console that can fail, and interruptions

    Up to here [print] always writes its line and every error is an
    instance of [Exception].  A process guarantees neither.  Writing a
    line to [sys.stdout] raises when the stream cannot encode it (the
    messages carry emoji: UnicodeEncodeError under an ASCII or cp1252
    locale) or is closed, and a KeyboardInterrupt or a SystemExit, which
    [except Exception] does not catch, can arrive during any call.

    [OnHost] embeds the module with both in scope, statement by statement
    as above.  On a host whose console writes every line and that
    delivers no interruption the two embeddings agree
    ([create_sample_data_on_quiet_host] and the lemmas before it), so what
    is proved of the first is what the module does on such a host. *)

(** The exceptions that derive from [BaseException] and not from
    [Exception]. *)
Inductive interruption : Type :=
| KeyboardInterrupt
| SystemExit.

(** What the host does to a call that leaves the module.  Calls are
    numbered by their position in the trace. *)
Record Host : Type := MkHost {
  stdout_write : nat -> string -> option exn;  (* writing the line raises *)
  interrupt : nat -> option interruption       (* delivered during the call *)
}.

Module OnHost.

Inductive outcome (A : Type) : Type :=
| Ret (a : A)
| Raise (e : exn)                      (* an instance of Exception *)
| Interrupted (b : interruption).      (* any other BaseException *)
Arguments Ret {A} a.
Arguments Raise {A} e.
Arguments Interrupted {A} b.

Definition M (A : Type) : Type := Env -> State -> outcome A * State.

Definition ret {A} (a : A) : M A := fun _ s => (Ret a, s).

Definition raise {A} (e : exn) : M A := fun _ s => (Raise e, s).

Definition bind {A B} (m : M A) (k : A -> M B) : M B :=
  fun env s =>
    match m env s with
    | (Ret a, s') => k a env s'
    | (Raise e, s') => (Raise e, s')
    | (Interrupted b, s') => (Interrupted b, s')
    end.

(** [try: body except Exception as e: handler e]: an interruption is not
    an [Exception] and passes. *)
Definition try_except {A} (body : M A) (handler : exn -> M A) : M A :=
  fun env s =>
    match body env s with
    | (Ret a, s') => (Ret a, s')
    | (Raise e, s') => handler e env s'
    | (Interrupted b, s') => (Interrupted b, s')
    end.

Declare Scope host_scope.
Delimit Scope host_scope with host.
Notation "x <- m ;; k" := (bind m (fun x => k))
  (at level 61, m at next level, right associativity) : host_scope.
Notation "m ;; k" := (bind m (fun _ => k))
  (at level 61, right associativity) : host_scope.
Local Open Scope host_scope.

Definition modify (f : State -> State) : M unit := fun _ s => (Ret tt, f s).
Definition gets {A} (f : State -> A) : M A := fun _ s => (Ret (f s), s).
Definition asks {A} (f : Env -> A) : M A := fun env s => (Ret (f env), s).

Section Host.

Variable h : Host.

(** A call that leaves the module: when the host delivers an interruption
    during it, the call is logged and counted and its result is lost. *)
Definition outside {A} (call : M A) : M A :=
  fun env s =>
    match interrupt h (length (trace s)) with
    | Some b => (Interrupted b, snd (call env s))
    | None => call env s
    end.

Definition sdk_call (ev : event) : M unit :=
  outside (fun env s =>
             match fault env (sdk_calls s) with
             | Some e => (Raise e, called ev s)
             | None => (Ret tt, called ev s)
             end).

(** [print(line)]: the line goes to the console, which may refuse it. *)
Definition print (line : string) : M unit :=
  outside (fun _ s =>
             match stdout_write h (length (trace s)) line with
             | Some e => (Raise e, log (EPrint line) s)
             | None => (Ret tt, log (EPrint line) s)
             end).

Definition firebase_admin_apps : M (list App) :=
  outside (modify (log EAppsRead)) ;; gets apps.

Definition get_app : M App :=
  sdk_call EGetApp ;;
  registry <- gets apps ;;
  match registry with
  | a :: _ => ret a
  | [] => raise (ValueError "The default Firebase app does not exist.")
  end.

Definition firestore_client : M Client :=
  sdk_call EFirestoreClient ;; ret MkClient.

Definition Certificate_path (path : string) : M Credential :=
  sdk_call (ECertificateFile path) ;; ret (CertificateFile path).

Definition Certificate_info (info : Json) : M Credential :=
  sdk_call (ECertificateInfo info) ;; ret (CertificateInfo info).

Definition credentials_ApplicationDefault : M Credential :=
  sdk_call EApplicationDefault ;; ret ApplicationDefault.

Definition initialize_app (cred : Credential) : M App :=
  sdk_call (EInitializeApp cred) ;;
  modify (fun s => set_apps (apps s ++ [MkApp cred]) s) ;;
  ret (MkApp cred).

Definition os_path_exists (path : string) : M bool :=
  outside (modify (log (EPathExists path))) ;; asks (fun env => path_exists env path).

Definition os_getenv (name : string) : M (option string) :=
  outside (modify (log (EGetenv name))) ;; asks (fun env => environ env name).

Definition json_loads (text : option string) : M Json :=
  outside (modify (log (EJsonLoads text))) ;;
  match text with
  | None => raise (TypeError "the JSON object must be str, bytes or bytearray, not NoneType")
  | Some t =>
      parsed <- asks (fun env => json_parse env t) ;;
      match parsed with
      | Some j => ret j
      | None => raise (JSONDecodeError "Expecting value")
      end
  end.

Definition datetime_now : M Z :=
  outside (fun env s => (Ret (clock env (clock_reads s)), ticked s)).

Definition random_random : M Q :=
  outside (fun env s => (Ret (unit_draw env (rng_reads s)), drawn s)).

(** *** class FirebaseConfig *)

Definition set_app (a : option App) : M unit :=
  modify (fun s => set_self (MkFirebaseConfig a (db (self s)) (is_initialized (self s))) s).
Definition set_db (c : option Client) : M unit :=
  modify (fun s => set_self (MkFirebaseConfig (app (self s)) c (is_initialized (self s))) s).
Definition set_is_initialized (b : bool) : M unit :=
  modify (fun s => set_self (MkFirebaseConfig (app (self s)) (db (self s)) b) s).

Definition not_configured_banner : M unit :=
  print "⚠️ Firebase not configured. Please set up Firebase credentials." ;;
  print "   1. Download service account key as 'firebase-service-account.json'" ;;
  print "   2. Or set FIREBASE_SERVICE_ACCOUNT_KEY environment variable" ;;
  print "   3. Or run 'python setup_firebase.py' for guided setup".

(** The body of the [try] in [initialize_firebase] (lines 22-63). *)
Definition initialize_firebase_body : M bool :=
  registry <- firebase_admin_apps ;;
  match registry with
  | _ :: _ =>
      a <- get_app ;;
      set_app (Some a) ;;
      c <- firestore_client ;;
      set_db (Some c) ;;
      set_is_initialized true ;;
      print "✅ Firebase already initialized" ;;
      ret true
  | [] =>
      dir <- asks module_dir ;;
      let service_account_path := os_path_join dir service_account_file in
      found <- os_path_exists service_account_path ;;
      if found then
        cred <- Certificate_path service_account_path ;;
        a <- initialize_app cred ;;
        set_app (Some a) ;;
        c <- firestore_client ;;
        set_db (Some c) ;;
        set_is_initialized true ;;
        print "✅ Firebase initialized with service account key" ;;
        ret true
      else
        key <- os_getenv KEY_VAR ;;
        if truthy key then
          text <- os_getenv KEY_VAR ;;
          service_account_info <- json_loads text ;;
          cred <- Certificate_info service_account_info ;;
          a <- initialize_app cred ;;
          set_app (Some a) ;;
          c <- firestore_client ;;
          set_db (Some c) ;;
          set_is_initialized true ;;
          print "✅ Firebase initialized with environment variables" ;;
          ret true
        else
          adc <- os_getenv ADC_VAR ;;
          if truthy adc then
            cred <- credentials_ApplicationDefault ;;
            a <- initialize_app cred ;;
            set_app (Some a) ;;
            c <- firestore_client ;;
            set_db (Some c) ;;
            set_is_initialized true ;;
            print "✅ Firebase initialized with Application Default Credentials" ;;
            ret true
          else
            not_configured_banner ;;
            ret false
  end.

(** The line the handler of [initialize_firebase] prints (line 66). *)
Definition initialization_failed (e : exn) : string :=
  "❌ Firebase initialization failed: " ++ exn_message e.

(** [initialize_firebase] (lines 19-67). *)
Definition initialize_firebase : M bool :=
  try_except initialize_firebase_body
    (fun e =>
       print (initialization_failed e) ;;
       ret false).

(** [is_available] (lines 69-71). *)
Definition is_available : M bool := gets (fun s => is_available_of (self s)).

(** [get_firestore_client] (lines 73-77). *)
Definition get_firestore_client : M (option Client) :=
  available <- is_available ;;
  if available then gets (fun s => db (self s)) else ret None.

(** [__init__] (lines 11-17). *)
Definition __init__ : M unit :=
  set_app None ;;
  set_db None ;;
  set_is_initialized false ;;
  initialize_firebase ;;
  ret tt.

(** *** Seeding *)

Definition db_collection (name : string) : M CollectionRef :=
  handle <- gets (fun s => db (self s)) ;;
  match handle with
  | Some _ => sdk_call (ECollection name) ;; ret name
  | None => raise (AttributeError "'NoneType' object has no attribute 'collection'")
  end.

Definition limit_get (c : CollectionRef) (n : nat) : M (list Doc) :=
  sdk_call (ELimitGet c n) ;; gets (fun s => firstn n (store s c)).

Definition collection_add (c : CollectionRef) (d : Doc) : M unit :=
  sdk_call (EAdd c d) ;; modify (fun s => set_store (store_add c d (store s)) s).

Fixpoint for_each {A} (xs : list A) (body : A -> M unit) : M unit :=
  match xs with
  | [] => ret tt
  | x :: xs' => body x ;; for_each xs' body
  end.

Context {F : FloatFormat}.

Definition random_uniform (a b : Z) : M Q :=
  u <- random_random ;;
  ret (uniform_value a b u).

(** One turn of the loop of lines 100-112. *)
Definition seed_reading (sensor_collection : CollectionRef) (hours_ago : Z) : M unit :=
  now <- datetime_now ;;
  let timestamp := (now - hours_ago * HOUR)%Z in
  t <- random_uniform 20 30 ;;
  o <- random_uniform 4 12 ;;
  a <- random_uniform 0 5 ;;
  collection_add sensor_collection
    (sample_data timestamp (py_round t 1) (py_round o 2) (py_round a 3)).

(** The body of the [try] in [create_sample_data] (lines 86-178). *)
Definition create_sample_data_body : M bool :=
  sensor_collection <- db_collection "sensor_data" ;;
  existing_data <- limit_get sensor_collection 1 ;;
  if (0 <? length existing_data)%nat then
    print "📊 Sample data already exists" ;;
    ret true
  else
    print "📊 Creating sample sensor data..." ;;
    for_each (range 24) (seed_reading sensor_collection) ;;
    alerts_collection <- db_collection "alerts" ;;
    t1 <- datetime_now ;;
    t2 <- datetime_now ;;
    t3 <- datetime_now ;;
    for_each (sample_alerts t1 t2 t3) (collection_add alerts_collection) ;;
    settings_collection <- db_collection "system_settings" ;;
    t_last <- datetime_now ;;
    t_next <- datetime_now ;;
    t_created <- datetime_now ;;
    collection_add settings_collection (system_settings t_last t_next t_created) ;;
    print "✅ Sample data created successfully" ;;
    ret true.

(** The lines of line 82 and of the handler (line 181). *)
Definition not_available : string :=
  "❌ Firebase not available, cannot create sample data".

Definition seeding_failed (e : exn) : string :=
  "❌ Error creating sample data: " ++ exn_message e.

(** [create_sample_data] (lines 79-182): the test of line 81 and its
    [print] are outside the [try]. *)
Definition create_sample_data : M bool :=
  available <- is_available ;;
  if negb available then
    print not_available ;;
    ret false
  else
    try_except create_sample_data_body
      (fun e =>
         print (seeding_failed e) ;;
         ret false).

End Host.

End OnHost.

(** ** Hosts *)

(** A host with a console that writes every line and no interruption. *)
Definition quiet (h : Host) : Prop :=
  (forall n line, stdout_write h n line = None) /\
  (forall n, interrupt h n = None).

(** [sys.stdout] with a UTF-8 encoding. *)
Definition utf8_host : Host := MkHost (fun _ _ => None) (fun _ => None).

(** A string of bytes below 128: the text has only ASCII characters. *)
Definition is_ascii (line : string) : bool :=
  forallb (fun c => (nat_of_ascii c <? 128)%nat) (list_ascii_of_string line).

(** The UnicodeEncodeError of the ASCII codec.  Its message also names
    the character and its position, left out here. *)
Definition cannot_encode : exn :=
  UnicodeEncodeError "'ascii' codec can't encode character: ordinal not in range(128)".

(** [sys.stdout] with the ASCII encoding (the C locale; a pipe under
    PYTHONIOENCODING=ascii): a line with another character is refused. *)
Definition ascii_host : Host :=
  MkHost (fun _ line => if is_ascii line then None else Some cannot_encode)
         (fun _ => None).

(** Ctrl-C while the [n]-th call is under way, on a UTF-8 console. *)
Definition ctrl_c_at (n : nat) : Host :=
  MkHost (fun _ _ => None)
         (fun k => if Nat.eqb k n then Some KeyboardInterrupt else None).

(** The interruption [b] is one the host delivers. *)
Definition delivered (h : Host) (b : interruption) : Prop :=
  exists n, interrupt h n = Some b.

(** The exception [e] is what the console of the host raises on [line]. *)
Definition refused (h : Host) (line : string) (e : exn) : Prop :=
  exists n, stdout_write h n line = Some e.

(** An outcome of the first embedding, read as one of [OnHost]. *)
Definition on_host {A} (r : outcome A * State) : OnHost.outcome A * State :=
  match r with
  | (Ret a, s) => (OnHost.Ret a, s)
  | (Raise e, s) => (OnHost.Raise e, s)
  end.

(** The two embeddings of a piece of code agree. *)
Definition agrees {A} (hosted : OnHost.M A) (m : M A) : Prop :=
  forall env s, hosted env s = on_host (m env s).

(** The code raises no interruption of its own: one it ends with was
    delivered by the host. *)
Definition passes_on {A} (h : Host) (m : OnHost.M A) : Prop :=
  forall env s b s', m env s = (OnHost.Interrupted b, s') -> delivered h b.

(* ------------------------------------------------------------------ *)
(** ** Reading a run *)

(** The object [__init__] starts from. *)
Definition blank : FirebaseConfig := MkFirebaseConfig None None false.

(** Where the credential file is looked for. *)
Definition service_account_path (env : Env) : string :=
  os_path_join (module_dir env) service_account_file.

(** The five credential strategies, in the order the specification lists
    them. *)
Inductive strategy : Type :=
| ReuseApp
| LocalFile
| EnvKey
| AmbientCredentials
| Unconfigured.

(** The strategy the specification selects: the first one that applies.
    A variable counts as set when [os.getenv] gives a non-empty string,
    the test [if os.getenv(..)] makes. *)
Definition spec_strategy (env : Env) (s : State) : strategy :=
  match apps s with
  | _ :: _ => ReuseApp
  | [] =>
      if path_exists env (service_account_path env) then LocalFile
      else if truthy (environ env KEY_VAR) then EnvKey
      else if truthy (environ env ADC_VAR) then AmbientCredentials
      else Unconfigured
  end.

(** The strategy an SDK or parser call belongs to. *)
Definition strategy_of_event (ev : event) : option strategy :=
  match ev with
  | EGetApp => Some ReuseApp
  | ECertificateFile _ => Some LocalFile
  | EJsonLoads _ | ECertificateInfo _ => Some EnvKey
  | EApplicationDefault => Some AmbientCredentials
  | _ => None
  end.

(** The first strategy a run attempts; [Unconfigured] when it attempts none. *)
Fixpoint attempted (evs : list event) : strategy :=
  match evs with
  | [] => Unconfigured
  | ev :: evs' =>
      match strategy_of_event ev with
      | Some st => st
      | None => attempted evs'
      end
  end.

(** The look-ups that decide which strategy applies. *)
Definition is_probe (ev : event) : bool :=
  match ev with
  | EAppsRead | EPathExists _ | EGetenv _ => true
  | _ => false
  end.

Definition is_getenv (ev : event) : bool :=
  match ev with
  | EGetenv _ => true
  | _ => false
  end.

Definition is_apps_read (ev : event) : bool :=
  match ev with
  | EAppsRead => true
  | _ => false
  end.

(** Calls that reach the document store. *)
Definition is_add (ev : event) : bool :=
  match ev with
  | EAdd _ _ => true
  | _ => false
  end.

Definition is_store_call (ev : event) : bool :=
  match ev with
  | ECollection _ | ELimitGet _ _ | EAdd _ _ => true
  | _ => false
  end.

(** The probes the specification's order prescribes for each strategy:
    each look-up is made only after the ones before it found nothing. *)
Definition spec_probes (env : Env) (st : strategy) : list event :=
  match st with
  | ReuseApp => [EAppsRead]
  | LocalFile => [EAppsRead; EPathExists (service_account_path env)]
  | EnvKey =>
      [EAppsRead; EPathExists (service_account_path env); EGetenv KEY_VAR;
       EGetenv KEY_VAR]
  | AmbientCredentials | Unconfigured =>
      [EAppsRead; EPathExists (service_account_path env); EGetenv KEY_VAR;
       EGetenv ADC_VAR]
  end.

(** The app a successful run of each strategy leaves in the object. *)
Definition expected_app (env : Env) (s : State) (st : strategy) : option App :=
  match st with
  | ReuseApp => hd_error (apps s)
  | LocalFile => Some (MkApp (CertificateFile (service_account_path env)))
  | EnvKey =>
      match environ env KEY_VAR with
      | Some text => option_map (fun j => MkApp (CertificateInfo j)) (json_parse env text)
      | None => None
      end
  | AmbientCredentials => Some (MkApp ApplicationDefault)
  | Unconfigured => None
  end.

(** The SDK calls an attempt makes when nothing fails. *)
Definition attempt_calls (st : strategy) : nat :=
  match st with
  | ReuseApp => 2
  | LocalFile | EnvKey | AmbientCredentials => 3
  | Unconfigured => 0
  end.

Arguments truthy : simpl never.
Arguments os_path_join : simpl never.
Arguments String.append : simpl never.

(* ------------------------------------------------------------------ *)
(** ** Sample environments *)

(** A deployment directory holding the credential file, no environment
    variable, an SDK that never fails, a clock that advances by 1.5 ms
    between two readings. *)
Definition demo_env : Env :=
  MkEnv "/srv/app"
        (fun p => String.eqb p "/srv/app/firebase-service-account.json")
        (fun _ => None)
        (fun t => Some (Parsed t))
        (fun _ => None)
        (fun n => 1700000000000000 + Z.of_nat n * 1500)%Z
        (fun n => (N.of_nat n * 6364136223846793005 + 1442695040888963407)%N).

Definition no_vars : string -> option string := fun _ => None.
Definition no_faults : nat -> option exn := fun _ => None.

(** The same directory without the credential file and with the given
    environment variables and SDK failures. *)
Definition bare_env (vars : string -> option string) (faults : nat -> option exn) : Env :=
  MkEnv "/srv/app" (fun _ => false) vars
        (fun t => if String.eqb t "{}" then Some (Parsed t) else None)
        faults (clock demo_env) (rng demo_env).


(** FIREBASE_SERVICE_ACCOUNT_KEY holds text that is not JSON. *)
Definition malformed_key : string -> option string :=
  fun name => if String.eqb name KEY_VAR then Some "{not json" else None.

(** Only FIREBASE_SERVICE_ACCOUNT_KEY is there, holding a JSON object. *)
Definition key_env : Env :=
  bare_env (fun name => if String.eqb name KEY_VAR then Some "{}" else None) no_faults.

(** Only GOOGLE_APPLICATION_CREDENTIALS is there, with the value [v]. *)
Definition adc_env (v : string) : Env :=
  bare_env (fun name => if String.eqb name ADC_VAR then Some v else None) no_faults.

(** The credential file is there and FIREBASE_SERVICE_ACCOUNT_KEY is set. *)
Definition file_and_key_env : Env :=
  MkEnv "/srv/app" (path_exists demo_env)
        (fun name => if String.eqb name KEY_VAR then Some "{}" else None)
        (json_parse demo_env) (fault demo_env) (clock demo_env) (rng demo_env).

(** The [n]-th SDK call fails. *)
Definition fault_at (n : nat) : nat -> option exn :=
  fun k => if Nat.eqb k n then Some (SDKError "503 service unavailable") else None.

(** A process that has touched nothing yet. *)
Definition boot : State := MkState blank [] (fun _ => []) 0 0 0 [].

(** The process after [firebase_config = FirebaseConfig()] in [demo_env]. *)
Definition booted : State := snd (__init__ demo_env boot).

(** The [n] SDK calls made from the [base]-th on do not raise. *)
Definition sdk_ok (env : Env) (base n : nat) : Prop :=
  forall j : nat, (j < n)%nat -> fault env (j + base) = None.

(** The position, among the SDK calls of a seeding run, of its [w]-th
    write: two calls precede the readings, one more the alerts, one more
    the settings. *)
Definition write_call (w : nat) : nat :=
  if (w <? 24)%nat then 2 + w else if (w <? 27)%nat then 3 + w else 4 + w.

(** [demo_env] with a tenth SDK call that fails: in a process started by
    [booted] (three calls) it is the sixth write of the seeding. *)
Definition sixth_write_fails : Env :=
  MkEnv "/srv/app" (path_exists demo_env) no_vars (json_parse demo_env)
        (fault_at 10) (clock demo_env) (rng demo_env).

(** What the constructor establishes before the attempt. *)
Definition fresh (s : State) : State := set_self blank s.

(* ------------------------------------------------------------------ *)
(** ** Symbolic execution *)

Ltac unfold_run :=
  cbv beta delta
    [__init__ initialize_firebase initialize_firebase_body
     not_configured_banner get_firestore_client is_available
     try_except bind ret raise modify gets asks
     firebase_admin_apps get_app firestore_client Certificate_path
     Certificate_info credentials_ApplicationDefault initialize_app
     os_path_exists os_getenv json_loads print sdk_call
     set_app set_db set_is_initialized service_account_path] in *.

Ltac case_step :=
  match goal with
  | |- context [match fault ?e ?n with _ => _ end] => destruct (fault e n) eqn:?
  | |- context [match apps ?s with _ => _ end] => destruct (apps s) eqn:?
  | |- context [if path_exists ?e ?p then _ else _] => destruct (path_exists e p) eqn:?
  | |- context [if truthy ?v then _ else _] => destruct (truthy v) eqn:?
  | |- context [match environ ?e ?v with _ => _ end] => destruct (environ e v) eqn:?
  | |- context [match json_parse ?e ?t with _ => _ end] => destruct (json_parse e t) eqn:?
  end.

Ltac run := unfold_run; cbn; repeat (case_step; cbn).

Ltac trace_eq := cbn; rewrite <- ?app_assoc; cbn; reflexivity.

(** A [try] whose handler returns never raises. *)
Lemma try_except_returns {A} (body : M A) (handler : exn -> M A) env s :
  (forall e s1, exists a s2, handler e env s1 = (Ret a, s2)) ->
  exists a s', try_except body handler env s = (Ret a, s').
Proof.
  intros Hh. unfold try_except.
  destruct (body env s) as [[a | e] s1]; eauto.
Qed.

Lemma initialize_firebase_returns env s :
  exists b s', initialize_firebase env s = (Ret b, s').
Proof.
  apply try_except_returns. intros e s1. cbv [bind print modify ret]. eauto.
Qed.


Lemma initialize_firebase_return env s b s1 :
  initialize_firebase_body env s = (Ret b, s1) ->
  initialize_firebase env s = (Ret b, s1).
Proof.
  intros H. unfold initialize_firebase, try_except. rewrite H. reflexivity.
Qed.

(* ------------------------------------------------------------------ *)
(** ** Rounding keeps a value between two integers *)

Lemma round_half_even_cases (x : Q) :
  round_half_even x = Qfloor x \/
  (round_half_even x = (Qfloor x + 1)%Z /\ (inject_Z (Qfloor x) < x)%Q).
Proof.
  unfold round_half_even.
  assert (Hpos : (1 # 2 <= x - inject_Z (Qfloor x))%Q -> (inject_Z (Qfloor x) < x)%Q).
  { intros H. apply Qlt_minus_iff.
    apply Qlt_le_trans with (1 # 2)%Q; [reflexivity | exact H]. }
  destruct (x - inject_Z (Qfloor x) ?= 1 # 2)%Q eqn:E.
  - apply Qeq_alt in E. destruct (Z.even (Qfloor x)); [left; reflexivity |].
    right. split; [reflexivity |]. apply Hpos. rewrite E. apply Qle_refl.
  - left. reflexivity.
  - right. split; [reflexivity |]. apply Hpos. apply Qlt_le_weak.
    apply Qgt_alt in E. exact E.
Qed.

Lemma round_half_even_between (a b : Z) (x : Q) :
  (inject_Z a <= x)%Q -> (x <= inject_Z b)%Q ->
  (a <= round_half_even x <= b)%Z.
Proof.
  intros Ha Hb.
  assert (Hfa : (a <= Qfloor x)%Z).
  { rewrite <- (Qfloor_Z a). apply Qfloor_resp_le. exact Ha. }
  assert (Hfb : (Qfloor x <= b)%Z).
  { rewrite <- (Qfloor_Z b). apply Qfloor_resp_le. exact Hb. }
  destruct (round_half_even_cases x) as [-> | [-> Hlt]]; [lia |].
  split; [lia |].
  assert (Hs : (inject_Z (Qfloor x) < inject_Z b)%Q) by (eapply Qlt_le_trans; eauto).
  rewrite <- Zlt_Qlt in Hs. lia.
Qed.

Lemma unit_draw_between (env : Env) (n : nat) :
  (0 <= unit_draw env n)%Q /\ (unit_draw env n < 1)%Q.
Proof.
  unfold unit_draw, Qle, Qlt. cbn [Qnum Qden].
  assert (H : (rng env n mod 2 ^ 53 < 2 ^ 53)%N) by (apply N.mod_lt; discriminate).
  apply N2Z.inj_lt in H. change (Z.of_N (2 ^ 53)) with (Z.pos (2 ^ 53)) in H.
  pose proof (N2Z.is_nonneg (rng env n mod 2 ^ 53)). lia.
Qed.

Section FloatBounds.

Context {F : FloatFormat}.

Lemma fl_between (a b : Z) (x : Q) :
  (Z.abs a <= 2 ^ 53)%Z -> (Z.abs b <= 2 ^ 53)%Z ->
  (inject_Z a <= x)%Q -> (x <= inject_Z b)%Q ->
  (inject_Z a <= fl x)%Q /\ (fl x <= inject_Z b)%Q.
Proof.
  intros Sa Sb Ha Hb. split.
  - rewrite <- (fl_integer a Sa). apply fl_monotone. exact Ha.
  - rewrite <- (fl_integer b Sb). apply fl_monotone. exact Hb.
Qed.

Lemma uniform_value_between (a b : Z) (u : Q) :
  (0 <= a <= b)%Z -> (b <= 2 ^ 53)%Z -> (0 <= u)%Q -> (u <= 1)%Q ->
  (inject_Z a <= uniform_value a b u)%Q /\ (uniform_value a b u <= inject_Z b)%Q.
Proof.
  intros Hab Sb Hu0 Hu1. unfold uniform_value.
  assert (Hd : (0 <= inject_Z (b - a))%Q).
  { change 0%Q with (inject_Z 0). rewrite <- Zle_Qle. lia. }
  destruct (fl_between 0 (b - a) (inject_Z (b - a) * u)) as [Hw0 Hw1];
    [lia | lia | | |].
  - change (inject_Z 0) with 0%Q. apply Qmult_le_0_compat; assumption.
  - apply Qle_trans with (1 * inject_Z (b - a))%Q.
    + rewrite (Qmult_comm (inject_Z (b - a)) u).
      apply Qmult_le_compat_r; assumption.
    + rewrite Qmult_1_l. apply Qle_refl.
  - apply fl_between; [lia | lia | |].
    + rewrite <- (Qplus_0_r (inject_Z a)) at 1.
      apply Qplus_le_r. exact Hw0.
    + assert (E : (inject_Z b == inject_Z a + inject_Z (b - a))%Q).
      { rewrite <- inject_Z_plus. replace (a + (b - a))%Z with b by lia. reflexivity. }
      rewrite E. apply Qplus_le_r. exact Hw1.
Qed.

Lemma py_round_between (a b : Z) (x : Q) (ndigits : nat) :
  (Z.abs a <= 2 ^ 53)%Z -> (Z.abs b <= 2 ^ 53)%Z ->
  (inject_Z a <= x)%Q -> (x <= inject_Z b)%Q ->
  (inject_Z a <= py_round x ndigits)%Q /\ (py_round x ndigits <= inject_Z b)%Q.
Proof.
  intros Sa Sb Ha Hb. unfold py_round.
  set (p := (10 ^ Z.of_nat ndigits)%Z).
  assert (Hp : (0 < p)%Z) by (apply Z.pow_pos_nonneg; lia).
  assert (Hq : (0 < inject_Z p)%Q).
  { change 0%Q with (inject_Z 0). rewrite <- Zlt_Qlt. exact Hp. }
  destruct (round_half_even_between (a * p) (b * p) (x * inject_Z p)) as [Hl Hu].
  - rewrite inject_Z_mult. apply Qmult_le_compat_r; [exact Ha | apply Qlt_le_weak, Hq].
  - rewrite inject_Z_mult. apply Qmult_le_compat_r; [exact Hb | apply Qlt_le_weak, Hq].
  - apply fl_between; [exact Sa | exact Sb | |].
    + apply Qle_shift_div_l; [exact Hq |].
      rewrite <- inject_Z_mult, <- Zle_Qle. exact Hl.
    + apply Qle_shift_div_r; [exact Hq |].
      rewrite <- inject_Z_mult, <- Zle_Qle. exact Hu.
Qed.

(** A rounded draw from [a, b] is in [a, b]. *)
Lemma measurement_between (env : Env) (a b : Z) (r ndigits : nat) :
  (0 <= a <= b)%Z -> (b <= 2 ^ 53)%Z ->
  (inject_Z a <= py_round (uniform_value a b (unit_draw env r)) ndigits
   <= inject_Z b)%Q.
Proof.
  intros Hab Hb.
  destruct (unit_draw_between env r) as [H0 H1].
  destruct (uniform_value_between a b (unit_draw env r)) as [Hl Hu];
    [exact Hab | exact Hb | exact H0 | apply Qlt_le_weak; exact H1 |].
  apply py_round_between; [lia | lia | exact Hl | exact Hu].
Qed.

(** The three measurements of every reading are within their ranges. *)
Lemma reading_in_range (env : Env) (c r : nat) (h : Z) :
  exists t o a : Q,
    reading env c r h = sample_data (clock env c - h * HOUR) t o a /\
    (20 <= t <= 30)%Q /\ (4 <= o <= 12)%Q /\ (0 <= a <= 5)%Q.
Proof.
  unfold reading. do 3 eexists. split; [reflexivity |].
  repeat split.
  all: match goal with
       | |- context [py_round (uniform_value ?a ?b (unit_draw ?e ?n)) ?d] =>
           destruct (unit_draw_between e n) as [H0 H1];
           destruct (uniform_value_between a b (unit_draw e n)) as [Hl Hu];
           [lia | lia | exact H0 | apply Qlt_le_weak; exact H1 |];
           destruct (py_round_between a b (uniform_value a b (unit_draw e n)) d)
             as [Hl' Hu']; [lia | lia | exact Hl | exact Hu | assumption]
       end.
Qed.

End FloatBounds.

(* ------------------------------------------------------------------ *)
(** ** A float format that satisfies the laws *)

Lemma round_half_even_monotone (x y : Q) :
  (x <= y)%Q -> (round_half_even x <= round_half_even y)%Z.
Proof.
  intros Hxy.
  pose proof (Qfloor_resp_le x y Hxy) as Hf.
  destruct (Z.eq_dec (Qfloor x) (Qfloor y)) as [E | N].
  - unfold round_half_even. rewrite E.
    destruct (x - inject_Z (Qfloor y) ?= 1 # 2)%Q eqn:Cx;
      destruct (y - inject_Z (Qfloor y) ?= 1 # 2)%Q eqn:Cy;
      repeat match goal with
             | H : (_ ?= _)%Q = Eq |- _ => apply Qeq_alt in H
             | H : (_ ?= _)%Q = Lt |- _ => apply Qlt_alt in H
             | H : (_ ?= _)%Q = Gt |- _ => apply Qgt_alt in H
             end;
      try (exfalso; lra);
      destruct (Z.even (Qfloor y)); lia.
  - destruct (round_half_even_cases x) as [Rx | [Rx _]];
      destruct (round_half_even_cases y) as [Ry | [Ry _]]; lia.
Qed.

Lemma round_half_even_integer (z : Z) (x : Q) :
  (x == inject_Z z)%Q -> round_half_even x = z.
Proof.
  intros E.
  destruct (round_half_even_between z z x); [rewrite E | rewrite E |]; try apply Qle_refl.
  lia.
Qed.

Lemma fixed52_monotone (x y : Q) : (x <= y)%Q -> (fixed52 x <= fixed52 y)%Q.
Proof.
  intros H. unfold fixed52.
  apply Qmult_le_compat_r; [| discriminate].
  rewrite <- Zle_Qle. apply round_half_even_monotone.
  apply Qmult_le_compat_r; [exact H | discriminate].
Qed.

Lemma fixed52_integer (z : Z) :
  (Z.abs z <= 2 ^ 53)%Z -> (fixed52 (inject_Z z) == inject_Z z)%Q.
Proof.
  intros _. unfold fixed52.
  rewrite (round_half_even_integer (z * 2 ^ 52)) by (rewrite inject_Z_mult; reflexivity).
  rewrite inject_Z_mult. field. discriminate.
Qed.

#[export] Instance Fixed52 : FloatFormat :=
  {| fl := fixed52; fl_monotone := fixed52_monotone; fl_integer := fixed52_integer |}.

(** The sample process after its first [create_sample_data()]. *)
Definition seeded : State := snd (create_sample_data (F := Fixed52) demo_env booted).

(* ------------------------------------------------------------------ *)
(** ** Sample runs *)

Example round_half_even_ties :
  map round_half_even [5 # 2; 7 # 2; - (5 # 2); 26 # 10]%Q = [2; 4; -2; 3]%Z.
Proof. reflexivity. Qed.

Example py_round_tie :
  Qeq_bool (py_round (F := Fixed52) (2025 # 100) 1) (fixed52 (202 # 10)) = true.
Proof. vm_compute. reflexivity. Qed.

Example os_path_join_cases :
  (os_path_join "" "a.json", os_path_join "/x/" "a.json", os_path_join "/x" "a.json")
  = ("a.json", "/x/a.json", "/x/a.json").
Proof. reflexivity. Qed.

Example booted_run :
  trace booted
  = [EAppsRead; EPathExists "/srv/app/firebase-service-account.json";
     ECertificateFile "/srv/app/firebase-service-account.json";
     EInitializeApp (CertificateFile "/srv/app/firebase-service-account.json");
     EFirestoreClient;
     EPrint "✅ Firebase initialized with service account key"] /\
  is_available_of (self booted) = true.
Proof. split; reflexivity. Qed.

Example key_run :
  fst (initialize_firebase key_env boot) = Ret true /\
  filter is_probe (trace (snd (initialize_firebase key_env boot)))
  = [EAppsRead; EPathExists "/srv/app/firebase-service-account.json";
     EGetenv KEY_VAR; EGetenv KEY_VAR] /\
  app (self (snd (initialize_firebase key_env boot)))
  = Some (MkApp (CertificateInfo (Parsed "{}"))).
Proof. repeat split; reflexivity. Qed.

Example adc_run :
  fst (initialize_firebase (adc_env "/etc/key.json") boot) = Ret true /\
  attempted (trace (snd (initialize_firebase (adc_env "/etc/key.json") boot)))
  = AmbientCredentials.
Proof. split; reflexivity. Qed.

(** A variable that holds the empty string is false for [if os.getenv(..)]:
    the run goes on as if it were absent. *)
Example empty_variable_run :
  fst (initialize_firebase (adc_env "") boot) = Ret false /\
  attempted (trace (snd (initialize_firebase (adc_env "") boot))) = Unconfigured /\
  spec_strategy (adc_env "") boot = Unconfigured.
Proof. repeat split; reflexivity. Qed.

Example seeded_counts :
  (length (store seeded "sensor_data"), length (store seeded "alerts"),
   length (store seeded "system_settings"))
  = (24, 3, 1)%nat /\
  (sdk_calls seeded, clock_reads seeded, rng_reads seeded) = (35, 30, 72)%nat.
Proof. split; vm_compute; reflexivity. Qed.

(* ------------------------------------------------------------------ *)
(** ** Loops of writes *)

Lemma bind_Ret {A B} (m : M A) (k : A -> M B) env s a s1 :
  m env s = (Ret a, s1) -> bind m k env s = k a env s1.
Proof. intros H. unfold bind. rewrite H. reflexivity. Qed.

Lemma bind_Raise {A B} (m : M A) (k : A -> M B) env s e s1 :
  m env s = (Raise e, s1) -> bind m k env s = (Raise e, s1).
Proof. intros H. unfold bind. rewrite H. reflexivity. Qed.

Lemma collection_add_step c d env s :
  collection_add c d env s
  = match fault env (sdk_calls s) with
    | None => (Ret tt, added c d s)
    | Some e => (Raise e, add_failed c d s)
    end.
Proof.
  unfold collection_add, added, add_failed, bind, sdk_call, modify.
  destruct (fault env (sdk_calls s)); reflexivity.
Qed.

(** A loop whose turns each make one SDK call, the last thing they do. *)
Section Loop.

Context {A : Type} (env : Env) (body : A -> M unit) (ok failed : A -> State -> State).

Hypothesis body_step :
  forall x s,
    body x env s
    = match fault env (sdk_calls s) with
      | None => (Ret tt, ok x s)
      | Some e => (Raise e, failed x s)
      end.

Hypothesis ok_calls : forall x s, sdk_calls (ok x s) = S (sdk_calls s).

Lemma completed_calls xs s :
  sdk_calls (completed ok xs s) = (length xs + sdk_calls s)%nat.
Proof.
  revert s. induction xs as [| x xs IH]; intros s; cbn; [reflexivity |].
  unfold completed in IH. rewrite IH, ok_calls. lia.
Qed.

Lemma for_each_completes xs s :
  (forall j, (j < length xs)%nat -> fault env (j + sdk_calls s) = None) ->
  for_each xs body env s = (Ret tt, completed ok xs s).
Proof.
  revert s. induction xs as [| x xs IH]; intros s H; cbn; [reflexivity |].
  rewrite (bind_Ret (body x) _ env s tt (ok x s)).
  - apply IH. intros j Hj. rewrite ok_calls.
    replace (j + S (sdk_calls s))%nat with (S j + sdk_calls s)%nat by lia.
    apply H. cbn. lia.
  - rewrite body_step. pose proof (H 0%nat ltac:(cbn; lia)) as H0. cbn in H0.
      rewrite H0. reflexivity.
Qed.

Lemma for_each_fails pre x post s e :
  (forall j, (j < length pre)%nat -> fault env (j + sdk_calls s) = None) ->
  fault env (length pre + sdk_calls s) = Some e ->
  for_each (pre ++ x :: post) body env s = (Raise e, failed x (completed ok pre s)).
Proof.
  revert s. induction pre as [| y pre IH]; intros s H He; cbn.
  - apply bind_Raise. rewrite body_step. cbn in He. rewrite He. reflexivity.
  - rewrite (bind_Ret (body y) _ env s tt (ok y s)).
    + apply IH.
      * intros j Hj. rewrite ok_calls.
        replace (j + S (sdk_calls s))%nat with (S j + sdk_calls s)%nat by lia.
        apply H. cbn. lia.
      * rewrite ok_calls.
        replace (length pre + S (sdk_calls s))%nat
          with (length (y :: pre) + sdk_calls s)%nat by (cbn; lia).
        exact He.
    + rewrite body_step. pose proof (H 0%nat ltac:(cbn; lia)) as H0. cbn in H0.
      rewrite H0. reflexivity.
Qed.

(** A loop that returns has completed every turn. *)
Lemma for_each_returned xs s s1 :
  for_each xs body env s = (Ret tt, s1) -> s1 = completed ok xs s.
Proof.
  revert s. induction xs as [| x xs IH]; intros s H; cbn in *.
  - unfold ret in H. injection H as <-. reflexivity.
  - unfold bind in H. rewrite body_step in H.
    destruct (fault env (sdk_calls s)); [discriminate |].
    apply IH. exact H.
Qed.

(** Whatever a loop does, it ends in the state of a completed prefix,
    possibly followed by one failed turn. *)
Lemma for_each_prefix xs s :
  exists o s1 pre post,
    for_each xs body env s = (o, s1) /\
    xs = (pre ++ post)%list /\
    ((o = Ret tt /\ post = [] /\ s1 = completed ok pre s) \/
     (exists e x post', o = Raise e /\ post = x :: post' /\
                        s1 = failed x (completed ok pre s))).
Proof.
  revert s. induction xs as [| x xs IH]; intros s.
  - exists (Ret tt), s, [], []. cbn. split; [reflexivity |]. split; [reflexivity |].
    left. auto.
  - cbn. unfold bind. rewrite body_step.
    destruct (fault env (sdk_calls s)) as [e |].
    + exists (Raise e), (failed x s), [], (x :: xs). cbn.
      split; [reflexivity |]. split; [reflexivity |].
      right. exists e, x, xs. auto.
    + destruct (IH (ok x s)) as (o & s1 & pre & post & Hrun & Hxs & Hcase).
      exists o, s1, (x :: pre), post. cbn.
      split; [exact Hrun |]. split; [congruence |]. exact Hcase.
Qed.

End Loop.

(* ------------------------------------------------------------------ *)
(** ** The seeding run, step by step *)

Ltac state_simpl :=
  cbn [self apps store sdk_calls clock_reads rng_reads trace
       called log set_self set_apps set_store set_sdk_calls set_clock_reads
       set_rng_reads ticked drawn measured added add_failed fst snd].

Ltac state_simpl_in H :=
  cbn [self apps store sdk_calls clock_reads rng_reads trace
       called log set_self set_apps set_store set_sdk_calls set_clock_reads
       set_rng_reads ticked drawn measured added add_failed fst snd] in H.

Lemma available_db (o : FirebaseConfig) :
  is_available_of o = true -> exists c, db o = Some c.
Proof.
  unfold is_available_of. destruct (is_initialized o); [| discriminate].
  destruct (db o) as [c |]; [eauto | discriminate].
Qed.

Lemma db_collection_step name env s c0 :
  db (self s) = Some c0 ->
  db_collection name env s
  = match fault env (sdk_calls s) with
    | None => (Ret name, called (ECollection name) s)
    | Some e => (Raise e, called (ECollection name) s)
    end.
Proof.
  intros H. unfold db_collection, bind, gets, sdk_call, ret. rewrite H.
  destruct (fault env (sdk_calls s)); reflexivity.
Qed.

Lemma limit_get_step c n env s :
  limit_get c n env s
  = match fault env (sdk_calls s) with
    | None => (Ret (firstn n (store s c)), called (ELimitGet c n) s)
    | Some e => (Raise e, called (ELimitGet c n) s)
    end.
Proof.
  unfold limit_get, bind, gets, sdk_call.
  destruct (fault env (sdk_calls s)); reflexivity.
Qed.

Lemma store_add_same c d f : store_add c d f c = (f c ++ [d])%list.
Proof. unfold store_add. rewrite String.eqb_refl. reflexivity. Qed.

Lemma store_add_other c d f name : name <> c -> store_add c d f name = f name.
Proof.
  intros H. unfold store_add. destruct (String.eqb_spec name c); [contradiction | reflexivity].
Qed.

(** What a completed run of plain writes leaves. *)
Lemma completed_adds c docs s :
  self (completed (added c) docs s) = self s /\
  apps (completed (added c) docs s) = apps s /\
  clock_reads (completed (added c) docs s) = clock_reads s /\
  rng_reads (completed (added c) docs s) = rng_reads s /\
  store (completed (added c) docs s) c = (store s c ++ docs)%list /\
  (forall name, name <> c -> store (completed (added c) docs s) name = store s name) /\
  exists new,
    trace (completed (added c) docs s) = (trace s ++ new)%list /\
    length (filter is_add new) = length docs.
Proof.
  revert s. induction docs as [| d docs IH]; intros s.
  - cbn. rewrite app_nil_r. repeat split; auto.
    exists []. rewrite app_nil_r. auto.
  - unfold completed in *. cbn [fold_left].
    destruct (IH (added c d s)) as (H1 & H2 & H3 & H4 & H5 & H6 & new & H7 & H8).
    rewrite H1, H2, H3, H4, H5. state_simpl.
    rewrite store_add_same, <- app_assoc. repeat split; auto.
    + intros name Hn. rewrite (H6 name Hn). state_simpl. apply store_add_other, Hn.
    + exists (EAdd c d :: new). rewrite H7. state_simpl.
      rewrite <- app_assoc. split; [reflexivity |]. cbn. rewrite H8. reflexivity.
Qed.

Section SeedingRun.

Context {F : FloatFormat}.

Lemma seed_reading_step c h env s :
  seed_reading c h env s
  = match fault env (sdk_calls s) with
    | None => (Ret tt, reading_added env c h s)
    | Some e => (Raise e, reading_failed env c h s)
    end.
Proof.
  unfold seed_reading, reading_added, reading_failed, random_uniform, bind,
    datetime_now, random_random, ret.
  rewrite collection_add_step. state_simpl.
  destruct (fault env (sdk_calls s)); reflexivity.
Qed.

Lemma reading_added_calls env c h s :
  sdk_calls (reading_added env c h s) = S (sdk_calls s).
Proof. reflexivity. Qed.

(** What a completed run of the sensor loop leaves. *)
Lemma completed_readings env c hs s :
  self (completed (reading_added env c) hs s) = self s /\
  apps (completed (reading_added env c) hs s) = apps s /\
  clock_reads (completed (reading_added env c) hs s) = (length hs + clock_reads s)%nat /\
  rng_reads (completed (reading_added env c) hs s) = (3 * length hs + rng_reads s)%nat /\
  store (completed (reading_added env c) hs s) c
  = (store s c ++ readings_from env (clock_reads s) (rng_reads s) hs)%list /\
  (forall name, name <> c ->
                store (completed (reading_added env c) hs s) name = store s name) /\
  exists new,
    trace (completed (reading_added env c) hs s) = (trace s ++ new)%list /\
    length (filter is_add new) = length hs.
Proof.
  revert s. induction hs as [| h hs IH]; intros s.
  - cbn. rewrite app_nil_r. repeat split; auto.
    exists []. rewrite app_nil_r. auto.
  - unfold completed in *. cbn [fold_left].
    destruct (IH (reading_added env c h s)) as (H1 & H2 & H3 & H4 & H5 & H6 & new & H7 & H8).
    rewrite H1, H2, H3, H4, H5. unfold reading_added at 1 2 3 4 5. state_simpl.
    rewrite store_add_same, <- app_assoc. repeat split; auto; try (cbn; lia).
    + intros name Hn. rewrite (H6 name Hn). unfold reading_added. state_simpl.
      apply store_add_other, Hn.
    + eexists. rewrite H7. unfold reading_added. state_simpl.
      rewrite <- !app_assoc. split; [reflexivity |]. cbn.
      rewrite H8. reflexivity.
Qed.

Lemma readings_from_length env c r hs :
  length (readings_from env c r hs) = length hs.
Proof.
  revert c r. induction hs as [| h hs IH]; intros c r; cbn; [reflexivity |].
  rewrite IH. reflexivity.
Qed.

Lemma readings_from_firstn env c r hs n :
  firstn n (readings_from env c r hs) = readings_from env c r (firstn n hs).
Proof.
  revert c r n. induction hs as [| h hs IH]; intros c r [| n]; cbn; try reflexivity.
  rewrite IH. reflexivity.
Qed.

(** The [k]-th reading of the loop over [range n]. *)
Lemma readings_from_nth env c r i n k d :
  (k < n)%nat ->
  nth k (readings_from env c r (map Z.of_nat (seq i n))) d
  = reading env (k + c) (3 * k + r) (Z.of_nat (k + i)).
Proof.
  revert c r i k. induction n as [| n IH]; intros c r i k Hk; [lia |].
  destruct k as [| k]; cbn [seq map readings_from nth].
  - reflexivity.
  - rewrite IH by lia. f_equal; lia.
Qed.

End SeedingRun.

Lemma bind_now {B} (k : Z -> M B) env s :
  bind datetime_now k env s = k (clock env (clock_reads s)) env (ticked s).
Proof. reflexivity. Qed.

Lemma bind_print {B} line (k : unit -> M B) env s :
  bind (print line) k env s = k tt env (log (EPrint line) s).
Proof. reflexivity. Qed.

Lemma split_nth {A} (l : list A) (n : nat) (d : A) :
  (n < length l)%nat -> l = (firstn n l ++ nth n l d :: skipn (S n) l)%list.
Proof.
  revert n. induction l as [| a l IH]; intros [| n] H; cbn in *; try lia.
  - reflexivity.
  - f_equal. apply IH. lia.
Qed.

Lemma sdk_ok_at env base n j :
  sdk_ok env base n -> (j < n)%nat -> fault env (j + base) = None.
Proof. intros H Hj. apply H, Hj. Qed.

Lemma sdk_ok_shift env base n k :
  sdk_ok env base (k + n) -> sdk_ok env (k + base) n.
Proof.
  intros H j Hj. replace (j + (k + base))%nat with ((j + k) + base)%nat by lia.
  apply H. lia.
Qed.

Lemma sdk_ok_less env base n m :
  sdk_ok env base n -> (m <= n)%nat -> sdk_ok env base m.
Proof. intros H Hm j Hj. apply H. lia. Qed.

Section SeedingOutcome.

Context {F : FloatFormat}.

(** Lines 114-178 never touch the sensor collection, however they end. *)
Lemma alerts_and_settings_keep_readings env s :
  exists o s1 new,
    seed_alerts_and_settings env s = (o, s1) /\
    self s1 = self s /\
    store s1 "sensor_data" = store s "sensor_data" /\
    trace s1 = (trace s ++ new)%list.
Proof.
  unfold seed_alerts_and_settings.
  destruct (db (self s)) as [c0 |] eqn:Hdb.
  2: { unfold bind at 1. unfold db_collection, bind, gets. rewrite Hdb.
       do 2 eexists. exists []. rewrite app_nil_r. unfold raise. auto. }
  unfold bind at 1. rewrite (db_collection_step _ _ _ c0 Hdb).
  destruct (fault env (sdk_calls s)) as [e |].
  { do 3 eexists. split; [reflexivity |]. state_simpl. auto. }
  rewrite !bind_now.
  match goal with
  | |- context [for_each ?docs (collection_add ?c) ;; _] =>
      match goal with
      | |- context [bind _ _ env ?s6] =>
          destruct (for_each_prefix env (collection_add c) (added c) (add_failed c)
                      (fun x s => collection_add_step c x env s) docs s6)
            as (o & s7 & pre & post & Hrun & Hsplit & Hcase)
      end
  end.
  unfold bind at 1. rewrite Hrun.
  destruct (completed_adds "alerts" pre
              (ticked (ticked (ticked (called (ECollection "alerts") s)))))
    as (C1 & _ & _ & _ & _ & C6 & new & C7 & _).
  assert (Hne : "sensor_data" <> "alerts") by discriminate.
  destruct Hcase as [(-> & _ & ->) | (e & x & post' & -> & _ & ->)].
  2: { do 3 eexists. split; [reflexivity |]. state_simpl.
       rewrite C1, (C6 _ Hne), C7. state_simpl.
       rewrite <- !app_assoc. auto. }
  unfold bind at 1. rewrite (db_collection_step _ _ _ c0) by (rewrite C1; exact Hdb).
  destruct (fault env _) as [e |].
  { do 3 eexists. split; [reflexivity |]. state_simpl.
    rewrite C1, (C6 _ Hne), C7. state_simpl. rewrite <- !app_assoc. auto. }
  rewrite !bind_now. unfold bind at 1. rewrite collection_add_step.
  destruct (fault env _) as [e |].
  { do 3 eexists. split; [reflexivity |]. state_simpl.
    rewrite C1, (C6 _ Hne), C7. state_simpl. rewrite <- !app_assoc. auto. }
  rewrite bind_print. unfold ret.
  do 3 eexists. split; [reflexivity |]. state_simpl.
  rewrite store_add_other by discriminate.
  rewrite C1, (C6 _ Hne), C7. state_simpl. rewrite <- !app_assoc. auto.
Qed.

End SeedingOutcome.

Ltac fault_none H j :=
  let Hx := fresh "Hx" in
  pose proof (H j ltac:(lia)) as Hx; cbn [Nat.add] in Hx;
  state_simpl; rewrite Hx; clear Hx.

Section SeedingForward.

Context {F : FloatFormat}.

(** The wrapper around the body. *)
Lemma create_sample_data_unavailable env s :
  is_available_of (self s) = false ->
  create_sample_data env s
  = (Ret false, log (EPrint "❌ Firebase not available, cannot create sample data") s).
Proof.
  intros H. unfold create_sample_data, bind, is_available, gets. rewrite H. reflexivity.
Qed.

Lemma create_sample_data_return env s b s1 :
  is_available_of (self s) = true ->
  create_sample_data_body env s = (Ret b, s1) ->
  create_sample_data env s = (Ret b, s1).
Proof.
  intros H Hb. unfold create_sample_data, bind, is_available, gets, try_except.
  rewrite H. cbn. rewrite Hb. reflexivity.
Qed.

Lemma create_sample_data_raise env s e s1 :
  is_available_of (self s) = true ->
  create_sample_data_body env s = (Raise e, s1) ->
  create_sample_data env s
  = (Ret false, log (EPrint ("❌ Error creating sample data: " ++ exn_message e)) s1).
Proof.
  intros H Hb. unfold create_sample_data, bind, is_available, gets, try_except.
  rewrite H. cbn. rewrite Hb. reflexivity.
Qed.

Lemma create_sample_data_returns env s :
  exists b s', create_sample_data env s = (Ret b, s').
Proof.
  destruct (is_available_of (self s)) eqn:H.
  - destruct (create_sample_data_body env s) as [[b | e] s1] eqn:Hb.
    + rewrite (create_sample_data_return env s b s1 H Hb). eauto.
    + rewrite (create_sample_data_raise env s e s1 H Hb). eauto.
  - rewrite (create_sample_data_unavailable env s H). eauto.
Qed.

(** The existence probe found a document. *)
Lemma probe_hit env s :
  is_available_of (self s) = true ->
  store s "sensor_data" <> [] ->
  sdk_ok env (sdk_calls s) 2 ->
  create_sample_data_body env s
  = (Ret true, log (EPrint "📊 Sample data already exists") (probed s)).
Proof.
  intros Hav Hne Hok. destruct (available_db _ Hav) as [c0 Hdb].
  unfold create_sample_data_body.
  unfold bind at 1. rewrite (db_collection_step _ _ _ c0 Hdb). fault_none Hok 0%nat.
  unfold bind at 1. rewrite limit_get_step. fault_none Hok 1%nat.
  destruct (store s "sensor_data") as [| d ds]; [contradiction |]. reflexivity.
Qed.

(** The existence probe found nothing. *)
Lemma probe_miss env s :
  is_available_of (self s) = true ->
  store s "sensor_data" = [] ->
  sdk_ok env (sdk_calls s) 2 ->
  create_sample_data_body env s
  = (for_each (range 24) (seed_reading "sensor_data") ;; seed_alerts_and_settings)
      env (log (EPrint "📊 Creating sample sensor data...") (probed s)).
Proof.
  intros Hav He Hok. destruct (available_db _ Hav) as [c0 Hdb].
  unfold create_sample_data_body.
  unfold bind at 1. rewrite (db_collection_step _ _ _ c0 Hdb). fault_none Hok 0%nat.
  unfold bind at 1. rewrite limit_get_step. fault_none Hok 1%nat.
  rewrite He. reflexivity.
Qed.

(** The probe itself, or the call before it, raised. *)
Lemma probe_raises env s :
  is_available_of (self s) = true ->
  ~ sdk_ok env (sdk_calls s) 2 ->
  exists e s1 new,
    create_sample_data_body env s = (Raise e, s1) /\
    store s1 = store s /\ self s1 = self s /\
    trace s1 = (trace s ++ new)%list /\ filter is_add new = [].
Proof.
  intros Hav Hok. destruct (available_db _ Hav) as [c0 Hdb].
  unfold create_sample_data_body.
  unfold bind at 1. rewrite (db_collection_step _ _ _ c0 Hdb).
  destruct (fault env (sdk_calls s)) as [e |] eqn:F0.
  { do 3 eexists. split; [reflexivity |]. state_simpl. repeat split. }
  unfold bind at 1. rewrite limit_get_step. state_simpl.
  destruct (fault env (S (sdk_calls s))) as [e |] eqn:F1.
  { do 3 eexists. split; [reflexivity |]. state_simpl.
    rewrite <- app_assoc. repeat split. }
  exfalso. apply Hok. intros [| [| j]] Hj; cbn; auto. lia.
Qed.

End SeedingForward.

Section SeedingLoops.

Context {F : FloatFormat}.

Lemma range_length n : length (range n) = n.
Proof. unfold range. rewrite length_map, length_seq. reflexivity. Qed.

Lemma readings_loop_completes env c s :
  sdk_ok env (sdk_calls s) 24 ->
  for_each (range 24) (seed_reading c) env s
  = (Ret tt, completed (reading_added env c) (range 24) s).
Proof.
  intros H.
  apply (for_each_completes env (seed_reading c) (reading_added env c)
           (reading_failed env c) (fun x s => seed_reading_step c x env s)
           (reading_added_calls env c)).
  rewrite range_length. exact H.
Qed.

Lemma readings_loop_fails env c s w e :
  (w < 24)%nat ->
  sdk_ok env (sdk_calls s) w ->
  fault env (w + sdk_calls s) = Some e ->
  for_each (range 24) (seed_reading c) env s
  = (Raise e,
     reading_failed env c (nth w (range 24) 0%Z)
       (completed (reading_added env c) (firstn w (range 24)) s)).
Proof.
  intros Hw Hok He.
  assert (Hlen : length (firstn w (range 24)) = w).
  { rewrite length_firstn, range_length. lia. }
  rewrite (split_nth (range 24) w 0%Z) at 1 by (rewrite range_length; exact Hw).
  apply (for_each_fails env (seed_reading c) (reading_added env c)
           (reading_failed env c) (fun x s => seed_reading_step c x env s)
           (reading_added_calls env c)).
  - rewrite Hlen. exact Hok.
  - rewrite Hlen. exact He.
Qed.

Lemma added_calls c d s : sdk_calls (added c d s) = S (sdk_calls s).
Proof. reflexivity. Qed.

Lemma alerts_loop_completes env s :
  sdk_ok env (sdk_calls s) 3 ->
  for_each (alerts_at env s) (collection_add "alerts") env
    (ticked (ticked (ticked s)))
  = (Ret tt, completed (added "alerts") (alerts_at env s) (ticked (ticked (ticked s)))).
Proof.
  intros H.
  apply (for_each_completes env (collection_add "alerts") (added "alerts")
           (add_failed "alerts") (fun x s => collection_add_step "alerts" x env s)
           (added_calls "alerts")).
  exact H.
Qed.

(** Lines 114-178 with no failing call. *)
Lemma alerts_and_settings_complete env s c0 :
  db (self s) = Some c0 ->
  sdk_ok env (sdk_calls s) 6 ->
  exists s1,
    seed_alerts_and_settings env s = (Ret true, s1) /\
    self s1 = self s /\
    store s1 "sensor_data" = store s "sensor_data" /\
    store s1 "alerts" = (store s "alerts" ++ alerts_at env s)%list /\
    store s1 "system_settings" = (store s "system_settings" ++ [settings_at env s])%list.
Proof.
  intros Hdb Hok. unfold seed_alerts_and_settings.
  unfold bind at 1. rewrite (db_collection_step _ _ _ c0 Hdb). fault_none Hok 0%nat.
  rewrite !bind_now.
  change (sample_alerts _ _ _) with (alerts_at env (called (ECollection "alerts") s)).
  unfold bind at 1. rewrite alerts_loop_completes
    by (apply (sdk_ok_shift env (sdk_calls s) 3 1), (sdk_ok_less env _ 6); [exact Hok | lia]).
  set (s0 := called (ECollection "alerts") s).
  destruct (completed_adds "alerts" (alerts_at env s0) (ticked (ticked (ticked s0))))
    as (C1 & _ & C3 & _ & C5 & C6 & _).
  pose proof (completed_calls (added "alerts") (added_calls "alerts")
                (alerts_at env s0) (ticked (ticked (ticked s0)))) as Cc.
  set (s4 := completed _ _ _) in *. clearbody s4.
  change (length (alerts_at env s0)) with 3%nat in Cc.
  change (sdk_calls (ticked (ticked (ticked s0)))) with (S (sdk_calls s)) in Cc.
  change (self (ticked (ticked (ticked s0)))) with (self s) in C1.
  change (clock_reads (ticked (ticked (ticked s0)))) with (S (S (S (clock_reads s)))) in C3.
  change (store (ticked (ticked (ticked s0)))) with (store s) in C5, C6.
  cbn [Nat.add] in Cc.
  unfold bind at 1. rewrite (db_collection_step _ _ _ c0) by (rewrite C1; exact Hdb).
  rewrite Cc. fault_none Hok 4%nat.
  rewrite !bind_now. state_simpl. rewrite C3.
  unfold bind at 1. rewrite collection_add_step. state_simpl. rewrite Cc.
  fault_none Hok 5%nat.
  rewrite bind_print. unfold ret.
  eexists. split; [reflexivity |]. state_simpl.
  rewrite C1, store_add_same, !store_add_other by discriminate.
  rewrite C5, !C6 by discriminate.
  repeat split.
Qed.

(** The write of the [k]-th alert raises. *)
Lemma alert_write_fails env s c0 k e :
  db (self s) = Some c0 ->
  (k < 3)%nat ->
  sdk_ok env (sdk_calls s) (1 + k) ->
  fault env (1 + k + sdk_calls s) = Some e ->
  exists s1,
    seed_alerts_and_settings env s = (Raise e, s1) /\
    self s1 = self s /\
    store s1 "sensor_data" = store s "sensor_data" /\
    store s1 "alerts" = (store s "alerts" ++ firstn k (alerts_at env s))%list /\
    store s1 "system_settings" = store s "system_settings".
Proof.
  intros Hdb Hk Hok He. unfold seed_alerts_and_settings.
  unfold bind at 1. rewrite (db_collection_step _ _ _ c0 Hdb). fault_none Hok 0%nat.
  rewrite !bind_now.
  change (sample_alerts _ _ _) with (alerts_at env s).
  set (s3 := ticked (ticked (ticked (called (ECollection "alerts") s)))).
  assert (Hlen : length (firstn k (alerts_at env s)) = k).
  { rewrite length_firstn. cbn. lia. }
  assert (Hloop : for_each (alerts_at env s) (collection_add "alerts") env s3
                  = (Raise e,
                     add_failed "alerts" (nth k (alerts_at env s) [])
                       (completed (added "alerts") (firstn k (alerts_at env s)) s3))).
  { rewrite (split_nth (alerts_at env s) k []) at 1 by (cbn; lia).
    apply (for_each_fails env (collection_add "alerts") (added "alerts")
             (add_failed "alerts") (fun x s => collection_add_step "alerts" x env s)
             (added_calls "alerts")).
    - rewrite Hlen. intros j Hj.
      change (sdk_calls s3) with (S (sdk_calls s)).
      replace (j + S (sdk_calls s))%nat with (S j + sdk_calls s)%nat by lia.
      apply Hok. lia.
    - rewrite Hlen. change (sdk_calls s3) with (S (sdk_calls s)).
      replace (k + S (sdk_calls s))%nat with (1 + k + sdk_calls s)%nat by lia.
      exact He. }
  unfold bind at 1. rewrite Hloop.
  destruct (completed_adds "alerts" (firstn k (alerts_at env s)) s3)
    as (C1 & _ & _ & _ & C5 & C6 & _).
  eexists. split; [reflexivity |]. unfold add_failed. state_simpl.
  rewrite C1, C5, !C6 by discriminate. repeat split.
Qed.

(** The write of the settings document raises. *)
Lemma settings_write_fails env s c0 e :
  db (self s) = Some c0 ->
  sdk_ok env (sdk_calls s) 5 ->
  fault env (5 + sdk_calls s) = Some e ->
  exists s1,
    seed_alerts_and_settings env s = (Raise e, s1) /\
    self s1 = self s /\
    store s1 "sensor_data" = store s "sensor_data" /\
    store s1 "alerts" = (store s "alerts" ++ alerts_at env s)%list /\
    store s1 "system_settings" = store s "system_settings".
Proof.
  intros Hdb Hok He. unfold seed_alerts_and_settings.
  unfold bind at 1. rewrite (db_collection_step _ _ _ c0 Hdb). fault_none Hok 0%nat.
  rewrite !bind_now.
  change (sample_alerts _ _ _) with (alerts_at env (called (ECollection "alerts") s)).
  unfold bind at 1. rewrite alerts_loop_completes
    by (apply (sdk_ok_shift env (sdk_calls s) 3 1), (sdk_ok_less env _ 5); [exact Hok | lia]).
  set (s0 := called (ECollection "alerts") s).
  destruct (completed_adds "alerts" (alerts_at env s0) (ticked (ticked (ticked s0))))
    as (C1 & _ & C3 & _ & C5 & C6 & _).
  pose proof (completed_calls (added "alerts") (added_calls "alerts")
                (alerts_at env s0) (ticked (ticked (ticked s0)))) as Cc.
  set (s4 := completed _ _ _) in *. clearbody s4.
  change (length (alerts_at env s0)) with 3%nat in Cc.
  change (sdk_calls (ticked (ticked (ticked s0)))) with (S (sdk_calls s)) in Cc.
  change (self (ticked (ticked (ticked s0)))) with (self s) in C1.
  change (clock_reads (ticked (ticked (ticked s0)))) with (S (S (S (clock_reads s)))) in C3.
  change (store (ticked (ticked (ticked s0)))) with (store s) in C5, C6.
  cbn [Nat.add] in Cc.
  unfold bind at 1. rewrite (db_collection_step _ _ _ c0) by (rewrite C1; exact Hdb).
  rewrite Cc. fault_none Hok 4%nat.
  rewrite !bind_now. state_simpl. rewrite C3.
  unfold bind at 1. rewrite collection_add_step. state_simpl. rewrite Cc.
  cbn [Nat.add] in He. rewrite He.
  eexists. split; [reflexivity |]. state_simpl.
  rewrite C1, C5, !C6 by discriminate.
  repeat split.
Qed.

End SeedingLoops.

Section SeedingFacts.

Context {F : FloatFormat}.

Lemma sdk_ok_2_dec env base : sdk_ok env base 2 \/ ~ sdk_ok env base 2.
Proof.
  destruct (fault env base) as [e |] eqn:F0.
  { right. intros H. specialize (H 0%nat ltac:(lia)). cbn in H. congruence. }
  destruct (fault env (S base)) as [e |] eqn:F1.
  { right. intros H. specialize (H 1%nat ltac:(lia)). cbn in H. congruence. }
  left. intros [| [| j]] Hj; cbn; auto. lia.
Qed.

(** With a document in the sensor collection nothing is written, whatever
    else happens. *)
Lemma no_write_when_readings_exist env s :
  store s "sensor_data" <> [] ->
  exists b s' new,
    create_sample_data env s = (Ret b, s') /\
    store s' = store s /\
    self s' = self s /\
    trace s' = (trace s ++ new)%list /\
    filter is_add new = [].
Proof.
  intros Hne. destruct (is_available_of (self s)) eqn:Hav.
  - destruct (sdk_ok_2_dec env (sdk_calls s)) as [Hok | Hbad].
    + rewrite (create_sample_data_return env s _ _ Hav (probe_hit env s Hav Hne Hok)).
      do 3 eexists. split; [reflexivity |]. unfold probed. state_simpl.
      rewrite <- !app_assoc. repeat split.
    + destruct (probe_raises env s Hav Hbad) as (e & s1 & new & Hrun & Hst & Hself & Htr & Hadd).
      rewrite (create_sample_data_raise env s e s1 Hav Hrun).
      exists false. eexists.
      exists (new ++ [EPrint ("❌ Error creating sample data: " ++ exn_message e)])%list.
      split; [reflexivity |]. state_simpl. rewrite Htr, <- app_assoc, filter_app, Hadd.
      repeat split; auto.
  - rewrite (create_sample_data_unavailable env s Hav).
    do 3 eexists. split; [reflexivity |]. state_simpl. repeat split.
Qed.

(** The readings are in the store once the loop has completed, however
    lines 114-178 end. *)
Lemma readings_after_loop env s :
  is_available_of (self s) = true ->
  store s "sensor_data" = [] ->
  sdk_ok env (sdk_calls s) 26 ->
  exists o s1,
    create_sample_data_body env s = (o, s1) /\
    self s1 = self s /\
    store s1 "sensor_data" = sensor_docs env s.
Proof.
  intros Hav He Hok.
  rewrite (probe_miss env s Hav He (sdk_ok_less env _ 26 2 Hok ltac:(lia))).
  unfold bind at 1. rewrite readings_loop_completes
    by (apply (sdk_ok_shift env (sdk_calls s) 24 2), (sdk_ok_less env _ 26); [exact Hok | lia]).
  set (s0 := log _ (probed s)).
  destruct (completed_readings env "sensor_data" (range 24) s0)
    as (C1 & _ & _ & _ & C5 & _).
  destruct (alerts_and_settings_keep_readings env
              (completed (reading_added env "sensor_data") (range 24) s0))
    as (o & s1 & new & Hrun & Hself & Hst & _).
  exists o, s1. split; [exact Hrun |].
  rewrite Hself, Hst, C1, C5. subst s0. unfold probed. state_simpl.
  rewrite He. split; reflexivity.
Qed.

(** A fresh seeding in which no call fails writes everything and returns
    [True]. *)
Lemma fresh_seed_completes env s :
  is_available_of (self s) = true ->
  store s "sensor_data" = [] ->
  sdk_ok env (sdk_calls s) 32 ->
  exists s',
    create_sample_data env s = (Ret true, s') /\
    store s' "sensor_data" = sensor_docs env s /\
    store s' "alerts" = (store s "alerts" ++ alert_docs env s)%list /\
    store s' "system_settings"
    = (store s "system_settings" ++ [settings_doc env s])%list.
Proof.
  intros Hav He Hok. destruct (available_db _ Hav) as [c0 Hdb].
  set (s0 := log (EPrint "📊 Creating sample sensor data...") (probed s)).
  destruct (completed_readings env "sensor_data" (range 24) s0)
    as (C1 & _ & C3 & _ & C5 & C6 & _).
  pose proof (completed_calls (reading_added env "sensor_data")
                (reading_added_calls env "sensor_data") (range 24) s0) as Cc.
  assert (Hloop : for_each (range 24) (seed_reading "sensor_data") env s0
                  = (Ret tt, completed (reading_added env "sensor_data") (range 24) s0)).
  { apply readings_loop_completes. intros j Hj.
    change (sdk_calls s0) with (S (S (sdk_calls s))).
    replace (j + S (S (sdk_calls s)))%nat with (2 + j + sdk_calls s)%nat by lia.
    apply Hok. lia. }
  set (s2 := completed _ _ s0) in *. clearbody s2.
  rewrite range_length in Cc, C3.
  change (sdk_calls s0) with (S (S (sdk_calls s))) in Cc.
  change (clock_reads s0) with (clock_reads s) in C3, C5.
  change (rng_reads s0) with (rng_reads s) in C5.
  change (self s0) with (self s) in C1.
  change (store s0) with (store s) in C5, C6.
  destruct (alerts_and_settings_complete env s2 c0) as (s1 & Hrun & _ & S1 & S2 & S3).
  { rewrite C1. exact Hdb. }
  { intros j Hj. rewrite Cc.
    replace (j + (24 + S (S (sdk_calls s))))%nat with (26 + j + sdk_calls s)%nat by lia.
    apply Hok. lia. }
  exists s1. split.
  - apply (create_sample_data_return env s true s1 Hav).
    rewrite (probe_miss env s Hav He (sdk_ok_less env _ 32 2 Hok ltac:(lia))).
    fold s0. unfold bind at 1. rewrite Hloop. exact Hrun.
  - rewrite S1, S2, S3, C5, He, !C6 by discriminate.
    unfold alerts_at, settings_at, alert_docs, settings_doc, sensor_docs.
    rewrite C3. repeat split.
Qed.

(** A run that returns [True] leaves a document in the sensor collection
    and the object as it was. *)
Lemma success_leaves_readings env s s1 :
  create_sample_data env s = (Ret true, s1) ->
  store s1 "sensor_data" <> [] /\ self s1 = self s.
Proof.
  intros Hrun. destruct (is_available_of (self s)) eqn:Hav.
  2: { rewrite (create_sample_data_unavailable env s Hav) in Hrun. discriminate. }
  destruct (create_sample_data_body env s) as [[b | e] s1'] eqn:Hbody.
  2: { rewrite (create_sample_data_raise env s e s1' Hav Hbody) in Hrun. discriminate. }
  rewrite (create_sample_data_return env s b s1' Hav Hbody) in Hrun.
  injection Hrun as -> ->.
  destruct (sdk_ok_2_dec env (sdk_calls s)) as [Hok | Hbad].
  2: { destruct (probe_raises env s Hav Hbad) as (e & s2 & new & Hr & _).
       rewrite Hr in Hbody. discriminate. }
  destruct (store s "sensor_data") as [| d ds] eqn:Hst.
  - rewrite (probe_miss env s Hav Hst Hok) in Hbody.
    unfold bind at 1 in Hbody.
    destruct (for_each (range 24) (seed_reading "sensor_data") env _)
      as [[[] | e] s2] eqn:Hloop; [| discriminate].
    apply (for_each_returned env (seed_reading "sensor_data")
             (reading_added env "sensor_data") (reading_failed env "sensor_data")
             (fun x s => seed_reading_step "sensor_data" x env s)) in Hloop.
    destruct (alerts_and_settings_keep_readings env s2)
      as (o & s3 & new & Hrun & Hself & Hstore & _).
    rewrite Hrun in Hbody. injection Hbody as -> ->.
    destruct (completed_readings env "sensor_data" (range 24)
                (log (EPrint "📊 Creating sample sensor data...") (probed s)))
      as (C1 & _ & _ & _ & C5 & _).
    rewrite <- Hloop in C1, C5. rewrite Hself, Hstore, C1, C5. split; [| reflexivity].
    intros Hnil. apply (f_equal (@length Doc)) in Hnil.
    rewrite length_app, readings_from_length, range_length in Hnil. cbn in Hnil. lia.
  - assert (Hne : store s "sensor_data" <> []) by (rewrite Hst; discriminate).
    rewrite (probe_hit env s Hav Hne Hok) in Hbody. injection Hbody as <-.
    unfold probed. state_simpl. split; [exact Hne | reflexivity].
Qed.

End SeedingFacts.

(* ------------------------------------------------------------------ *)
(** ** The claims *)

(* ------------------------------------------------------------------ *)
(** ** Availability and the client accessor *)

(** C5: [get_firestore_client] returns the handle exactly when
    [is_available] is true, returns [None] otherwise, and in both cases
    returns normally without touching the state. *)
Theorem get_firestore_client_iff_available :
  forall (env : Env) (s : State),
    exists r : option Client,
      get_firestore_client env s = (Ret r, s) /\
      is_available env s = (Ret (is_available_of (self s)), s) /\
      ((exists c, r = Some c) <-> is_available_of (self s) = true) /\
      (is_available_of (self s) = false -> r = None) /\
      (is_available_of (self s) = true -> r = db (self s)).
Proof.
  intros env s. unfold_run. unfold is_available_of.
  destruct s as [[a [c |] [|]] ? ? ? ? ? ?]; cbn;
    eexists; (split; [reflexivity |]); (split; [reflexivity |]);
    repeat split; intros; try discriminate; eauto;
    try match goal with H : exists _, _ |- _ => destruct H; discriminate end.
Qed.

(* ------------------------------------------------------------------ *)
(** ** The credential cascade *)

Ltac use_cases :=
  repeat match goal with
         | H : ?l = ?r |- context [?l] => rewrite H
         end.

Ltac in_cases :=
  repeat match goal with
         | H : In _ _ |- _ => cbn in H
         | H : _ \/ _ |- _ => destruct H
         | H : False |- _ => destruct H
         | H : _ = _ |- _ => progress subst
         end.

(** C1: [initialize_firebase] attempts the strategy that comes first in
    the order registry, local file, FIREBASE_SERVICE_ACCOUNT_KEY,
    GOOGLE_APPLICATION_CREDENTIALS, none: every SDK or parser call of the
    run belongs to that strategy, the look-ups are made in that order and
    stop at the first hit, a success leaves the app of that strategy in
    the object, and an unconfigured process gets [False].  A variable is
    set when [os.getenv] gives a non-empty string, the test the code makes
    ([empty_variable_run] shows the empty one).  In particular, with an
    empty registry and the local file present, the certificate is read
    from the file and [os.getenv] is never called. *)
Theorem initialize_firebase_priority_order :
  forall (env : Env) (s : State),
    exists (b : bool) (s' : State) (new : list event),
      initialize_firebase env s = (Ret b, s') /\
      trace s' = (trace s ++ new)%list /\
      attempted new = spec_strategy env s /\
      (forall ev st, In ev new -> strategy_of_event ev = Some st ->
                     st = spec_strategy env s) /\
      filter is_probe new = spec_probes env (spec_strategy env s) /\
      (b = true ->
       app (self s') = expected_app env s (spec_strategy env s) /\
       is_available_of (self s') = true) /\
      (spec_strategy env s = Unconfigured -> b = false) /\
      (apps s = [] ->
       path_exists env (service_account_path env) = true ->
       attempted new = LocalFile /\
       In (ECertificateFile (service_account_path env)) new /\
       filter is_getenv new = [] /\
       (b = true ->
        app (self s')
        = Some (MkApp (CertificateFile (service_account_path env))))).
Proof.
  intros env s. run;
    (do 3 eexists; split; [reflexivity |]; split; [trace_eq |]);
    unfold spec_strategy, expected_app, service_account_path; use_cases; cbn;
    repeat split; intros; try discriminate; try congruence; in_cases;
    cbn in *; try discriminate; try congruence; auto.
Qed.


(** On a console that writes every line the constructor sets the three
    fields, runs [initialize_firebase] once (one reading of the registry,
    the first step of every attempt), drops its result and returns; where
    no strategy applies the object is built all the same, unavailable. *)
Lemma constructor_attempts_once :
  forall (env : Env) (s : State),
    exists (b : bool) (s' : State) (new : list event),
      __init__ env s = (Ret tt, s') /\
      initialize_firebase env (fresh s) = (Ret b, s') /\
      trace s' = (trace s ++ new)%list /\
      length (filter is_apps_read new) = 1%nat /\
      (spec_strategy env s = Unconfigured ->
       b = false /\ self s' = blank /\ is_available_of (self s') = false).
Proof.
  intros env s. unfold fresh. run;
    (do 3 eexists; split; [reflexivity |]; split; [reflexivity |];
     split; [trace_eq |]);
    unfold spec_strategy, service_account_path; use_cases; cbn;
    repeat split; intros; try discriminate; auto.
Qed.





(* ------------------------------------------------------------------ *)
(** ** The two entry points *)

Section EntryPoints.

Context {F : FloatFormat}.

(** C7: on an object that is not available [create_sample_data] prints
    one line and returns [False]: no SDK call is made, so neither the
    probe nor any write, and the store is as it was. *)
Theorem unavailable_seeding_is_a_noop :
  forall (env : Env) (s : State),
    is_available_of (self s) = false ->
    exists (s' : State) (new : list event),
      create_sample_data env s = (Ret false, s') /\
      trace s' = (trace s ++ new)%list /\
      filter is_store_call new = [] /\
      store s' = store s /\
      sdk_calls s' = sdk_calls s /\
      self s' = self s.
Proof.
  intros env s H. rewrite (create_sample_data_unavailable env s H).
  do 2 eexists. split; [reflexivity |]. state_simpl. repeat split.
Qed.

(** C3: with a document in the sensor collection, an available object and
    a probe that goes through, [create_sample_data] returns [True] after
    exactly two store calls, the second a limit-1 read, and no write; with
    such a document nothing is written whatever else happens; hence the
    call that follows one that returned [True] writes nothing. *)
Theorem seeding_skipped_when_readings_exist :
  forall (env : Env) (s : State),
    (is_available_of (self s) = true ->
     store s "sensor_data" <> [] ->
     sdk_ok env (sdk_calls s) 2 ->
     exists s' new,
       create_sample_data env s = (Ret true, s') /\
       store s' = store s /\
       trace s' = (trace s ++ new)%list /\
       filter is_store_call new
       = [ECollection "sensor_data"; ELimitGet "sensor_data" 1] /\
       filter is_add new = []) /\
    (store s "sensor_data" <> [] ->
     exists b s' new,
       create_sample_data env s = (Ret b, s') /\
       store s' = store s /\
       trace s' = (trace s ++ new)%list /\
       filter is_add new = []) /\
    (forall s1,
        create_sample_data env s = (Ret true, s1) ->
        exists b s2 new,
          create_sample_data env s1 = (Ret b, s2) /\
          store s2 = store s1 /\
          trace s2 = (trace s1 ++ new)%list /\
          filter is_add new = [] /\
          (sdk_ok env (sdk_calls s1) 2 -> b = true)).
Proof.
  intros env s. split; [| split].
  - intros Hav Hne Hok.
    rewrite (create_sample_data_return env s _ _ Hav (probe_hit env s Hav Hne Hok)).
    do 2 eexists. split; [reflexivity |]. unfold probed. state_simpl.
    rewrite <- !app_assoc. repeat split.
  - intros Hne.
    destruct (no_write_when_readings_exist env s Hne)
      as (b & s' & new & Hrun & Hst & _ & Htr & Hadd).
    exists b, s', new. auto.
  - intros s1 Hrun.
    destruct (success_leaves_readings env s s1 Hrun) as [Hne Hself].
    destruct (no_write_when_readings_exist env s1 Hne)
      as (b & s2 & new & Hrun2 & Hst & _ & Htr & Hadd).
    exists b, s2, new. repeat split; auto.
    intros Hok.
    assert (Hav : is_available_of (self s1) = true).
    { rewrite Hself. destruct (is_available_of (self s)) eqn:Hav; [reflexivity |].
      rewrite (create_sample_data_unavailable env s Hav) in Hrun. discriminate. }
    rewrite (create_sample_data_return env s1 _ _ Hav (probe_hit env s1 Hav Hne Hok)) in Hrun2.
    congruence.
Qed.

(** C4, amended: on an available object with an empty sensor collection
    and no failing call up to the last reading, the sensor collection
    ends with exactly 24 documents; the [k]-th has location "Tank A",
    sensor id "SENSOR_001", a temperature in [20, 30] that is the float of
    a one-decimal number, a dissolved oxygen in [4, 12] with two decimals,
    an ammonia in [0, 5] with three, and the timestamp "[k]-th clock
    reading minus [k] hours".  Two consecutive timestamps are therefore an
    hour apart less the time between the two clock readings: they decrease
    strictly when that time is under an hour, and are exactly an hour
    apart, from now back to now - 23 h, when the clock stands still.  The
    call returns [True] when the later calls go through as well. *)
Theorem fresh_seed_writes_24_readings :
  forall (env : Env) (s : State),
    is_available_of (self s) = true ->
    store s "sensor_data" = [] ->
    sdk_ok env (sdk_calls s) 26 ->
    let now := fun k : nat => clock env (k + clock_reads s) in
    let stamp := fun k : nat => (now k - Z.of_nat k * HOUR)%Z in
    exists (b : bool) (s' : State) (docs : list Doc),
      create_sample_data env s = (Ret b, s') /\
      store s' "sensor_data" = docs /\
      length docs = 24%nat /\
      (forall k, (k < 24)%nat ->
         exists (t o a : Q) (nt no na : Z),
           nth k docs [] = sample_data (stamp k) t o a /\
           doc_get "location" (nth k docs []) = Some (VStr "Tank A") /\
           doc_get "sensor_id" (nth k docs []) = Some (VStr "SENSOR_001") /\
           timestamp_of (nth k docs []) = Some (stamp k) /\
           (20 <= t <= 30)%Q /\ t = fl (inject_Z nt / inject_Z 10) /\
           (4 <= o <= 12)%Q /\ o = fl (inject_Z no / inject_Z 100) /\
           (0 <= a <= 5)%Q /\ a = fl (inject_Z na / inject_Z 1000)) /\
      (forall k, (S k < 24)%nat ->
                 (stamp k - stamp (S k) = HOUR - (now (S k) - now k))%Z) /\
      ((forall k, (S k < 24)%nat -> (now (S k) - now k < HOUR)%Z) ->
       forall k, (S k < 24)%nat -> (stamp (S k) < stamp k)%Z) /\
      ((forall k, (k < 24)%nat -> now k = now 0%nat) ->
       (forall k, (S k < 24)%nat -> (stamp k - stamp (S k) = HOUR)%Z) /\
       stamp 0%nat = now 0%nat /\ stamp 23%nat = (now 0%nat - 23 * HOUR)%Z) /\
      (sdk_ok env (sdk_calls s) 32 -> b = true).
Proof.
  intros env s Hav He Hok now stamp.
  destruct (readings_after_loop env s Hav He Hok) as (o & s1 & Hbody & _ & Hst).
  assert (Hrun : exists b s', create_sample_data env s = (Ret b, s') /\
                              store s' "sensor_data" = sensor_docs env s).
  { destruct o as [b | e].
    - rewrite (create_sample_data_return env s b s1 Hav Hbody). eauto.
    - rewrite (create_sample_data_raise env s e s1 Hav Hbody).
      do 2 eexists. split; [reflexivity |]. state_simpl. exact Hst. }
  destruct Hrun as (b & s' & Hrun & Hst').
  exists b, s', (sensor_docs env s).
  split; [exact Hrun |]. split; [exact Hst' |].
  split; [unfold sensor_docs; rewrite readings_from_length; apply range_length |].
  split; [| split; [| split; [| split]]].
  - intros k Hk. unfold sensor_docs, range.
    rewrite (readings_from_nth env _ _ 0 24 k []) by exact Hk.
    replace (k + 0)%nat with k by lia.
    set (r := (3 * k + rng_reads s)%nat).
    exists (py_round (uniform_value 20 30 (unit_draw env r)) 1),
      (py_round (uniform_value 4 12 (unit_draw env (S r))) 2),
      (py_round (uniform_value 0 5 (unit_draw env (S (S r)))) 3).
    eexists _, _, _.
    split; [reflexivity |]. split; [reflexivity |]. split; [reflexivity |].
    split; [reflexivity |].
    split; [apply (measurement_between env 20 30); lia |]. split; [reflexivity |].
    split; [apply (measurement_between env 4 12); lia |]. split; [reflexivity |].
    split; [apply (measurement_between env 0 5); lia |]. reflexivity.
  - intros k Hk. unfold stamp. rewrite Nat2Z.inj_succ. lia.
  - intros Hgap k Hk. specialize (Hgap k Hk). unfold stamp.
    rewrite Nat2Z.inj_succ. lia.
  - intros Hstill. split; [| split].
    + intros k Hk. unfold stamp.
      rewrite (Hstill k ltac:(lia)), (Hstill (S k) Hk), Nat2Z.inj_succ. lia.
    + unfold stamp. cbn. lia.
    + unfold stamp. rewrite (Hstill 23%nat ltac:(lia)). cbn. lia.
  - intros Hall.
    destruct (fresh_seed_completes env s Hav He Hall) as (s'' & Hrun' & _).
    rewrite Hrun' in Hrun. congruence.
Qed.

(** The [w]-th write of a fresh seeding raises: so does the body, with
    the [w] documents written before in the store. *)
Lemma failing_write_raises env s w e :
  is_available_of (self s) = true ->
  store s "sensor_data" = [] ->
  (w < 28)%nat ->
  sdk_ok env (sdk_calls s) (write_call w) ->
  fault env (write_call w + sdk_calls s) = Some e ->
  exists s1,
    create_sample_data_body env s = (Raise e, s1) /\
    store s1 "sensor_data" = firstn w (sensor_docs env s) /\
    store s1 "alerts"
    = (store s "alerts" ++ firstn (w - 24) (alert_docs env s))%list /\
    store s1 "system_settings" = store s "system_settings".
Proof.
  intros Hav He Hw Hok Hf.
  destruct (available_db _ Hav) as [c0 Hdb].
  assert (Hok2 : sdk_ok env (sdk_calls s) 2).
  { apply (sdk_ok_less env _ (write_call w)); [exact Hok |].
    unfold write_call. destruct (w <? 24)%nat, (w <? 27)%nat; lia. }
  set (s0 := log (EPrint "📊 Creating sample sensor data...") (probed s)).
  rewrite (probe_miss env s Hav He Hok2). fold s0.
  unfold write_call in Hok, Hf.
  destruct (Nat.ltb_spec w 24) as [Hlt | Hge].
  - (* a reading *)
    unfold bind at 1. rewrite (readings_loop_fails env "sensor_data" s0 w e Hlt).
    + destruct (completed_readings env "sensor_data" (firstn w (range 24)) s0)
        as (_ & _ & _ & _ & C5 & C6 & _).
      eexists. split; [reflexivity |]. unfold reading_failed, add_failed. state_simpl.
      rewrite C5, !C6 by discriminate.
      replace (w - 24)%nat with 0%nat by lia. cbn [firstn]. rewrite app_nil_r.
      unfold sensor_docs. rewrite readings_from_firstn.
      subst s0. unfold probed. state_simpl. rewrite He. repeat split.
    + intros j Hj. change (sdk_calls s0) with (S (S (sdk_calls s))).
      replace (j + S (S (sdk_calls s)))%nat with (2 + j + sdk_calls s)%nat by lia.
      apply Hok. lia.
    + change (sdk_calls s0) with (S (S (sdk_calls s))).
      replace (w + S (S (sdk_calls s)))%nat with (2 + w + sdk_calls s)%nat by lia.
      exact Hf.
  - (* an alert or the settings *)
    assert (Hok' : sdk_ok env (sdk_calls s) 27).
    { apply (sdk_ok_less env _ _ 27 Hok). destruct (w <? 27)%nat; lia. }
    unfold bind at 1. rewrite readings_loop_completes
      by (intros j Hj; change (sdk_calls s0) with (S (S (sdk_calls s)));
          replace (j + S (S (sdk_calls s)))%nat with (2 + j + sdk_calls s)%nat by lia;
          apply Hok'; lia).
    destruct (completed_readings env "sensor_data" (range 24) s0)
      as (C1 & _ & C3 & _ & C5 & C6 & _).
    pose proof (completed_calls (reading_added env "sensor_data")
                  (reading_added_calls env "sensor_data") (range 24) s0) as Cc.
    set (s2 := completed _ _ s0) in *. clearbody s2.
    rewrite range_length in Cc, C3.
    change (sdk_calls s0) with (S (S (sdk_calls s))) in Cc.
    change (clock_reads s0) with (clock_reads s) in C3, C5.
    change (rng_reads s0) with (rng_reads s) in C5.
    change (self s0) with (self s) in C1.
    change (store s0) with (store s) in C5, C6.
    assert (Hal : alerts_at env s2 = alert_docs env s).
    { unfold alerts_at, alert_docs. rewrite C3. reflexivity. }
    assert (Hsensor : store s2 "sensor_data" = firstn w (sensor_docs env s)).
    { rewrite C5, He. cbn [app]. fold (sensor_docs env s).
      rewrite firstn_all2; [reflexivity |].
      unfold sensor_docs. rewrite readings_from_length, range_length. lia. }
    destruct (Nat.ltb_spec w 27) as [Hlt | Hge'].
    + destruct (alert_write_fails env s2 c0 (w - 24) e) as (s1 & Hrun & _ & S1 & S2 & S3).
      * rewrite C1. exact Hdb.
      * lia.
      * intros j Hj. rewrite Cc.
        replace (j + (24 + S (S (sdk_calls s))))%nat
          with (26 + j + sdk_calls s)%nat by lia.
        apply Hok. lia.
      * rewrite Cc.
        replace (1 + (w - 24) + (24 + S (S (sdk_calls s))))%nat
          with (3 + w + sdk_calls s)%nat by lia.
        exact Hf.
      * exists s1. split; [exact Hrun |].
        rewrite S1, S2, S3, Hsensor, Hal, !C6 by discriminate. repeat split.
    + assert (w = 27%nat) by lia. subst w.
      destruct (settings_write_fails env s2 c0 e) as (s1 & Hrun & _ & S1 & S2 & S3).
      * rewrite C1. exact Hdb.
      * intros j Hj. rewrite Cc.
        replace (j + (24 + S (S (sdk_calls s))))%nat
          with (26 + j + sdk_calls s)%nat by lia.
        apply Hok. lia.
      * rewrite Cc. exact Hf.
      * exists s1. split; [exact Hrun |].
        rewrite S1, S2, S3, Hsensor, Hal, !C6 by discriminate. repeat split.
Qed.

(** C8: when the [w]-th write of a fresh seeding raises (the calls before
    it having gone through), [create_sample_data] returns [False] and the
    store holds exactly the [w] documents written before: the first [w]
    readings, then the first [w - 24] alerts, no settings. *)
Theorem seeding_is_not_atomic :
  forall (env : Env) (s : State) (w : nat) (e : exn),
    is_available_of (self s) = true ->
    store s "sensor_data" = [] ->
    (w < 28)%nat ->
    sdk_ok env (sdk_calls s) (write_call w) ->
    fault env (write_call w + sdk_calls s) = Some e ->
    exists s' : State,
      create_sample_data env s = (Ret false, s') /\
      store s' "sensor_data" = firstn w (sensor_docs env s) /\
      store s' "alerts"
      = (store s "alerts" ++ firstn (w - 24) (alert_docs env s))%list /\
      store s' "system_settings" = store s "system_settings" /\
      (length (store s' "sensor_data")
       + (length (store s' "alerts") - length (store s "alerts")) = w)%nat.
Proof.
  intros env s w e Hav He Hw Hok Hf.
  destruct (failing_write_raises env s w e Hav He Hw Hok Hf)
    as (s1 & Hrun & S1 & S2 & S3).
  rewrite (create_sample_data_raise env s e s1 Hav Hrun).
  eexists. split; [reflexivity |]. state_simpl.
  rewrite S1, S2, S3. repeat split.
  rewrite length_app, !length_firstn.
  unfold sensor_docs, alert_docs. rewrite readings_from_length, range_length.
  cbn [length sample_alerts]. lia.
Qed.

End EntryPoints.

(* ------------------------------------------------------------------ *)
(** ** The claims on sample runs *)

Lemma run_of_fst {A} (p : outcome A * State) (a : A) :
  fst p = Ret a -> p = (Ret a, snd p).
Proof. destruct p as [o s]. cbn. intros ->. reflexivity. Qed.

Lemma sdk_ok_no_faults env base n :
  (forall k, fault env k = None) -> sdk_ok env base n.
Proof. intros H j _. apply H. Qed.

(** C1 on a process with the credential file and the variable both set. *)
Lemma local_file_wins_witness :
  apps boot = [] /\
  path_exists file_and_key_env (service_account_path file_and_key_env) = true /\
  truthy (environ file_and_key_env KEY_VAR) = true /\
  exists (s' : State) (new : list event),
    initialize_firebase file_and_key_env boot = (Ret true, s') /\
    trace s' = (trace boot ++ new)%list /\
    attempted new = LocalFile /\
    filter is_getenv new = [] /\
    app (self s')
    = Some (MkApp (CertificateFile "/srv/app/firebase-service-account.json")).
Proof.
  split; [reflexivity |]. split; [reflexivity |]. split; [reflexivity |].
  destruct (initialize_firebase_priority_order file_and_key_env boot)
    as (b & s' & new & Hrun & Htr & _ & _ & _ & _ & _ & Hfile).
  destruct (Hfile eq_refl eq_refl) as (Ha & _ & Hg & Happ).
  assert (Hb : b = true).
  { apply (f_equal fst) in Hrun. vm_compute in Hrun. congruence. }
  subst b. exists s', new. repeat split; auto.
Defined.

(** C3 on the process that has just been seeded. *)
Lemma second_seeding_witness :
  fst (create_sample_data (F := Fixed52) demo_env booted) = Ret true /\
  exists b s2 new,
    create_sample_data (F := Fixed52) demo_env seeded = (Ret b, s2) /\
    store s2 = store seeded /\
    trace s2 = (trace seeded ++ new)%list /\
    filter is_add new = [] /\
    b = true.
Proof.
  assert (Hfirst : fst (create_sample_data (F := Fixed52) demo_env booted) = Ret true)
    by (vm_compute; reflexivity).
  split; [exact Hfirst |].
  destruct (seeding_skipped_when_readings_exist (F := Fixed52) demo_env booted)
    as (_ & _ & H).
  destruct (H seeded (run_of_fst _ _ Hfirst)) as (b & s2 & new & H1 & H2 & H3 & H4 & H5).
  exists b, s2, new. repeat split; auto.
  apply H5. apply sdk_ok_no_faults. reflexivity.
Defined.

(** C4 on the first seeding of the sample process. *)
Lemma fresh_seed_witness :
  is_available_of (self booted) = true /\
  store booted "sensor_data" = [] /\
  sdk_ok demo_env (sdk_calls booted) 26 /\
  exists b s' docs,
    create_sample_data (F := Fixed52) demo_env booted = (Ret b, s') /\
    store s' "sensor_data" = docs /\
    length docs = 24%nat.
Proof.
  assert (Hok : sdk_ok demo_env (sdk_calls booted) 26)
    by (apply sdk_ok_no_faults; reflexivity).
  split; [reflexivity |]. split; [reflexivity |]. split; [exact Hok |].
  destruct (fresh_seed_writes_24_readings (F := Fixed52) demo_env booted
              eq_refl eq_refl Hok)
    as (b & s' & docs & H1 & H2 & H3 & _).
  exists b, s', docs. auto.
Defined.

(** C4 as stated fails on that run: the clock moves between two turns of
    the loop, so the first two timestamps are 1.5 ms less than an hour
    apart. *)
Lemma readings_not_one_hour_apart :
  is_available_of (self booted) = true /\
  store booted "sensor_data" = [] /\
  fst (create_sample_data (F := Fixed52) demo_env booted) = Ret true /\
  length (store seeded "sensor_data") = 24%nat /\
  map timestamp_of (firstn 2 (store seeded "sensor_data"))
  = [Some 1700000000000000%Z; Some 1699996400001500%Z] /\
  HOUR = 3600000000%Z /\
  spaced_by HOUR (store seeded "sensor_data") = false.
Proof.
  repeat split; vm_compute; reflexivity.
Qed.


(** C7 on an object that was never initialized. *)
Lemma unavailable_seeding_witness :
  is_available_of (self boot) = false /\
  exists s' : State,
    create_sample_data (F := Fixed52) demo_env boot = (Ret false, s') /\
    store s' = store boot /\ sdk_calls s' = sdk_calls boot.
Proof.
  split; [reflexivity |].
  destruct (unavailable_seeding_is_a_noop (F := Fixed52) demo_env boot eq_refl)
    as (s' & new & H1 & _ & _ & H2 & H3 & _).
  exists s'. auto.
Defined.

(** C8 on a seeding whose sixth write fails. *)
Lemma partial_seeding_witness :
  exists s' : State,
    create_sample_data (F := Fixed52) sixth_write_fails booted = (Ret false, s') /\
    length (store s' "sensor_data") = 5%nat /\
    store s' "sensor_data" = firstn 5 (sensor_docs (F := Fixed52) sixth_write_fails booted).
Proof.
  assert (Hok : sdk_ok sixth_write_fails (sdk_calls booted) (write_call 5)).
  { intros j Hj. change (write_call 5) with 7%nat in Hj.
    do 7 (destruct j as [| j]; [reflexivity |]). lia. }
  destruct (seeding_is_not_atomic (F := Fixed52) sixth_write_fails booted 5
              (SDKError "503 service unavailable") eq_refl eq_refl
              ltac:(lia) Hok eq_refl)
    as (s' & H1 & H2 & _).
  exists s'. split; [exact H1 |]. split; [| exact H2].
  rewrite H2. reflexivity.
Defined.


(* ------------------------------------------------------------------ *)
(** ** Further properties of initialization *)

Definition is_print (ev : event) : bool :=
  match ev with
  | EPrint _ => true
  | _ => false
  end.

Definition is_initialize_app (ev : event) : bool :=
  match ev with
  | EInitializeApp _ => true
  | _ => false
  end.

(** The fields of an object agree: [db] is set exactly when
    [is_initialized] is, and then [app] is set too. *)
Definition coherent (o : FirebaseConfig) : Prop :=
  (is_initialized o = true <-> db o <> None) /\
  (is_initialized o = true -> app o <> None).

(** X1: [initialize_firebase] stays away from the database, the clock and
    the random number generator, in every environment and from every
    state: the store and both counters are as before, no store call is in
    its trace, and it makes at most three SDK calls. *)
Theorem initialize_firebase_leaves_the_store_alone :
  forall (env : Env) (s : State),
    exists (b : bool) (s' : State) (new : list event),
      initialize_firebase env s = (Ret b, s') /\
      trace s' = (trace s ++ new)%list /\
      store s' = store s /\
      clock_reads s' = clock_reads s /\
      rng_reads s' = rng_reads s /\
      filter is_store_call new = [] /\
      (sdk_calls s <= sdk_calls s' <= sdk_calls s + 3)%nat.
Proof.
  intros env s. run;
    (do 3 eexists; split; [reflexivity |]; split; [trace_eq |]);
    cbn; repeat split; lia.
Qed.

(** X2: [initialize_firebase] calls [initialize_app] at most once and only
    on an empty registry: a registry that holds an app is left as it is,
    an empty one ends empty or with the one new app, which is then the
    object's [app]; after [True] the object's app is in the registry. *)
Theorem initialize_firebase_registers_at_most_one_app :
  forall (env : Env) (s : State),
    exists (b : bool) (s' : State) (new : list event),
      initialize_firebase env s = (Ret b, s') /\
      trace s' = (trace s ++ new)%list /\
      (length (filter is_initialize_app new) <= 1)%nat /\
      (apps s <> [] -> apps s' = apps s /\ filter is_initialize_app new = []) /\
      (apps s = [] ->
       apps s' = [] \/ exists a, apps s' = [a] /\ app (self s') = Some a) /\
      (b = true -> exists a, app (self s') = Some a /\ In a (apps s')).
Proof.
  intros env s. run;
    (do 3 eexists; split; [reflexivity |]; split; [trace_eq |]);
    cbn; use_cases; cbn;
    (split; [lia |]); (split; [intros Hne; try congruence; auto |]);
    (split; [intros He; try discriminate; eauto |]);
    intros Hb; try discriminate; eexists; split; try reflexivity; cbn; auto;
    left; congruence.
Qed.

(** What a [True] leaves: the object holds the first app of the registry
    and a client. *)
Lemma initialize_firebase_success_state env s s1 :
  initialize_firebase env s = (Ret true, s1) ->
  exists a rest,
    apps s1 = a :: rest /\ self s1 = MkFirebaseConfig (Some a) (Some MkClient) true.
Proof.
  revert s1. run; intros s1 H; try discriminate;
    injection H as <-; cbn; use_cases; cbn; eauto.
Qed.

(** The run on a registry that holds an app, when both calls go through. *)
Lemma initialize_firebase_reuse env s a rest :
  apps s = a :: rest ->
  sdk_ok env (sdk_calls s) 2 ->
  initialize_firebase env s
  = (Ret true,
     log (EPrint "✅ Firebase already initialized")
       (set_self (MkFirebaseConfig (Some a) (Some MkClient) true)
          (called EFirestoreClient (called EGetApp (log EAppsRead s))))).
Proof.
  intros Ha Hok.
  pose proof (Hok 0%nat ltac:(lia)) as H0. pose proof (Hok 1%nat ltac:(lia)) as H1.
  cbn in H0, H1.
  unfold_run; cbn. repeat (rewrite ?Ha, ?H0, ?H1; cbn). reflexivity.
Qed.

(** X3: initializing again after a [True] is harmless: when its two SDK
    calls go through, the second call returns [True], reads the registry
    and no credential source, and leaves the object, the registry and the
    store exactly as the first call left them. *)
Theorem initialize_firebase_again_reuses_the_app :
  forall (env env2 : Env) (s s1 : State),
    initialize_firebase env s = (Ret true, s1) ->
    sdk_ok env2 (sdk_calls s1) 2 ->
    exists (s2 : State) (new : list event),
      initialize_firebase env2 s1 = (Ret true, s2) /\
      trace s2 = (trace s1 ++ new)%list /\
      filter is_probe new = [EAppsRead] /\
      filter is_initialize_app new = [] /\
      self s2 = self s1 /\
      apps s2 = apps s1 /\
      store s2 = store s1.
Proof.
  intros env env2 s s1 Hrun Hok.
  destruct (initialize_firebase_success_state env s s1 Hrun) as (a & rest & Ha & Hself).
  rewrite (initialize_firebase_reuse env2 s1 a rest Ha Hok).
  do 2 eexists. split; [reflexivity |]. cbn.
  split; [rewrite <- !app_assoc; reflexivity |].
  rewrite Hself. repeat split.
Qed.

(** X4: a failure of [firestore.client()] is not rolled back.  On an empty
    registry, when the credential and [initialize_app] succeed and
    [firestore.client()] raises, the call returns [False] with the new app
    registered and stored in the object, [db] and [is_initialized]
    untouched; a later call whose two SDK calls go through then succeeds
    on that app without reading any credential. *)
Theorem failed_client_leaves_the_app_registered :
  forall (env : Env) (s : State) (a : App) (e : exn),
    apps s = [] ->
    expected_app env s (spec_strategy env s) = Some a ->
    sdk_ok env (sdk_calls s) 2 ->
    fault env (2 + sdk_calls s) = Some e ->
    exists s1 : State,
      initialize_firebase env s = (Ret false, s1) /\
      apps s1 = [a] /\
      app (self s1) = Some a /\
      db (self s1) = db (self s) /\
      is_initialized (self s1) = is_initialized (self s) /\
      forall env2 : Env,
        sdk_ok env2 (sdk_calls s1) 2 ->
        exists (s2 : State) (new : list event),
          initialize_firebase env2 s1 = (Ret true, s2) /\
          trace s2 = (trace s1 ++ new)%list /\
          filter is_probe new = [EAppsRead] /\
          apps s2 = [a] /\
          self s2 = MkFirebaseConfig (Some a) (Some MkClient) true.
Proof.
  intros env s a e Ha Hexp Hok He.
  pose proof (Hok 0%nat ltac:(lia)) as H0. pose proof (Hok 1%nat ltac:(lia)) as H1.
  cbn in H0, H1, He.
  assert (Hfirst : exists s1,
             initialize_firebase env s = (Ret false, s1) /\
             apps s1 = [a] /\ app (self s1) = Some a /\
             db (self s1) = db (self s) /\
             is_initialized (self s1) = is_initialized (self s)).
  { revert Hexp. unfold spec_strategy, expected_app, service_account_path. rewrite Ha.
    unfold_run; cbn. rewrite Ha; cbn.
    destruct (path_exists env _) eqn:Hp; cbn.
    - intros Hexp. injection Hexp as <-.
      repeat (rewrite ?H0, ?H1, ?He, ?Ha; cbn).
      eexists. split; [reflexivity |]. cbn. rewrite ?Ha. auto.
    - destruct (truthy (environ env KEY_VAR)) eqn:Hk; cbn.
      + destruct (environ env KEY_VAR) as [text |] eqn:Hv; [| discriminate].
        cbn. destruct (json_parse env text) as [j |] eqn:Hj; [| discriminate].
        cbn. intros Hexp. injection Hexp as <-.
        repeat (rewrite ?H0, ?H1, ?He, ?Ha, ?Hv, ?Hj; cbn).
        eexists. split; [reflexivity |]. cbn. rewrite ?Ha. auto.
      + destruct (truthy (environ env ADC_VAR)) eqn:Hg; cbn; [| discriminate].
        intros Hexp. injection Hexp as <-.
        repeat (rewrite ?H0, ?H1, ?He, ?Ha; cbn).
        eexists. split; [reflexivity |]. cbn. rewrite ?Ha. auto. }
  destruct Hfirst as (s1 & Hrun & Hreg & Happ & Hdb & Hflag).
  exists s1. repeat split; auto.
  intros env2 Hok2.
  rewrite (initialize_firebase_reuse env2 s1 a [] Hreg Hok2).
  do 2 eexists. split; [reflexivity |]. cbn.
  split; [rewrite <- !app_assoc; reflexivity |].
  rewrite Hreg. repeat split.
Qed.



(* ------------------------------------------------------------------ *)
(** ** What seeding leaves alone *)

(** The collections [create_sample_data] writes to. *)
Definition seeded_collections : list string :=
  ["sensor_data"; "alerts"; "system_settings"].

(** From [s] to [s'] the object and the registry are untouched, every
    collection has kept its documents, in order, possibly followed by new
    ones, and only the three seeded collections have new ones. *)
Definition grows (s s' : State) : Prop :=
  self s' = self s /\
  apps s' = apps s /\
  (forall name, exists l,
      store s' name = (store s name ++ l)%list /\
      (~ In name seeded_collections -> l = [])) /\
  exists new, trace s' = (trace s ++ new)%list.

(** Every run of [m] takes a state to one related to it by [R]. *)
Definition keeps {A} (R : State -> State -> Prop) (m : M A) : Prop :=
  forall env s, R s (snd (m env s)).

Section Frame.

Context (R : State -> State -> Prop).
Hypothesis R_refl : forall s, R s s.
Hypothesis R_trans : forall s1 s2 s3, R s1 s2 -> R s2 s3 -> R s1 s3.

Lemma keeps_ret {A} (a : A) : keeps R (ret a).
Proof. intros env s. apply R_refl. Qed.

Lemma keeps_raise {A} (e : exn) : keeps R (@raise A e).
Proof. intros env s. apply R_refl. Qed.

Lemma keeps_gets {A} (f : State -> A) : keeps R (gets f).
Proof. intros env s. apply R_refl. Qed.

Lemma keeps_asks {A} (f : Env -> A) : keeps R (asks f).
Proof. intros env s. apply R_refl. Qed.

Lemma keeps_modify (f : State -> State) :
  (forall s, R s (f s)) -> keeps R (modify f).
Proof. intros H env s. apply H. Qed.

Lemma keeps_bind {A B} (m : M A) (k : A -> M B) :
  keeps R m -> (forall a, keeps R (k a)) -> keeps R (bind m k).
Proof.
  intros Hm Hk env s. unfold bind. specialize (Hm env s).
  destruct (m env s) as [[a | e] s1]; cbn in *; [| exact Hm].
  eapply R_trans; [exact Hm | apply Hk].
Qed.

Lemma keeps_bind_value {A B} (P : A -> Prop) (m : M A) (k : A -> M B) :
  keeps R m ->
  (forall env s a s1, m env s = (Ret a, s1) -> P a) ->
  (forall a, P a -> keeps R (k a)) ->
  keeps R (bind m k).
Proof.
  intros Hm Hv Hk env s. unfold bind. specialize (Hm env s). specialize (Hv env s).
  destruct (m env s) as [[a | e] s1]; cbn in *; [| exact Hm].
  eapply R_trans; [exact Hm | apply Hk, (Hv a s1 eq_refl)].
Qed.

Lemma keeps_try_except {A} (body : M A) (handler : exn -> M A) :
  keeps R body -> (forall e, keeps R (handler e)) -> keeps R (try_except body handler).
Proof.
  intros Hb Hh env s. unfold try_except. specialize (Hb env s).
  destruct (body env s) as [[a | e] s1]; cbn in *; [exact Hb |].
  eapply R_trans; [exact Hb | apply Hh].
Qed.

Lemma keeps_for_each {A} (xs : list A) (body : A -> M unit) :
  (forall x, keeps R (body x)) -> keeps R (for_each xs body).
Proof.
  intros Hb. induction xs as [| x xs IH]; cbn.
  - apply keeps_ret.
  - apply keeps_bind; [apply Hb | intros _; exact IH].
Qed.

End Frame.

Lemma grows_refl s : grows s s.
Proof.
  repeat split.
  - intros name. exists []. rewrite app_nil_r. auto.
  - exists []. rewrite app_nil_r. reflexivity.
Qed.

Lemma grows_trans s1 s2 s3 : grows s1 s2 -> grows s2 s3 -> grows s1 s3.
Proof.
  intros (A1 & B1 & C1 & new1 & D1) (A2 & B2 & C2 & new2 & D2).
  repeat split; try congruence.
  - intros name. destruct (C1 name) as (l1 & E1 & N1), (C2 name) as (l2 & E2 & N2).
    exists (l1 ++ l2)%list. split.
    + rewrite E2, E1, app_assoc. reflexivity.
    + intros Hn. rewrite (N1 Hn), (N2 Hn). reflexivity.
  - exists (new1 ++ new2)%list. rewrite D2, D1, app_assoc. reflexivity.
Qed.

Lemma grows_log ev s : grows s (log ev s).
Proof.
  repeat split.
  - intros name. exists []. rewrite app_nil_r. auto.
  - exists [ev]. reflexivity.
Qed.

Lemma grows_called ev s : grows s (called ev s).
Proof.
  repeat split.
  - intros name. exists []. rewrite app_nil_r. auto.
  - exists [ev]. reflexivity.
Qed.

Lemma keeps_sdk_call ev : keeps grows (sdk_call ev).
Proof.
  intros env s. unfold sdk_call.
  destruct (fault env (sdk_calls s)); apply grows_called.
Qed.

Lemma keeps_print line : keeps grows (print line).
Proof. apply keeps_modify. intros s. apply grows_log. Qed.

Lemma keeps_datetime_now : keeps grows datetime_now.
Proof.
  intros env s. cbn. repeat split.
  - intros name. exists []. rewrite app_nil_r. auto.
  - exists [ENow]. reflexivity.
Qed.

Lemma keeps_random_random : keeps grows random_random.
Proof.
  intros env s. cbn. repeat split.
  - intros name. exists []. rewrite app_nil_r. auto.
  - exists [ERandom]. reflexivity.
Qed.

Lemma keeps_db_collection name : keeps grows (db_collection name).
Proof.
  unfold db_collection. apply (keeps_bind grows grows_trans).
  - apply (keeps_gets grows grows_refl).
  - intros [c |].
    + apply (keeps_bind grows grows_trans); [apply keeps_sdk_call |].
      intros _. apply (keeps_ret grows grows_refl).
    + apply (keeps_raise grows grows_refl).
Qed.

Lemma keeps_limit_get c n : keeps grows (limit_get c n).
Proof.
  unfold limit_get. apply (keeps_bind grows grows_trans); [apply keeps_sdk_call |].
  intros _. apply (keeps_gets grows grows_refl).
Qed.

Lemma keeps_collection_add c d :
  In c seeded_collections -> keeps grows (collection_add c d).
Proof.
  intros Hc env s. rewrite collection_add_step.
  destruct (fault env (sdk_calls s)); cbn [snd]; [apply grows_called |].
  unfold added. repeat split.
  - intros name. cbn. unfold store_add.
    destruct (String.eqb_spec name c) as [-> | Hn].
    + exists [d]. split; [reflexivity |]. intros Hout. contradiction.
    + exists []. rewrite app_nil_r. auto.
  - exists [EAdd c d]. reflexivity.
Qed.

Section SeedingFrame.

Context {F : FloatFormat}.

Lemma keeps_random_uniform a b : keeps grows (random_uniform a b).
Proof.
  unfold random_uniform. apply (keeps_bind grows grows_trans);
    [apply keeps_random_random | intros u; apply (keeps_ret grows grows_refl)].
Qed.

Lemma keeps_seed_reading c h :
  In c seeded_collections -> keeps grows (seed_reading c h).
Proof.
  intros Hc. unfold seed_reading.
  apply (keeps_bind grows grows_trans); [apply keeps_datetime_now | intros now].
  do 3 (apply (keeps_bind grows grows_trans); [apply keeps_random_uniform | intros ?]).
  apply keeps_collection_add, Hc.
Qed.

Lemma db_collection_value name env s c s1 :
  db_collection name env s = (Ret c, s1) -> c = name.
Proof.
  unfold db_collection, bind, gets, sdk_call, ret, raise.
  destruct (db (self s)); [| discriminate].
  destruct (fault env (sdk_calls s)); [discriminate |].
  intros H. injection H as <- _. reflexivity.
Qed.

Lemma keeps_create_sample_data_body : keeps grows create_sample_data_body.
Proof.
  unfold create_sample_data_body.
  apply (keeps_bind_value grows grows_trans (fun c => c = "sensor_data"));
    [apply keeps_db_collection | apply db_collection_value | intros c ->].
  apply (keeps_bind grows grows_trans); [apply keeps_limit_get | intros existing].
  destruct (0 <? length existing)%nat.
  { apply (keeps_bind grows grows_trans); [apply keeps_print | intros _].
    apply (keeps_ret grows grows_refl). }
  apply (keeps_bind grows grows_trans); [apply keeps_print | intros _].
  apply (keeps_bind grows grows_trans).
  { apply (keeps_for_each grows grows_refl grows_trans). intros h.
    apply keeps_seed_reading. cbn. auto. }
  intros _.
  apply (keeps_bind_value grows grows_trans (fun c => c = "alerts"));
    [apply keeps_db_collection | apply db_collection_value | intros c ->].
  do 3 (apply (keeps_bind grows grows_trans); [apply keeps_datetime_now | intros ?]).
  apply (keeps_bind grows grows_trans).
  { apply (keeps_for_each grows grows_refl grows_trans). intros d.
    apply keeps_collection_add. cbn. auto. }
  intros _.
  apply (keeps_bind_value grows grows_trans (fun c => c = "system_settings"));
    [apply keeps_db_collection | apply db_collection_value | intros c ->].
  do 3 (apply (keeps_bind grows grows_trans); [apply keeps_datetime_now | intros ?]).
  apply (keeps_bind grows grows_trans); [apply keeps_collection_add; cbn; auto | intros _].
  apply (keeps_bind grows grows_trans); [apply keeps_print | intros _].
  apply (keeps_ret grows grows_refl).
Qed.

Lemma keeps_create_sample_data : keeps grows create_sample_data.
Proof.
  unfold create_sample_data, is_available.
  apply (keeps_bind grows grows_trans); [apply (keeps_gets grows grows_refl) | intros b].
  destruct (negb b).
  - apply (keeps_bind grows grows_trans); [apply keeps_print | intros _].
    apply (keeps_ret grows grows_refl).
  - apply (keeps_try_except grows grows_trans); [apply keeps_create_sample_data_body |].
    intros e. apply (keeps_bind grows grows_trans); [apply keeps_print | intros _].
    apply (keeps_ret grows grows_refl).
Qed.

(** X7: [create_sample_data] only ever appends, in every environment and
    from every state: the object and the app registry are untouched (so
    availability is as before), each collection keeps the documents it
    had, in order, and no collection other than sensor_data, alerts and
    system_settings receives a document. *)
Theorem create_sample_data_only_appends :
  forall (env : Env) (s : State),
    exists (b : bool) (s' : State),
      create_sample_data env s = (Ret b, s') /\
      self s' = self s /\
      apps s' = apps s /\
      is_available_of (self s') = is_available_of (self s) /\
      (forall name, exists l, store s' name = (store s name ++ l)%list) /\
      (forall name,
          name <> "sensor_data" -> name <> "alerts" -> name <> "system_settings" ->
          store s' name = store s name).
Proof.
  intros env s.
  destruct (create_sample_data_returns env s) as (b & s' & Hrun).
  pose proof (keeps_create_sample_data env s) as H. rewrite Hrun in H. cbn in H.
  destruct H as (Hself & Happs & Hstore & _).
  exists b, s'. split; [exact Hrun |]. split; [exact Hself |]. split; [exact Happs |].
  split; [rewrite Hself; reflexivity |]. split.
  - intros name. destruct (Hstore name) as (l & Hl & _). eauto.
  - intros name N1 N2 N3. destruct (Hstore name) as (l & Hl & Hout).
    rewrite Hl, Hout, app_nil_r; [reflexivity |].
    cbn. intros [H | [H | [H | []]]]; congruence.
Qed.

End SeedingFrame.

(* ------------------------------------------------------------------ *)
(** ** Further properties of seeding *)

(** [create_sample_data()] called once in each of the environments [envs],
    one call after the other. *)
Fixpoint seed_again {F : FloatFormat} (envs : list Env) (s : State) : State :=
  match envs with
  | [] => s
  | env :: rest => seed_again rest (snd (create_sample_data env s))
  end.

Section SeedingMore.

Context {F : FloatFormat}.

(** X5: the constructor builds an object whose fields agree ([db] set
    exactly when [is_initialized] is, [app] set whenever it is), and
    [initialize_firebase] and [create_sample_data] keep them so; for such
    an object [is_available] is just [is_initialized]. *)
Theorem object_fields_stay_coherent :
  forall (env : Env) (s : State),
    coherent (self (snd (__init__ env s))) /\
    (coherent (self s) ->
     coherent (self (snd (initialize_firebase env s))) /\
     coherent (self (snd (create_sample_data env s))) /\
     is_available_of (self s) = is_initialized (self s)).
Proof.
  intros env s. split.
  - unfold coherent. run; cbn; repeat split; intros; try discriminate; congruence.
  - intros [Hdb Happ]. split; [| split].
    + unfold coherent in *. run; cbn; repeat split; intros;
        try discriminate; try tauto; try congruence.
    + destruct (keeps_create_sample_data env s) as (Hself & _).
      rewrite Hself. split; assumption.
    + unfold is_available_of. destruct (is_initialized (self s)) eqn:Hi; [| reflexivity].
      destruct (db (self s)); [reflexivity |]. exfalso. apply Hdb; reflexivity.
Qed.

(** X8: when [collection('sensor_data')] or the existence probe raises,
    [create_sample_data] returns [False] after printing the message of the
    exception; nothing is written, no write is attempted, and neither the
    clock nor the random number generator is read. *)
Theorem failed_probe_writes_nothing :
  forall (env : Env) (s : State) (e : exn),
    is_available_of (self s) = true ->
    fault env (sdk_calls s) = Some e \/
    (fault env (sdk_calls s) = None /\ fault env (S (sdk_calls s)) = Some e) ->
    exists (s' : State) (calls : list event),
      create_sample_data env s = (Ret false, s') /\
      trace s'
      = (trace s ++ calls
         ++ [EPrint ("❌ Error creating sample data: " ++ exn_message e)])%list /\
      filter is_add calls = [] /\
      store s' = store s /\
      clock_reads s' = clock_reads s /\
      rng_reads s' = rng_reads s.
Proof.
  intros env s e Hav Hf. destruct (available_db _ Hav) as [c0 Hdb].
  assert (Hbody : exists s1 calls,
             create_sample_data_body env s = (Raise e, s1) /\
             trace s1 = (trace s ++ calls)%list /\ filter is_add calls = [] /\
             store s1 = store s /\ clock_reads s1 = clock_reads s /\
             rng_reads s1 = rng_reads s).
  { unfold create_sample_data_body.
    unfold bind at 1. rewrite (db_collection_step _ _ _ c0 Hdb).
    destruct Hf as [H0 | [H0 H1]]; rewrite H0.
    - do 2 eexists. split; [reflexivity |]. state_simpl. repeat split.
    - unfold bind at 1. rewrite limit_get_step. state_simpl. rewrite H1.
      do 2 eexists. split; [reflexivity |]. state_simpl.
      rewrite <- app_assoc. repeat split. }
  destruct Hbody as (s1 & calls & Hrun & Htr & Hadd & Hst & Hc & Hr).
  rewrite (create_sample_data_raise env s e s1 Hav Hrun).
  exists (log (EPrint ("❌ Error creating sample data: " ++ exn_message e)) s1), calls.
  split; [reflexivity |]. state_simpl. rewrite Htr, <- app_assoc. auto.
Qed.

(** [collection('alerts')] raises. *)
Lemma alerts_collection_fails env s c0 e :
  db (self s) = Some c0 ->
  fault env (sdk_calls s) = Some e ->
  exists s1,
    seed_alerts_and_settings env s = (Raise e, s1) /\ store s1 = store s.
Proof.
  intros Hdb He. unfold seed_alerts_and_settings.
  unfold bind at 1. rewrite (db_collection_step _ _ _ c0 Hdb), He.
  eexists. split; reflexivity.
Qed.

(** [collection('system_settings')] raises. *)
Lemma settings_collection_fails env s c0 e :
  db (self s) = Some c0 ->
  sdk_ok env (sdk_calls s) 4 ->
  fault env (4 + sdk_calls s) = Some e ->
  exists s1,
    seed_alerts_and_settings env s = (Raise e, s1) /\
    store s1 "sensor_data" = store s "sensor_data" /\
    store s1 "alerts" = (store s "alerts" ++ alerts_at env s)%list /\
    store s1 "system_settings" = store s "system_settings".
Proof.
  intros Hdb Hok He. unfold seed_alerts_and_settings.
  unfold bind at 1. rewrite (db_collection_step _ _ _ c0 Hdb). fault_none Hok 0%nat.
  rewrite !bind_now.
  change (sample_alerts _ _ _) with (alerts_at env (called (ECollection "alerts") s)).
  unfold bind at 1. rewrite alerts_loop_completes
    by (apply (sdk_ok_shift env (sdk_calls s) 3 1), (sdk_ok_less env _ 4); [exact Hok | lia]).
  set (s0 := called (ECollection "alerts") s).
  destruct (completed_adds "alerts" (alerts_at env s0) (ticked (ticked (ticked s0))))
    as (C1 & _ & _ & _ & C5 & C6 & _).
  pose proof (completed_calls (added "alerts") (added_calls "alerts")
                (alerts_at env s0) (ticked (ticked (ticked s0)))) as Cc.
  set (s4 := completed _ _ _) in *. clearbody s4.
  change (length (alerts_at env s0)) with 3%nat in Cc.
  change (sdk_calls (ticked (ticked (ticked s0)))) with (S (sdk_calls s)) in Cc.
  change (self (ticked (ticked (ticked s0)))) with (self s) in C1.
  change (store (ticked (ticked (ticked s0)))) with (store s) in C5, C6.
  cbn [Nat.add] in Cc, He.
  unfold bind at 1. rewrite (db_collection_step _ _ _ c0) by (rewrite C1; exact Hdb).
  rewrite Cc, He.
  eexists. split; [reflexivity |]. state_simpl.
  rewrite C5, !C6 by discriminate. repeat split.
Qed.

(** X9: when [collection('alerts')] raises after the 24 readings, or
    [collection('system_settings')] after the three alerts, the call
    returns [False] and what was written before stays: the 24 readings in
    the first case, the readings and the alerts in the second. *)
Theorem failed_collection_keeps_earlier_writes :
  forall (env : Env) (s : State) (e : exn),
    is_available_of (self s) = true ->
    store s "sensor_data" = [] ->
    (sdk_ok env (sdk_calls s) 26 ->
     fault env (26 + sdk_calls s) = Some e ->
     exists s',
       create_sample_data env s = (Ret false, s') /\
       store s' "sensor_data" = sensor_docs env s /\
       store s' "alerts" = store s "alerts" /\
       store s' "system_settings" = store s "system_settings") /\
    (sdk_ok env (sdk_calls s) 30 ->
     fault env (30 + sdk_calls s) = Some e ->
     exists s',
       create_sample_data env s = (Ret false, s') /\
       store s' "sensor_data" = sensor_docs env s /\
       store s' "alerts" = (store s "alerts" ++ alert_docs env s)%list /\
       store s' "system_settings" = store s "system_settings").
Proof.
  intros env s e Hav He. destruct (available_db _ Hav) as [c0 Hdb].
  set (s0 := log (EPrint "📊 Creating sample sensor data...") (probed s)).
  destruct (completed_readings env "sensor_data" (range 24) s0)
    as (C1 & _ & C3 & _ & C5 & C6 & _).
  pose proof (completed_calls (reading_added env "sensor_data")
                (reading_added_calls env "sensor_data") (range 24) s0) as Cc.
  assert (Hloop : sdk_ok env (sdk_calls s) 26 ->
                  for_each (range 24) (seed_reading "sensor_data") env s0
                  = (Ret tt, completed (reading_added env "sensor_data") (range 24) s0)).
  { intros Hok. apply readings_loop_completes. intros j Hj.
    change (sdk_calls s0) with (S (S (sdk_calls s))).
    replace (j + S (S (sdk_calls s)))%nat with (2 + j + sdk_calls s)%nat by lia.
    apply Hok. lia. }
  set (s2 := completed _ _ s0) in *. clearbody s2.
  rewrite range_length in Cc, C3.
  change (sdk_calls s0) with (S (S (sdk_calls s))) in Cc.
  change (clock_reads s0) with (clock_reads s) in C3, C5.
  change (rng_reads s0) with (rng_reads s) in C5.
  change (self s0) with (self s) in C1.
  change (store s0) with (store s) in C5, C6.
  assert (Hdb2 : db (self s2) = Some c0) by (rewrite C1; exact Hdb).
  assert (Hsensor : store s2 "sensor_data" = sensor_docs env s).
  { rewrite C5, He. reflexivity. }
  split.
  - intros Hok Hf.
    destruct (alerts_collection_fails env s2 c0 e Hdb2) as (s1 & Hrun & S1).
    { rewrite Cc. exact Hf. }
    assert (Hbody : create_sample_data_body env s = (Raise e, s1)).
    { rewrite (probe_miss env s Hav He (sdk_ok_less env _ 26 2 Hok ltac:(lia))).
      fold s0. unfold bind at 1. rewrite (Hloop Hok). exact Hrun. }
    rewrite (create_sample_data_raise env s e s1 Hav Hbody).
    eexists. split; [reflexivity |]. state_simpl.
    rewrite S1, Hsensor, !C6 by discriminate. repeat split.
  - intros Hok Hf.
    destruct (settings_collection_fails env s2 c0 e Hdb2) as (s1 & Hrun & S1 & S2 & S3).
    { intros j Hj. rewrite Cc.
      replace (j + (24 + S (S (sdk_calls s))))%nat with (26 + j + sdk_calls s)%nat by lia.
      apply Hok. lia. }
    { rewrite Cc. exact Hf. }
    assert (Hok26 : sdk_ok env (sdk_calls s) 26)
      by (apply (sdk_ok_less env _ 30); [exact Hok | lia]).
    assert (Hbody : create_sample_data_body env s = (Raise e, s1)).
    { rewrite (probe_miss env s Hav He (sdk_ok_less env _ 30 2 Hok ltac:(lia))).
      fold s0. unfold bind at 1. rewrite (Hloop Hok26). exact Hrun. }
    rewrite (create_sample_data_raise env s e s1 Hav Hbody).
    eexists. split; [reflexivity |]. state_simpl.
    rewrite S1, S2, S3, Hsensor, !C6 by discriminate.
    unfold alerts_at, alert_docs. rewrite C3. repeat split.
Qed.

(** X10: a fresh seeding in which none of its 32 calls fails returns
    [True] and appends exactly 24 readings, three alerts and one settings
    document; the alerts and the settings go after whatever their
    collections held, since only sensor_data is probed; the alerts are
    stamped 10 minutes, 2 hours and 4 hours before the clock readings that
    follow the loop. *)
Theorem fresh_seed_writes_alerts_and_settings :
  forall (env : Env) (s : State),
    is_available_of (self s) = true ->
    store s "sensor_data" = [] ->
    sdk_ok env (sdk_calls s) 32 ->
    let now := fun k : nat => clock env (k + clock_reads s) in
    exists (s' : State) (alerts : list Doc) (settings : Doc),
      create_sample_data env s = (Ret true, s') /\
      length (store s' "sensor_data") = 24%nat /\
      store s' "alerts" = (store s "alerts" ++ alerts)%list /\
      store s' "system_settings" = (store s "system_settings" ++ [settings])%list /\
      map timestamp_of alerts
      = [Some (now 24%nat - 10 * MINUTE)%Z; Some (now 25%nat - 2 * HOUR)%Z;
         Some (now 26%nat - 4 * HOUR)%Z] /\
      map (doc_get "type") alerts
      = [Some (VStr "warning"); Some (VStr "info"); Some (VStr "success")] /\
      map (doc_get "acknowledged") alerts
      = [Some (VBool false); Some (VBool true); Some (VBool true)] /\
      doc_get "created_at" settings = Some (VTimestamp (now 29%nat)).
Proof.
  intros env s Hav He Hok now.
  destruct (fresh_seed_completes env s Hav He Hok) as (s' & Hrun & S1 & S2 & S3).
  exists s', (alert_docs env s), (settings_doc env s).
  split; [exact Hrun |].
  split; [rewrite S1; unfold sensor_docs; rewrite readings_from_length; apply range_length |].
  split; [exact S2 |]. split; [exact S3 |].
  repeat split.
Qed.

(** A call that changed the store has left a document in the sensor
    collection. *)
Lemma wrote_then_readings env s b s1 :
  create_sample_data env s = (Ret b, s1) ->
  (exists name, store s1 name <> store s name) ->
  store s1 "sensor_data" <> [].
Proof.
  intros Hrun [name Hdiff].
  destruct (is_available_of (self s)) eqn:Hav.
  2: { rewrite (create_sample_data_unavailable env s Hav) in Hrun.
       injection Hrun as _ <-. exfalso. apply Hdiff. reflexivity. }
  destruct (sdk_ok_2_dec env (sdk_calls s)) as [Hok | Hbad].
  2: { destruct (probe_raises env s Hav Hbad) as (e & s2 & new & Hr & Hst & _).
       rewrite (create_sample_data_raise env s e s2 Hav Hr) in Hrun.
       injection Hrun as _ <-. exfalso. apply Hdiff. state_simpl. rewrite Hst. reflexivity. }
  destruct (store s "sensor_data") as [| d ds] eqn:Hst.
  2: { assert (Hne : store s "sensor_data" <> []) by (rewrite Hst; discriminate).
       rewrite (create_sample_data_return env s _ _ Hav (probe_hit env s Hav Hne Hok)) in Hrun.
       injection Hrun as _ <-. exfalso. apply Hdiff. reflexivity. }
  pose proof (probe_miss env s Hav Hst Hok) as Hbody.
  set (s0 := log (EPrint "📊 Creating sample sensor data...") (probed s)) in *.
  destruct (for_each_prefix env (seed_reading "sensor_data")
              (reading_added env "sensor_data") (reading_failed env "sensor_data")
              (fun x s => seed_reading_step "sensor_data" x env s) (range 24) s0)
    as (o & s2 & pre & post & Hloop & Hsplit & Hcase).
  destruct (completed_readings env "sensor_data" pre s0)
    as (_ & _ & _ & _ & C5 & C6 & _).
  change (store s0) with (store s) in C5, C6.
  unfold bind at 1 in Hbody. rewrite Hloop in Hbody.
  destruct Hcase as [(-> & -> & ->) | (e & x & post' & -> & -> & ->)].
  - (* the loop completed *)
    rewrite app_nil_r in Hsplit. subst pre.
    destruct (alerts_and_settings_keep_readings env
                (completed (reading_added env "sensor_data") (range 24) s0))
      as (o' & s3 & new & Hrest & _ & Hkeep & _).
    rewrite Hrest in Hbody.
    assert (Hs3 : store s3 "sensor_data" <> []).
    { rewrite Hkeep, C5. intros Hnil. apply (f_equal (@length Doc)) in Hnil.
      rewrite length_app, readings_from_length, range_length in Hnil. cbn in Hnil. lia. }
    destruct o' as [b' | e].
    + rewrite (create_sample_data_return env s b' s3 Hav Hbody) in Hrun.
      injection Hrun as _ <-. exact Hs3.
    + rewrite (create_sample_data_raise env s e s3 Hav Hbody) in Hrun.
      injection Hrun as _ <-. exact Hs3.
  - (* a reading was not written *)
    rewrite (create_sample_data_raise env s e _ Hav Hbody) in Hrun.
    injection Hrun as _ <-. unfold reading_failed, add_failed. state_simpl.
    destruct pre as [| h pre].
    + exfalso. apply Hdiff. unfold reading_failed, add_failed. state_simpl. reflexivity.
    + rewrite C5, Hst. cbn. discriminate.
Qed.

(** X12: documents are written by at most one call.  Once a call has
    changed the store, even one that then failed and returned [False], no
    later call writes anything, whatever the environments: a partial
    seeding is never completed. *)
Theorem writes_happen_in_one_call :
  forall (env : Env) (s : State) (b : bool) (s1 : State),
    create_sample_data env s = (Ret b, s1) ->
    (exists name, store s1 name <> store s name) ->
    forall envs : list Env, store (seed_again envs s1) = store s1.
Proof.
  intros env s b s1 Hrun Hdiff envs.
  pose proof (wrote_then_readings env s b s1 Hrun Hdiff) as Hne.
  clear Hrun Hdiff. revert s1 Hne.
  induction envs as [| env' envs IH]; intros s1 Hne; cbn [seed_again]; [reflexivity |].
  destruct (no_write_when_readings_exist env' s1 Hne)
    as (b' & s2 & new & Hrun & Hst & _).
  rewrite Hrun. cbn [snd]. rewrite IH; [exact Hst |]. rewrite Hst. exact Hne.
Qed.

End SeedingMore.

(* ------------------------------------------------------------------ *)
(** ** The further properties on sample runs *)

(** [demo_env] in which the [n]-th SDK call fails. *)
Definition demo_failing (n : nat) : Env :=
  MkEnv "/srv/app" (path_exists demo_env) no_vars (json_parse demo_env)
        (fault_at n) (clock demo_env) (rng demo_env).

Lemma sdk_ok_fault_at n base k :
  (base + k <= n)%nat -> sdk_ok (demo_failing n) base k.
Proof.
  intros H j Hj. cbn. unfold fault_at.
  destruct (Nat.eqb_spec (j + base) n); [lia | reflexivity].
Qed.

(** X3 on the sample process, the credentials gone at the second call. *)
Lemma second_initialization_witness :
  initialize_firebase demo_env boot = (Ret true, booted) /\
  exists s2 : State,
    initialize_firebase (bare_env no_vars no_faults) booted = (Ret true, s2) /\
    self s2 = self booted /\ apps s2 = apps booted.
Proof.
  assert (Hfirst : initialize_firebase demo_env boot = (Ret true, booted)) by reflexivity.
  split; [exact Hfirst |].
  destruct (initialize_firebase_again_reuses_the_app demo_env
              (bare_env no_vars no_faults) boot booted Hfirst
              (sdk_ok_no_faults (bare_env no_vars no_faults) _ _ (fun _ => eq_refl)))
    as (s2 & new & H1 & _ & _ & _ & H2 & H3 & _).
  exists s2. auto.
Defined.

(** X4 on the sample process with a failing [firestore.client()]. *)
Lemma failed_client_witness :
  exists s1 s2 : State,
    initialize_firebase (demo_failing 2) boot = (Ret false, s1) /\
    apps s1 = [MkApp (CertificateFile "/srv/app/firebase-service-account.json")] /\
    is_available_of (self s1) = false /\
    initialize_firebase (bare_env no_vars no_faults) s1 = (Ret true, s2) /\
    is_available_of (self s2) = true.
Proof.
  destruct (failed_client_leaves_the_app_registered (demo_failing 2) boot
              (MkApp (CertificateFile "/srv/app/firebase-service-account.json"))
              (SDKError "503 service unavailable") eq_refl eq_refl
              (sdk_ok_fault_at 2 0 2 ltac:(lia)) eq_refl)
    as (s1 & H1 & H2 & _ & H3 & H4 & Hretry).
  destruct (Hretry (bare_env no_vars no_faults)
              (sdk_ok_no_faults (bare_env no_vars no_faults) _ _ (fun _ => eq_refl)))
    as (s2 & new & R1 & _ & _ & _ & R2).
  exists s1, s2. repeat split; auto.
  - unfold is_available_of. rewrite H4. reflexivity.
  - rewrite R2. reflexivity.
Defined.

(** X8 on a seeding whose existence probe fails. *)
Lemma failed_probe_witness :
  exists s' : State,
    create_sample_data (F := Fixed52) (demo_failing 4) booted = (Ret false, s') /\
    store s' = store booted.
Proof.
  destruct (failed_probe_writes_nothing (F := Fixed52) (demo_failing 4) booted
              (SDKError "503 service unavailable") eq_refl
              (or_intror (conj eq_refl eq_refl)))
    as (s' & calls & H1 & _ & _ & H2 & _).
  exists s'. auto.
Defined.

(** X9 on a seeding whose [collection('alerts')] fails. *)
Lemma failed_collection_witness :
  exists s' : State,
    create_sample_data (F := Fixed52) (demo_failing 29) booted = (Ret false, s') /\
    length (store s' "sensor_data") = 24%nat /\
    store s' "alerts" = [].
Proof.
  destruct (failed_collection_keeps_earlier_writes (F := Fixed52) (demo_failing 29)
              booted (SDKError "503 service unavailable") eq_refl eq_refl)
    as [H _].
  destruct (H (sdk_ok_fault_at 29 3 26 ltac:(lia)) eq_refl) as (s' & H1 & H2 & H3 & _).
  exists s'. split; [exact H1 |]. split; [| exact H3].
  rewrite H2. reflexivity.
Defined.

(** X10 on the first seeding of the sample process. *)
Lemma complete_seeding_witness :
  exists s' : State,
    create_sample_data (F := Fixed52) demo_env booted = (Ret true, s') /\
    length (store s' "sensor_data") = 24%nat /\
    length (store s' "alerts") = 3%nat /\
    length (store s' "system_settings") = 1%nat.
Proof.
  destruct (fresh_seed_writes_alerts_and_settings (F := Fixed52) demo_env booted
              eq_refl eq_refl (sdk_ok_no_faults demo_env _ _ (fun _ => eq_refl)))
    as (s' & alerts & settings & H1 & H2 & H3 & H4 & H5 & _).
  exists s'. split; [exact H1 |]. split; [exact H2 |].
  rewrite H3, H4. apply (f_equal (@length (option Z))) in H5.
  rewrite length_map in H5. split; [exact H5 | reflexivity].
Defined.

(** X12 on a seeding whose sixth write fails, called twice more in an
    environment where nothing fails: the five readings stay alone. *)
Lemma partial_seeding_stays_partial_witness :
  let s1 := snd (create_sample_data (F := Fixed52) sixth_write_fails booted) in
  let s3 := seed_again (F := Fixed52) [demo_env; demo_env] s1 in
  fst (create_sample_data (F := Fixed52) sixth_write_fails booted) = Ret false /\
  store s3 = store s1 /\
  length (store s3 "sensor_data") = 5%nat /\
  store s3 "alerts" = [].
Proof.
  cbv zeta.
  assert (Hfirst : fst (create_sample_data (F := Fixed52) sixth_write_fails booted)
                   = Ret false) by (vm_compute; reflexivity).
  pose proof (writes_happen_in_one_call (F := Fixed52) sixth_write_fails booted false _
                (run_of_fst _ _ Hfirst)) as H.
  assert (Hdiff : exists name,
             store (snd (create_sample_data (F := Fixed52) sixth_write_fails booted)) name
             <> store booted name).
  { exists "sensor_data". vm_compute. discriminate. }
  specialize (H Hdiff [demo_env; demo_env]).
  split; [exact Hfirst |]. split; [exact H |].
  rewrite H. split; vm_compute; reflexivity.
Defined.

(** X5 on the sample process. *)
Lemma coherent_object_witness :
  coherent (self booted) /\
  coherent (self (snd (initialize_firebase (demo_failing 4) booted))) /\
  is_available_of (self booted) = is_initialized (self booted).
Proof.
  destruct (object_fields_stay_coherent (F := Fixed52) demo_env boot) as [H0 _].
  change (self (snd (__init__ demo_env boot))) with (self booted) in H0.
  split; [exact H0 |].
  destruct (object_fields_stay_coherent (F := Fixed52) (demo_failing 4) booted)
    as [_ H].
  destruct (H H0) as (H1 & _ & H2). auto.
Defined.

(* ------------------------------------------------------------------ *)
(** ** On a quiet host the two embeddings agree *)

Section Quiet.

Variable h : Host.
Hypothesis Hquiet : quiet h.

Lemma agrees_ret {A} (a : A) : agrees (OnHost.ret a) (ret a).
Proof. intros env s. reflexivity. Qed.

Lemma agrees_raise {A} (e : exn) : agrees (@OnHost.raise A e) (raise e).
Proof. intros env s. reflexivity. Qed.

Lemma agrees_modify f : agrees (OnHost.modify f) (modify f).
Proof. intros env s. reflexivity. Qed.

Lemma agrees_gets {A} (f : State -> A) : agrees (OnHost.gets f) (gets f).
Proof. intros env s. reflexivity. Qed.

Lemma agrees_asks {A} (f : Env -> A) : agrees (OnHost.asks f) (asks f).
Proof. intros env s. reflexivity. Qed.

Lemma agrees_bind {A B} (m' : OnHost.M A) (m : M A) (k' : A -> OnHost.M B) (k : A -> M B) :
  agrees m' m -> (forall a, agrees (k' a) (k a)) ->
  agrees (OnHost.bind m' k') (bind m k).
Proof.
  intros Hm Hk env s. unfold OnHost.bind, bind. rewrite (Hm env s).
  destruct (m env s) as [[a | e] s1]; cbn; [apply Hk | reflexivity].
Qed.

Lemma agrees_try_except {A} (m' : OnHost.M A) (m : M A) (k' : exn -> OnHost.M A)
      (k : exn -> M A) :
  agrees m' m -> (forall e, agrees (k' e) (k e)) ->
  agrees (OnHost.try_except m' k') (try_except m k).
Proof.
  intros Hm Hk env s. unfold OnHost.try_except, try_except. rewrite (Hm env s).
  destruct (m env s) as [[a | e] s1]; cbn; [reflexivity | apply Hk].
Qed.

Lemma agrees_outside {A} (m' : OnHost.M A) (m : M A) :
  agrees m' m -> agrees (OnHost.outside h m') m.
Proof.
  intros Hm env s. unfold OnHost.outside.
  rewrite (proj2 Hquiet). apply Hm.
Qed.

Lemma agrees_sdk_call ev : agrees (OnHost.sdk_call h ev) (sdk_call ev).
Proof.
  apply agrees_outside. intros env s. unfold sdk_call.
  destruct (fault env (sdk_calls s)); reflexivity.
Qed.

Lemma agrees_print line : agrees (OnHost.print h line) (print line).
Proof.
  apply agrees_outside. intros env s. rewrite (proj1 Hquiet). reflexivity.
Qed.

Lemma agrees_datetime_now : agrees (OnHost.datetime_now h) datetime_now.
Proof. apply agrees_outside. intros env s. reflexivity. Qed.

Lemma agrees_random_random : agrees (OnHost.random_random h) random_random.
Proof. apply agrees_outside. intros env s. reflexivity. Qed.

Lemma agrees_for_each {A} (xs : list A) (body' : A -> OnHost.M unit) (body : A -> M unit) :
  (forall x, agrees (body' x) (body x)) ->
  agrees (OnHost.for_each xs body') (for_each xs body).
Proof.
  intros Hb. induction xs as [| x xs IH]; cbn.
  - apply agrees_ret.
  - apply agrees_bind; [apply Hb | intros _; exact IH].
Qed.

Ltac agree :=
  repeat first
    [ apply agrees_ret | apply agrees_raise | apply agrees_modify
    | apply agrees_gets | apply agrees_asks | apply agrees_sdk_call
    | apply agrees_print | apply agrees_datetime_now | apply agrees_random_random
    | apply agrees_outside
    | apply agrees_bind; [| intros ?]
    | apply agrees_try_except; [| intros ?]
    | apply agrees_for_each; intros ?
    | match goal with
      | |- agrees (match ?x with _ => _ end) _ => destruct x
      end ].

Lemma initialize_firebase_body_on_quiet_host :
  agrees (OnHost.initialize_firebase_body h) initialize_firebase_body.
Proof.
  unfold OnHost.initialize_firebase_body, initialize_firebase_body,
    OnHost.firebase_admin_apps, firebase_admin_apps, OnHost.get_app, get_app,
    OnHost.firestore_client, firestore_client, OnHost.Certificate_path,
    Certificate_path, OnHost.Certificate_info, Certificate_info,
    OnHost.credentials_ApplicationDefault, credentials_ApplicationDefault,
    OnHost.initialize_app, initialize_app, OnHost.os_path_exists, os_path_exists,
    OnHost.os_getenv, os_getenv, OnHost.json_loads, json_loads,
    OnHost.not_configured_banner, not_configured_banner,
    OnHost.set_app, set_app, OnHost.set_db, set_db,
    OnHost.set_is_initialized, set_is_initialized.
  agree.
Qed.

Lemma initialize_firebase_on_quiet_host :
  agrees (OnHost.initialize_firebase h) initialize_firebase.
Proof.
  unfold OnHost.initialize_firebase, initialize_firebase.
  apply agrees_try_except; [apply initialize_firebase_body_on_quiet_host |].
  intros e. agree.
Qed.

Lemma constructor_on_quiet_host : agrees (OnHost.__init__ h) __init__.
Proof.
  unfold OnHost.__init__, __init__, OnHost.set_app, set_app, OnHost.set_db, set_db,
    OnHost.set_is_initialized, set_is_initialized.
  agree.
Qed.

Lemma get_firestore_client_on_quiet_host :
  agrees (OnHost.get_firestore_client) get_firestore_client.
Proof.
  unfold OnHost.get_firestore_client, get_firestore_client, OnHost.is_available,
    is_available.
  agree.
Qed.

Context {F : FloatFormat}.

Lemma create_sample_data_body_on_quiet_host :
  agrees (OnHost.create_sample_data_body h) create_sample_data_body.
Proof.
  unfold OnHost.create_sample_data_body, create_sample_data_body,
    OnHost.db_collection, db_collection, OnHost.limit_get, limit_get.
  agree;
    unfold OnHost.seed_reading, seed_reading, OnHost.random_uniform, random_uniform,
      OnHost.collection_add, collection_add;
    agree.
Qed.

Lemma create_sample_data_on_quiet_host :
  agrees (OnHost.create_sample_data h) create_sample_data.
Proof.
  unfold OnHost.create_sample_data, create_sample_data, OnHost.is_available,
    is_available.
  agree.
Qed.

End Quiet.

(* ------------------------------------------------------------------ *)
(** ** Where an interruption comes from *)

Section Interruptions.

Variable h : Host.

Lemma passes_on_ret {A} (a : A) : passes_on h (OnHost.ret a).
Proof. intros env s b s' H. discriminate. Qed.

Lemma passes_on_raise {A} (e : exn) : passes_on h (@OnHost.raise A e).
Proof. intros env s b s' H. discriminate. Qed.

Lemma passes_on_modify f : passes_on h (OnHost.modify f).
Proof. intros env s b s' H. discriminate. Qed.

Lemma passes_on_gets {A} (f : State -> A) : passes_on h (OnHost.gets f).
Proof. intros env s b s' H. discriminate. Qed.

Lemma passes_on_asks {A} (f : Env -> A) : passes_on h (OnHost.asks f).
Proof. intros env s b s' H. discriminate. Qed.

Lemma passes_on_bind {A B} (m : OnHost.M A) (k : A -> OnHost.M B) :
  passes_on h m -> (forall a, passes_on h (k a)) -> passes_on h (OnHost.bind m k).
Proof.
  intros Hm Hk env s b s' H. unfold OnHost.bind in H.
  destruct (m env s) as [[a | e | b0] s1] eqn:Em.
  - exact (Hk a env s1 b s' H).
  - discriminate.
  - inversion H; subst. exact (Hm env s b s' Em).
Qed.

Lemma passes_on_try_except {A} (m : OnHost.M A) (k : exn -> OnHost.M A) :
  passes_on h m -> (forall e, passes_on h (k e)) -> passes_on h (OnHost.try_except m k).
Proof.
  intros Hm Hk env s b s' H. unfold OnHost.try_except in H.
  destruct (m env s) as [[a | e | b0] s1] eqn:Em.
  - discriminate.
  - exact (Hk e env s1 b s' H).
  - inversion H; subst. exact (Hm env s b s' Em).
Qed.

Lemma passes_on_outside {A} (call : OnHost.M A) :
  passes_on h call -> passes_on h (OnHost.outside h call).
Proof.
  intros Hc env s b s' H. unfold OnHost.outside in H.
  destruct (interrupt h (length (trace s))) as [b0 |] eqn:Ei.
  - inversion H; subst. exists (length (trace s)). exact Ei.
  - exact (Hc env s b s' H).
Qed.

Lemma passes_on_sdk_call ev : passes_on h (OnHost.sdk_call h ev).
Proof.
  apply passes_on_outside. intros env s b s' H.
  destruct (fault env (sdk_calls s)); discriminate.
Qed.

Lemma passes_on_print line : passes_on h (OnHost.print h line).
Proof.
  apply passes_on_outside. intros env s b s' H.
  destruct (stdout_write h (length (trace s)) line); discriminate.
Qed.

Lemma passes_on_datetime_now : passes_on h (OnHost.datetime_now h).
Proof. apply passes_on_outside. intros env s b s' H. discriminate. Qed.

Lemma passes_on_random_random : passes_on h (OnHost.random_random h).
Proof. apply passes_on_outside. intros env s b s' H. discriminate. Qed.

Lemma passes_on_for_each {A} (xs : list A) (body : A -> OnHost.M unit) :
  (forall x, passes_on h (body x)) -> passes_on h (OnHost.for_each xs body).
Proof.
  intros Hb. induction xs as [| x xs IH]; cbn.
  - apply passes_on_ret.
  - apply passes_on_bind; [apply Hb | intros _; exact IH].
Qed.

Ltac passes :=
  repeat first
    [ apply passes_on_ret | apply passes_on_raise | apply passes_on_modify
    | apply passes_on_gets | apply passes_on_asks | apply passes_on_sdk_call
    | apply passes_on_print | apply passes_on_datetime_now
    | apply passes_on_random_random | apply passes_on_outside
    | apply passes_on_bind; [| intros ?]
    | apply passes_on_try_except; [| intros ?]
    | apply passes_on_for_each; intros ?
    | match goal with
      | |- passes_on _ (match ?x with _ => _ end) => destruct x
      end ].

Lemma passes_on_initialize_firebase_body :
  passes_on h (OnHost.initialize_firebase_body h).
Proof. unfold OnHost.initialize_firebase_body. passes. Qed.

Lemma passes_on_initialize_firebase : passes_on h (OnHost.initialize_firebase h).
Proof.
  unfold OnHost.initialize_firebase.
  apply passes_on_try_except; [apply passes_on_initialize_firebase_body |].
  intros e. passes.
Qed.

Context {F : FloatFormat}.

Lemma passes_on_create_sample_data_body :
  passes_on h (OnHost.create_sample_data_body h).
Proof. unfold OnHost.create_sample_data_body. passes. Qed.

(** *** How a handler ends *)

(** [print(line); return False]: False, what the console raises on the
    line, or an interruption. *)
Lemma report_and_return_false line env s :
  OnHost.bind (OnHost.print h line) (fun _ => OnHost.ret false) env s
  = match interrupt h (length (trace s)) with
    | Some b => (OnHost.Interrupted b, log (EPrint line) s)
    | None =>
        match stdout_write h (length (trace s)) line with
        | Some e => (OnHost.Raise e, log (EPrint line) s)
        | None => (OnHost.Ret false, log (EPrint line) s)
        end
    end.
Proof.
  unfold OnHost.bind, OnHost.print, OnHost.outside, OnHost.ret.
  destruct (interrupt h (length (trace s)));
    destruct (stdout_write h (length (trace s)) line); reflexivity.
Qed.

(** How [initialize_firebase] ends, by the way its body ends. *)
Lemma initialize_firebase_by_body env s :
  OnHost.initialize_firebase h env s
  = match OnHost.initialize_firebase_body h env s with
    | (OnHost.Ret b, s1) => (OnHost.Ret b, s1)
    | (OnHost.Raise e, s1) =>
        OnHost.bind (OnHost.print h (OnHost.initialization_failed e))
                    (fun _ => OnHost.ret false) env s1
    | (OnHost.Interrupted b, s1) => (OnHost.Interrupted b, s1)
    end.
Proof. reflexivity. Qed.

Lemma create_sample_data_by_body env s :
  OnHost.create_sample_data h env s
  = if is_available_of (self s) then
      match OnHost.create_sample_data_body h env s with
      | (OnHost.Ret b, s1) => (OnHost.Ret b, s1)
      | (OnHost.Raise e, s1) =>
          OnHost.bind (OnHost.print h (OnHost.seeding_failed e))
                      (fun _ => OnHost.ret false) env s1
      | (OnHost.Interrupted b, s1) => (OnHost.Interrupted b, s1)
      end
    else
      OnHost.bind (OnHost.print h OnHost.not_available)
                  (fun _ => OnHost.ret false) env s.
Proof.
  unfold OnHost.create_sample_data, OnHost.is_available, OnHost.gets.
  unfold OnHost.bind at 1. destruct (is_available_of (self s)); reflexivity.
Qed.

(** The ways [initialize_firebase] ends. *)
Lemma initialize_firebase_ends env s :
  match fst (OnHost.initialize_firebase h env s) with
  | OnHost.Ret _ => True
  | OnHost.Raise e => exists e0, refused h (OnHost.initialization_failed e0) e
  | OnHost.Interrupted b => delivered h b
  end.
Proof.
  rewrite initialize_firebase_by_body.
  destruct (OnHost.initialize_firebase_body h env s) as [[b | e0 | b] s1] eqn:Eb.
  - exact I.
  - rewrite report_and_return_false.
    destruct (interrupt h (length (trace s1))) as [b |] eqn:Ei; cbn.
    + exists (length (trace s1)). exact Ei.
    + destruct (stdout_write h (length (trace s1)) _) as [e |] eqn:Ew; cbn; [| exact I].
      exists e0, (length (trace s1)). exact Ew.
  - exact (passes_on_initialize_firebase_body env s b s1 Eb).
Qed.

(** The ways [create_sample_data] ends. *)
Lemma create_sample_data_ends env s :
  match fst (OnHost.create_sample_data h env s) with
  | OnHost.Ret _ => True
  | OnHost.Raise e =>
      (is_available_of (self s) = false /\ refused h OnHost.not_available e) \/
      (is_available_of (self s) = true /\
       exists e0, refused h (OnHost.seeding_failed e0) e)
  | OnHost.Interrupted b => delivered h b
  end.
Proof.
  rewrite create_sample_data_by_body.
  destruct (is_available_of (self s)) eqn:Hav.
  - destruct (OnHost.create_sample_data_body h env s) as [[b | e0 | b] s1] eqn:Eb.
    + exact I.
    + rewrite report_and_return_false.
      destruct (interrupt h (length (trace s1))) as [b |] eqn:Ei; cbn.
      * exists (length (trace s1)). exact Ei.
      * destruct (stdout_write h (length (trace s1)) _) as [e |] eqn:Ew; cbn; [| exact I].
        right. split; [reflexivity |]. exists e0, (length (trace s1)). exact Ew.
    + exact (passes_on_create_sample_data_body env s b s1 Eb).
  - rewrite report_and_return_false.
    destruct (interrupt h (length (trace s))) as [b |] eqn:Ei; cbn.
    + exists (length (trace s)). exact Ei.
    + destruct (stdout_write h (length (trace s)) _) as [e |] eqn:Ew; cbn; [| exact I].
      left. split; [reflexivity |]. exists (length (trace s)). exact Ew.
Qed.

End Interruptions.

(* ------------------------------------------------------------------ *)
(** ** Symbolic execution on a host *)

Ltac unfold_host :=
  cbv beta delta
    [OnHost.__init__ OnHost.initialize_firebase OnHost.initialize_firebase_body
     OnHost.not_configured_banner OnHost.get_firestore_client OnHost.is_available
     OnHost.try_except OnHost.bind OnHost.ret OnHost.raise OnHost.modify
     OnHost.gets OnHost.asks OnHost.outside
     OnHost.firebase_admin_apps OnHost.get_app OnHost.firestore_client
     OnHost.Certificate_path OnHost.Certificate_info
     OnHost.credentials_ApplicationDefault OnHost.initialize_app
     OnHost.os_path_exists OnHost.os_getenv OnHost.json_loads OnHost.print
     OnHost.sdk_call OnHost.set_app OnHost.set_db OnHost.set_is_initialized
     service_account_path] in *.

Ltac host_step :=
  match goal with
  | |- context [match interrupt ?h ?n with _ => _ end] => destruct (interrupt h n) eqn:?
  | |- context [match stdout_write ?h ?n ?l with _ => _ end] =>
      destruct (stdout_write h n l) eqn:?
  | _ => case_step
  end.

Ltac host_run := unfold_host; cbn; repeat (host_step; cbn).

(** On every host the constructor reads the registry once. *)
Lemma constructor_reads_the_registry_once h env s :
  exists new,
    trace (snd (OnHost.__init__ h env s)) = (trace s ++ new)%list /\
    length (filter is_apps_read new) = 1%nat.
Proof.
  host_run; (eexists; split; [trace_eq | reflexivity]).
Qed.

(* ------------------------------------------------------------------ *)
(** ** Failures the [try] blocks absorb *)

(** Text in FIREBASE_SERVICE_ACCOUNT_KEY that is not JSON. *)
Lemma malformed_key_gives_false env s text :
  apps s = [] ->
  path_exists env (service_account_path env) = false ->
  environ env KEY_VAR = Some text ->
  text <> "" ->
  json_parse env text = None ->
  exists s', initialize_firebase env s = (Ret false, s') /\ self s' = self s.
Proof.
  intros Ha Hp Hk Hne Hj.
  assert (Ht : truthy (Some text) = true).
  { unfold truthy. destruct (String.eqb_spec text ""); [contradiction | reflexivity]. }
  unfold_run; cbn.
  repeat (rewrite ?Ha, ?Hp, ?Hk, ?Ht, ?Hj; cbn).
  eexists. split; reflexivity.
Qed.

(** Any SDK call of the attempt that raises. *)
Lemma failed_sdk_call_gives_false env s j e :
  (j < attempt_calls (spec_strategy env s))%nat ->
  fault env (j + sdk_calls s) = Some e ->
  exists s', initialize_firebase env s = (Ret false, s').
Proof.
  intros Hj Hf. revert Hj. unfold spec_strategy, service_account_path.
  run; intros Hj; try (eexists; reflexivity); exfalso;
    use_cases; cbn in Hj;
    (destruct j as [| [| [| j]]]; cbn in Hf; try congruence; lia).
Qed.

(* ------------------------------------------------------------------ *)
(** ** What reaches the caller *)

(** A result of the first embedding is the same result on a quiet host. *)
Lemma on_quiet_host {A} (hosted : OnHost.M A) (m : M A) env s a s' :
  agrees hosted m -> m env s = (Ret a, s') -> hosted env s = (OnHost.Ret a, s').
Proof. intros Hag Hrun. rewrite (Hag env s), Hrun. reflexivity. Qed.

Section Callers.

Context {F : FloatFormat}.

(** C2, amended: an entry point ends in one of three ways.  It returns a
    boolean; or it raises what the console raised on a line it printed
    outside its [try] block, which is the line of its own [except] handler
    (lines 66 and 181) or, for [create_sample_data] on an unavailable
    object, the line of line 82; or it passes on an interruption
    (KeyboardInterrupt, SystemExit) the host delivered.  Every [Exception]
    raised inside a [try] block is caught, and once the handler's line is
    written the result is [False].  So on a host whose console writes
    every line and that delivers no interruption neither entry point
    raises, and [False] is what text that is not JSON in
    FIREBASE_SERVICE_ACCOUNT_KEY, any failing SDK call of the attempt and
    any failing write of a fresh seeding give. *)
Theorem entry_points_raise_only_what_the_host_raises :
  forall (h : Host) (env : Env) (s : State),
    match fst (OnHost.initialize_firebase h env s) with
    | OnHost.Ret _ => True
    | OnHost.Raise e => exists e0, refused h (OnHost.initialization_failed e0) e
    | OnHost.Interrupted b => delivered h b
    end /\
    match fst (OnHost.create_sample_data h env s) with
    | OnHost.Ret _ => True
    | OnHost.Raise e =>
        (is_available_of (self s) = false /\ refused h OnHost.not_available e) \/
        (is_available_of (self s) = true /\
         exists e0, refused h (OnHost.seeding_failed e0) e)
    | OnHost.Interrupted b => delivered h b
    end /\
    (forall e s1,
        OnHost.initialize_firebase_body h env s = (OnHost.Raise e, s1) ->
        interrupt h (length (trace s1)) = None ->
        stdout_write h (length (trace s1)) (OnHost.initialization_failed e) = None ->
        OnHost.initialize_firebase h env s
        = (OnHost.Ret false, log (EPrint (OnHost.initialization_failed e)) s1)) /\
    (forall e s1,
        is_available_of (self s) = true ->
        OnHost.create_sample_data_body h env s = (OnHost.Raise e, s1) ->
        interrupt h (length (trace s1)) = None ->
        stdout_write h (length (trace s1)) (OnHost.seeding_failed e) = None ->
        OnHost.create_sample_data h env s
        = (OnHost.Ret false, log (EPrint (OnHost.seeding_failed e)) s1)) /\
    (quiet h ->
     (exists b s', OnHost.initialize_firebase h env s = (OnHost.Ret b, s')) /\
     (exists b s', OnHost.create_sample_data h env s = (OnHost.Ret b, s')) /\
     (forall text,
         apps s = [] ->
         path_exists env (service_account_path env) = false ->
         environ env KEY_VAR = Some text ->
         text <> "" ->
         json_parse env text = None ->
         exists s',
           OnHost.initialize_firebase h env s = (OnHost.Ret false, s') /\
           self s' = self s) /\
     (forall j e,
         (j < attempt_calls (spec_strategy env s))%nat ->
         fault env (j + sdk_calls s) = Some e ->
         exists s', OnHost.initialize_firebase h env s = (OnHost.Ret false, s')) /\
     (forall w e,
         is_available_of (self s) = true ->
         store s "sensor_data" = [] ->
         (w < 28)%nat ->
         sdk_ok env (sdk_calls s) (write_call w) ->
         fault env (write_call w + sdk_calls s) = Some e ->
         exists s', OnHost.create_sample_data h env s = (OnHost.Ret false, s'))).
Proof.
  intros h env s.
  split; [apply initialize_firebase_ends |].
  split; [apply create_sample_data_ends |].
  split; [| split].
  - intros e s1 Hb Hi Hw.
    rewrite initialize_firebase_by_body, Hb, report_and_return_false, Hi, Hw.
    reflexivity.
  - intros e s1 Hav Hb Hi Hw.
    rewrite create_sample_data_by_body, Hav, Hb, report_and_return_false, Hi, Hw.
    reflexivity.
  - intros Hq.
    pose proof (initialize_firebase_on_quiet_host h Hq) as Hinit.
    pose proof (create_sample_data_on_quiet_host h Hq) as Hseed.
    split; [| split; [| split; [| split]]].
    + destruct (initialize_firebase_returns env s) as (b & s' & Hrun).
      exists b, s'. exact (on_quiet_host _ _ _ _ _ _ Hinit Hrun).
    + destruct (create_sample_data_returns env s) as (b & s' & Hrun).
      exists b, s'. exact (on_quiet_host _ _ _ _ _ _ Hseed Hrun).
    + intros text Ha Hp Hk Hne Hj.
      destruct (malformed_key_gives_false env s text Ha Hp Hk Hne Hj)
        as (s' & Hrun & Hself).
      exists s'. split; [exact (on_quiet_host _ _ _ _ _ _ Hinit Hrun) | exact Hself].
    + intros j e Hj Hf.
      destruct (failed_sdk_call_gives_false env s j e Hj Hf) as (s' & Hrun).
      exists s'. exact (on_quiet_host _ _ _ _ _ _ Hinit Hrun).
    + intros w e Hav He Hw Hok Hf.
      destruct (failing_write_raises env s w e Hav He Hw Hok Hf) as (s1 & Hrun & _).
      eexists.
      exact (on_quiet_host _ _ _ _ _ _ Hseed (create_sample_data_raise env s e s1 Hav Hrun)).
Qed.

End Callers.

(** C9, amended: the constructor runs [initialize_firebase] once, from
    the blank fields (one reading of the registry on every host), drops
    the boolean and catches nothing: it returns unless the attempt raises,
    which the attempt does only with what the console raised on the line
    of its [except] handler or with an interruption the host delivered.
    On a host whose console writes every line and that delivers no
    interruption the constructor returns, and where no strategy applies
    the object is built all the same, unavailable. *)
Theorem constructor_returns_unless_the_host_raises :
  forall (h : Host) (env : Env) (s : State),
    OnHost.__init__ h env s
    = match OnHost.initialize_firebase h env (fresh s) with
      | (OnHost.Ret _, s') => (OnHost.Ret tt, s')
      | (OnHost.Raise e, s') => (OnHost.Raise e, s')
      | (OnHost.Interrupted b, s') => (OnHost.Interrupted b, s')
      end /\
    (exists new,
        trace (snd (OnHost.__init__ h env s)) = (trace s ++ new)%list /\
        length (filter is_apps_read new) = 1%nat) /\
    match fst (OnHost.__init__ h env s) with
    | OnHost.Ret _ => True
    | OnHost.Raise e => exists e0, refused h (OnHost.initialization_failed e0) e
    | OnHost.Interrupted b => delivered h b
    end /\
    (quiet h ->
     exists (b : bool) (s' : State),
       OnHost.__init__ h env s = (OnHost.Ret tt, s') /\
       OnHost.initialize_firebase h env (fresh s) = (OnHost.Ret b, s') /\
       (spec_strategy env s = Unconfigured ->
        b = false /\ self s' = blank /\ is_available_of (self s') = false)).
Proof.
  intros h env s.
  assert (Hstep : OnHost.__init__ h env s
                  = match OnHost.initialize_firebase h env (fresh s) with
                    | (OnHost.Ret _, s') => (OnHost.Ret tt, s')
                    | (OnHost.Raise e, s') => (OnHost.Raise e, s')
                    | (OnHost.Interrupted b, s') => (OnHost.Interrupted b, s')
                    end).
  { unfold OnHost.__init__, OnHost.set_app, OnHost.set_db, OnHost.set_is_initialized,
      OnHost.bind, OnHost.modify, OnHost.ret, fresh, blank. cbn.
    destruct (OnHost.initialize_firebase h env _) as [[b | e | b] s']; reflexivity. }
  split; [exact Hstep |].
  split; [apply constructor_reads_the_registry_once |].
  split.
  - rewrite Hstep.
    pose proof (initialize_firebase_ends h env (fresh s)) as Hend.
    destruct (OnHost.initialize_firebase h env (fresh s)) as [[b | e | b] s'];
      exact Hend.
  - intros Hq.
    destruct (constructor_attempts_once env s) as (b & s' & new & H1 & H2 & _ & _ & H3).
    exists b, s'.
    split; [exact (on_quiet_host _ _ _ _ _ _ (constructor_on_quiet_host h Hq) H1) |].
    split; [exact (on_quiet_host _ _ _ _ _ _ (initialize_firebase_on_quiet_host h Hq) H2) |].
    exact H3.
Qed.

(* ------------------------------------------------------------------ *)
(** ** The amended claims on sample hosts *)

Lemma quiet_utf8_host : quiet utf8_host.
Proof. split; reflexivity. Defined.

(** C2, amended, on a UTF-8 console and a process whose
    FIREBASE_SERVICE_ACCOUNT_KEY is not JSON. *)
Lemma malformed_key_on_utf8_witness :
  quiet utf8_host /\
  exists s' : State,
    OnHost.initialize_firebase utf8_host (bare_env malformed_key no_faults) boot
    = (OnHost.Ret false, s') /\
    self s' = self boot.
Proof.
  split; [exact quiet_utf8_host |].
  destruct (entry_points_raise_only_what_the_host_raises (F := Fixed52)
              utf8_host (bare_env malformed_key no_faults) boot)
    as (_ & _ & _ & _ & H).
  destruct (H quiet_utf8_host) as (_ & _ & Hkey & _).
  apply (Hkey "{not json"); try reflexivity. discriminate.
Defined.

(** C2 as stated fails on an ASCII console, where the first line an entry
    point prints raises UnicodeEncodeError: [create_sample_data] on an
    unavailable object raises at line 82, outside any [try];
    [initialize_firebase] with text that is not JSON in the variable, and
    [create_sample_data] on an available object, raise from their
    [except] handlers.  It also fails on a UTF-8 console when Ctrl-C
    arrives during the third call of [initialize_firebase]. *)
Lemma entry_points_raise_on_an_ascii_console :
  is_available_of (self boot) = false /\
  fst (OnHost.create_sample_data (F := Fixed52) ascii_host demo_env boot)
  = OnHost.Raise cannot_encode /\
  fst (OnHost.initialize_firebase ascii_host (bare_env malformed_key no_faults) boot)
  = OnHost.Raise cannot_encode /\
  filter is_print
    (trace (snd (OnHost.initialize_firebase ascii_host
                   (bare_env malformed_key no_faults) boot)))
  = [EPrint "❌ Firebase initialization failed: Expecting value"] /\
  is_available_of (self booted) = true /\
  fst (OnHost.create_sample_data (F := Fixed52) ascii_host demo_env booted)
  = OnHost.Raise cannot_encode /\
  fst (OnHost.initialize_firebase (ctrl_c_at 2) demo_env boot)
  = OnHost.Interrupted KeyboardInterrupt /\
  ~ (forall (h : Host) (env : Env) (s : State),
        (exists b s', OnHost.initialize_firebase h env s = (OnHost.Ret b, s')) /\
        (exists b s',
            OnHost.create_sample_data (F := Fixed52) h env s = (OnHost.Ret b, s'))).
Proof.
  do 7 (split; [vm_compute; reflexivity |]).
  intros H.
  destruct (H ascii_host demo_env boot) as (_ & b & s' & Hrun).
  apply (f_equal fst) in Hrun. vm_compute in Hrun. discriminate.
Qed.

(** C9, amended, on a UTF-8 console and a process without any
    credential. *)
Lemma constructor_on_utf8_witness :
  quiet utf8_host /\
  exists s' : State,
    OnHost.__init__ utf8_host (bare_env no_vars no_faults) boot = (OnHost.Ret tt, s') /\
    self s' = blank /\ is_available_of (self s') = false.
Proof.
  split; [exact quiet_utf8_host |].
  destruct (constructor_returns_unless_the_host_raises
              utf8_host (bare_env no_vars no_faults) boot)
    as (_ & _ & _ & H).
  destruct (H quiet_utf8_host) as (b & s' & H1 & _ & H2).
  destruct (H2 eq_refl) as (_ & H3 & H4).
  exists s'. auto.
Defined.

(** C9 as stated fails on an ASCII console and a process without any
    credential: the first line of the banner raises UnicodeEncodeError
    inside the [try], the handler catches it, and the line the handler
    prints raises again, out of [initialize_firebase] and out of the
    constructor: [firebase_config = FirebaseConfig()] fails, and with it
    the import of the module. *)
Lemma constructor_raises_on_an_ascii_console :
  let env := bare_env no_vars no_faults in
  spec_strategy env boot = Unconfigured /\
  fst (OnHost.__init__ ascii_host env boot) = OnHost.Raise cannot_encode /\
  filter is_print (trace (snd (OnHost.__init__ ascii_host env boot)))
  = [EPrint "⚠️ Firebase not configured. Please set up Firebase credentials.";
     EPrint (OnHost.initialization_failed cannot_encode)] /\
  ~ (forall (h : Host) (env : Env) (s : State),
        exists s', OnHost.__init__ h env s = (OnHost.Ret tt, s')).
Proof.
  cbv zeta. do 3 (split; [vm_compute; reflexivity |]).
  intros H.
  destruct (H ascii_host (bare_env no_vars no_faults) boot) as (s' & Hrun).
  apply (f_equal fst) in Hrun. vm_compute in Hrun. discriminate.
Qed.
